(** * smallsh: process execution and job control

    A shallow embedding of [smallsh.c].  Every C function that takes part in
    process creation, redirection, reaping, mode switching and dispatch is a
    Rocq function of the same name, written in a small state monad whose
    outcomes distinguish a normal return from [exit], [execvp], a wait that
    never returns, and undefined behaviour (null dereference, use of a freed
    [Node], out-of-bounds read).

    Conventions.
    - A C [int] or [pid_t] is a [Z]; [TRUE] and [FALSE] are the macros of the
      source.  A [char*] is an [option string] ([None] is [NULL]) holding the
      characters before the terminating NUL; a [char**] is an
      [option (list string)].
    - [Node] objects live in a heap indexed by address; [malloc] is assumed to
      succeed and returns an unused address, [free] keeps the bytes of the
      object and marks it dead.
    - What the operating system decides (which files open, which programs
      exist, what [fork] and [getline] return, how a child ends) is an input
      of the model: the record [world] and the arguments of [fork] and
      [get_input].
    - Every library and system call is appended to the [trace] of the
      process, in program order. *)

From Stdlib Require Import ZArith String Ascii List Lia DecimalString.
From stdpp Require Import base numbers option list strings gmap.

Open Scope Z_scope.

(** ** Constants of the source *)

Definition TRUE : Z := 1.
Definition FALSE : Z := 0.
Definition MAX_COMMAND_LEN : Z := 2049.

(** ** Constants and macros of the platform headers (Linux, glibc)

    [<signal.h>], [<fcntl.h>], [<unistd.h>] and [<sys/wait.h>] are not part of
    the repository; the values below are the ones of Linux on x86-64. *)

Definition SIGINT : Z := 2.
Definition SIGKILL : Z := 9.
Definition SIGTSTP : Z := 20.

Definition O_RDONLY : Z := 0.
Definition O_WRONLY : Z := 1.
Definition O_CREAT : Z := 64.
Definition O_TRUNC : Z := 512.

Definition STDIN_FILENO : Z := 0.
Definition STDOUT_FILENO : Z := 1.

Definition WNOHANG : Z := 1.

(** [(signed char) x] for an [int] x. *)
Definition signed_char (x : Z) : Z :=
  let b := Z.land x 255 in if 128 <=? b then b - 256 else b.

Definition WTERMSIG (status : Z) : Z := Z.land status 127.
Definition WEXITSTATUS (status : Z) : Z := Z.shiftr (Z.land status 65280) 8.
Definition WIFEXITED (status : Z) : bool := WTERMSIG status =? 0.
Definition WIFSIGNALED (status : Z) : bool :=
  0 <? Z.shiftr (signed_char (Z.land status 127 + 1)) 1.

(** How a child ended, and the wait status the kernel reports for it. *)
Inductive termination :=
| ExitedWith (code : Z)
| KilledBy (sig : Z) (core : bool).

Definition wstatus (t : termination) : Z :=
  match t with
  | ExitedWith code => Z.shiftl (Z.land code 255) 8
  | KilledBy sig core => Z.lor sig (if core then 128 else 0)
  end.

(** A signal number that can end a process: 127 marks a stopped child. *)
Definition deadly (sig : Z) : Prop := 1 <= sig <= 126.

(** [printf("%d", n)] *)
Definition dec (n : Z) : string := NilEmpty.string_of_int (Z.to_int n).

Definition nl : string := String "010"%char EmptyString.

(** ** Data of the source *)

(** [struct Node]: a cell of the linked list of background pids. *)
Record Node := { data : Z; next : option N }.

(** [struct Input]: one parsed command line. *)
Record Input := {
  command : option string;
  num_args : Z;
  args : option (list string);
  input_file : option string;
  output_file : option string;
  is_background : Z
}.

Definition init_input : Input :=
  {| command := None; num_args := 0; args := None;
     input_file := None; output_file := None; is_background := FALSE |}.

(** ** The process and its environment *)

Inductive sighandler := SIG_DFL | SIG_IGN | Handler_set_foreground_mode.

(** What a file descriptor refers to: a stream the interpreter was started
    with, or the result of an [open]. *)
Inductive ofile :=
| Inherited (fd : Z)
| Opened (path : string) (flags : Z) (mode : option Z).

(** A child of the process, as the kernel sees it.  [fate] is the wait status
    a running child ends with if nobody kills it first, [None] if it never
    ends by itself. *)
Inductive child :=
| Running (fate : option Z)
| Zombie (status : Z).

Inductive event :=
| EvPrintf (text : string)
| EvFflush
| EvWrite (fd : Z) (text : string)
| EvGetline
| EvSigaction (sig : Z) (h : sighandler)
| EvOpen (path : string) (flags : Z) (mode : option Z) (ret : Z)
| EvDup2 (oldfd newfd : Z)
| EvChdir (path : option string) (ret : Z)
| EvFork (ret : Z)
| EvExecvp (file : string) (argv : list string)
| EvKill (pid sig : Z)
| EvWaitpid (pid options : Z).

Inductive ub :=
| NullDereference
| UseAfterFree
| OutOfBounds
| Uninitialised.

Record state := {
  foreground_mode : Z;
  heap : gmap N (bool * Node);
  pid_head : option N;
  fds : gmap Z ofile;
  sigint : sighandler;
  sigtstp : sighandler;
  cwd : string;
  children : gmap Z child;
  trace : list event
}.

(** Reading a freed [Node] is undefined.  [Trap] stops there; [Stale] follows
    the one concrete behaviour in which the allocator has not yet reused the
    bytes, so the read returns what was last stored. *)
Inductive uaf_policy := Trap | Stale.

Record world := {
  w_pid : Z;
  w_open : string -> Z -> bool;
  w_exec : string -> bool;
  w_chdir : string -> string -> option string;
  w_home : option string;
  w_uaf : uaf_policy
}.

Definition set_foreground (v : Z) (s : state) : state :=
  {| foreground_mode := v; heap := heap s; pid_head := pid_head s;
     fds := fds s; sigint := sigint s; sigtstp := sigtstp s; cwd := cwd s;
     children := children s; trace := trace s |}.

Definition set_heap (h : gmap N (bool * Node)) (s : state) : state :=
  {| foreground_mode := foreground_mode s; heap := h; pid_head := pid_head s;
     fds := fds s; sigint := sigint s; sigtstp := sigtstp s; cwd := cwd s;
     children := children s; trace := trace s |}.

Definition set_pid_head (p : option N) (s : state) : state :=
  {| foreground_mode := foreground_mode s; heap := heap s; pid_head := p;
     fds := fds s; sigint := sigint s; sigtstp := sigtstp s; cwd := cwd s;
     children := children s; trace := trace s |}.

Definition set_fds (f : gmap Z ofile) (s : state) : state :=
  {| foreground_mode := foreground_mode s; heap := heap s;
     pid_head := pid_head s; fds := f; sigint := sigint s;
     sigtstp := sigtstp s; cwd := cwd s; children := children s;
     trace := trace s |}.

Definition set_sigint (h : sighandler) (s : state) : state :=
  {| foreground_mode := foreground_mode s; heap := heap s;
     pid_head := pid_head s; fds := fds s; sigint := h;
     sigtstp := sigtstp s; cwd := cwd s; children := children s;
     trace := trace s |}.

Definition set_sigtstp (h : sighandler) (s : state) : state :=
  {| foreground_mode := foreground_mode s; heap := heap s;
     pid_head := pid_head s; fds := fds s; sigint := sigint s;
     sigtstp := h; cwd := cwd s; children := children s;
     trace := trace s |}.

Definition set_cwd (d : string) (s : state) : state :=
  {| foreground_mode := foreground_mode s; heap := heap s;
     pid_head := pid_head s; fds := fds s; sigint := sigint s;
     sigtstp := sigtstp s; cwd := d; children := children s;
     trace := trace s |}.

Definition set_children (c : gmap Z child) (s : state) : state :=
  {| foreground_mode := foreground_mode s; heap := heap s;
     pid_head := pid_head s; fds := fds s; sigint := sigint s;
     sigtstp := sigtstp s; cwd := cwd s; children := c;
     trace := trace s |}.

Definition log (e : event) (s : state) : state :=
  {| foreground_mode := foreground_mode s; heap := heap s;
     pid_head := pid_head s; fds := fds s; sigint := sigint s;
     sigtstp := sigtstp s; cwd := cwd s; children := children s;
     trace := trace s ++ [e] |}.

(** ** Outcomes and the monad *)

Inductive outcome (A : Type) :=
| Ret (a : A) (s : state)
| Exited (code : Z) (s : state)
| Execed (file : string) (argv : list string) (s : state)
| Diverges (s : state)
| Undefined (u : ub) (s : state).

Arguments Ret {A} a s.
Arguments Exited {A} code s.
Arguments Execed {A} file argv s.
Arguments Diverges {A} s.
Arguments Undefined {A} u s.

(** The state of the process when the computation stopped, however it
    stopped. *)
Definition final_state {A} (o : outcome A) : state :=
  match o with
  | Ret _ s | Exited _ s | Execed _ _ s | Diverges s | Undefined _ s => s
  end.

Definition M (A : Type) : Type := state -> outcome A.

Definition ret {A} (a : A) : M A := fun s => Ret a s.

Definition bind {A B} (m : M A) (k : A -> M B) : M B := fun s =>
  match m s with
  | Ret a s' => k a s'
  | Exited c s' => Exited c s'
  | Execed f v s' => Execed f v s'
  | Diverges s' => Diverges s'
  | Undefined u s' => Undefined u s'
  end.

#[global] Instance M_ret : MRet M := @ret.
#[global] Instance M_bind : MBind M := fun A B k m => bind m k.

Definition get {A} (f : state -> A) : M A := fun s => Ret (f s) s.
Definition modify (f : state -> state) : M unit := fun s => Ret tt (f s).
Definition emit (e : event) : M unit := modify (log e).
Definition undefined {A} (u : ub) : M A := fun s => Undefined u s.
Definition diverge {A} : M A := fun s => Diverges s.
Definition exit {A} (code : Z) : M A := fun s => Exited code s.

(** The first natural number below [S bound] that [free] accepts. *)
Definition first_free (free : nat -> bool) (bound : nat) : nat :=
  default bound (List.find free (seq 0 (S bound))).

(** The lowest unused file descriptor, as [open] picks it. *)
Definition lowest_fd (f : gmap Z ofile) : Z :=
  Z.of_nat (first_free (fun i => bool_decide (f !! Z.of_nat i = None)) (size f)).

(** An unused address, as [malloc] picks it. *)
Definition unused_addr (h : gmap N (bool * Node)) : N :=
  N.of_nat (first_free (fun i => bool_decide (h !! N.of_nat i = None)) (size h)).

Section Smallsh.

Variable w : world.

(** ** Library and system calls *)

Definition printf (text : string) : M unit := emit (EvPrintf text).
Definition fflush : M unit := emit EvFflush.
Definition write (fd : Z) (text : string) : M unit := emit (EvWrite fd text).

Definition sigaction (sig : Z) (h : sighandler) : M unit :=
  emit (EvSigaction sig h);;
  modify (fun s =>
    if sig =? SIGINT then set_sigint h s
    else if sig =? SIGTSTP then set_sigtstp h s
    else s).

Definition open (path : string) (flags : Z) (mode : option Z) : M Z := fun s =>
  if w_open w path flags then
    let fd := lowest_fd (fds s) in
    Ret fd (log (EvOpen path flags mode fd)
              (set_fds (<[fd := Opened path flags mode]> (fds s)) s))
  else Ret (-1) (log (EvOpen path flags mode (-1)) s).

Definition dup2 (oldfd newfd : Z) : M Z := fun s =>
  match fds s !! oldfd with
  | Some f => Ret newfd (log (EvDup2 oldfd newfd)
                           (set_fds (<[newfd := f]> (fds s)) s))
  | None => Ret (-1) (log (EvDup2 oldfd newfd) s)
  end.

(** [execvp] returns only when it fails. *)
Definition execvp (file : string) (argv : list string) : M Z := fun s =>
  let s' := log (EvExecvp file argv) s in
  if w_exec w file then Execed file argv s' else Ret (-1) s'.

Definition getenv_HOME : option string := w_home w.

Definition chdir (path : option string) : M Z := fun s =>
  match path with
  | None => Ret (-1) (log (EvChdir path (-1)) s)
  | Some p =>
      match w_chdir w (cwd s) p with
      | Some d => Ret 0 (log (EvChdir path 0) (set_cwd d s))
      | None => Ret (-1) (log (EvChdir path (-1)) s)
      end
  end.

(** [fork]: [r] is what the call returns in the process that is modelled.
    In the child ([r = 0]) the process has no children of its own; in the
    parent the new child is running, with the fate the environment gives
    it. *)
Definition fork (r : Z) (fate : option Z) : M Z := fun s =>
  if r =? 0 then Ret 0 (set_children ∅ s)
  else if 0 <? r then
    Ret r (log (EvFork r) (set_children (<[r := Running fate]> (children s)) s))
  else Ret r (log (EvFork r) s).

(** [kill(pid, sig)].  Only [SIGKILL], which no process can ignore, is given
    an effect: a running child ends at once, killed by that signal. *)
Definition kill (pid sig : Z) : M Z := fun s =>
  let s' := log (EvKill pid sig) s in
  match children s !! pid with
  | Some (Running _) =>
      if sig =? SIGKILL
      then Ret 0 (set_children
                    (<[pid := Zombie (wstatus (KilledBy SIGKILL false))]>
                       (children s)) s')
      else Ret 0 s'
  | Some (Zombie _) => Ret 0 s'
  | None => Ret (-1) s'
  end.

(** [waitpid(pid, &status, options)]: the return value, and the status when
    one was stored.  A terminated child is reaped; a running one makes the
    call return 0 under [WNOHANG] and otherwise block until the child ends,
    forever if it never does. *)
Definition waitpid (pid options : Z) : M (Z * option Z) := fun s =>
  let s' := log (EvWaitpid pid options) s in
  match children s !! pid with
  | None => Ret (-1, None) s'
  | Some (Zombie st) =>
      Ret (pid, Some st) (set_children (delete pid (children s)) s')
  | Some (Running fate) =>
      if Z.land options WNOHANG =? 0 then
        match fate with
        | Some st =>
            Ret (pid, Some st) (set_children (delete pid (children s)) s')
        | None => Diverges s'
        end
      else Ret (0, None) s'
  end.

(** ** The heap of [Node] objects *)

Definition malloc_Node : M N := fun s =>
  let a := unused_addr (heap s) in
  Ret a (set_heap (<[a := (true, {| data := 0; next := None |})]> (heap s)) s).

Definition load (a : N) : M Node := fun s =>
  match heap s !! a with
  | Some (true, n) => Ret n s
  | Some (false, n) =>
      match w_uaf w with
      | Stale => Ret n s
      | Trap => Undefined UseAfterFree s
      end
  | None => Undefined UseAfterFree s
  end.

Definition deref (p : option N) : M Node :=
  match p with
  | Some a => load a
  | None => undefined NullDereference
  end.

Definition store (a : N) (n : Node) : M unit := fun s =>
  match heap s !! a with
  | Some (true, _) => Ret tt (set_heap (<[a := (true, n)]> (heap s)) s)
  | _ => Undefined UseAfterFree s
  end.

Definition free (a : N) : M unit := fun s =>
  match heap s !! a with
  | Some (true, n) => Ret tt (set_heap (<[a := (false, n)]> (heap s)) s)
  | _ => Undefined UseAfterFree s
  end.

(** A loop over the list stops within as many steps as there are objects in
    the heap, unless the list is cyclic and the loop never ends. *)
Definition list_fuel : M nat := get (fun s => S (size (heap s))).

(** ** Freeing *)

(** [free_nodes(&pid_head)] *)
Fixpoint free_nodes_loop (fuel : nat) (temp : option N) : M unit :=
  match temp with
  | None => ret tt
  | Some t =>
      match fuel with
      | O => diverge
      | S fuel' =>
          h ← get pid_head;
          n ← deref h;
          modify (set_pid_head (next n));;
          free t;;
          h' ← get pid_head;
          free_nodes_loop fuel' h'
      end
  end.

Definition free_nodes : M unit :=
  fuel ← list_fuel;
  temp ← get pid_head;
  free_nodes_loop fuel temp;;
  modify (set_pid_head None).

(** [free_input] and [free_cmd] release strings and arrays of strings, which
    the model holds by value: they change nothing that is modelled. *)
Definition free_input (inp : Input) : M unit := ret tt.
Definition free_cmd (cmd : option (list string)) : M unit := ret tt.

(** ** Built-in commands *)

(** [exit_smallsh(pid_head)]: kill and wait for every background child.
    The node is read once in each turn: neither [kill] nor [waitpid] writes
    to the heap. *)
Fixpoint exit_smallsh_loop (fuel : nat) (temp : option N) : M unit :=
  match temp with
  | None => ret tt
  | Some t =>
      match fuel with
      | O => diverge
      | S fuel' =>
          n ← load t;
          kill (data n) SIGKILL;;
          waitpid (data n) 0;;
          exit_smallsh_loop fuel' (next n)
      end
  end.

Definition exit_smallsh (pid_head : option N) : M unit :=
  fuel ← list_fuel;
  exit_smallsh_loop fuel pid_head.

(** [cd_smallsh(path)] *)
Definition cd_smallsh (path : option string) : M Z :=
  match path with
  | Some p => chdir (Some p)
  | None => chdir getenv_HOME
  end.

(** [status_smallsh(exit_code)] *)
Definition status_smallsh (exit_code : Z) : M unit :=
  if WIFSIGNALED exit_code then
    printf ("terminated by signal " +:+ dec (WTERMSIG exit_code) +:+ nl)
  else if WIFEXITED exit_code then
    printf ("exit value " +:+ dec (WEXITSTATUS exit_code) +:+ nl)
  else ret tt.

(** ** Support for other commands *)

(** [dynamic_mem_clean(in, pid_head)]: [pid_head] is the address of the
    variable of [main], never [NULL]. *)
Definition dynamic_mem_clean (inp : Input) : M unit :=
  free_input inp;;
  free_nodes.

(** [exit_in_err_child]: print the message and leave the child with status
    1.  It never returns, so the 1 it stores through [exit_code] is never
    read. *)
Definition exit_in_err_child (message : string) (inp : Input)
    (cmd : option (list string)) : M Z :=
  printf (message +:+ nl);;
  dynamic_mem_clean inp;;
  free_cmd cmd;;
  exit 1.

(** The loop of [expand_smallsh]: every ["$$"] becomes [pid_str]. *)
Fixpoint expand_loop (pid_str : string) (s : string) : string :=
  match s with
  | EmptyString => EmptyString
  | String c rest =>
      match rest with
      | String c' rest' =>
          if Ascii.eqb c' "$" && Ascii.eqb c "$"
          then pid_str +:+ expand_loop pid_str rest'
          else String c (expand_loop pid_str rest)
      | EmptyString => String c EmptyString
      end
  end.

(** [expand_smallsh(&cmd_string)]: the pid is printed into [pid_str], an
    array of 10 bytes, and the expansion is built in a buffer of
    [MAX_COMMAND_LEN] bytes. *)
Definition expand_smallsh (cmd_string : string) : M string :=
  let pid_str := dec (w_pid w) in
  if (10 <=? String.length pid_str)%nat then undefined OutOfBounds
  else
    let command_copy := expand_loop pid_str cmd_string in
    if MAX_COMMAND_LEN <=? Z.of_nat (String.length command_copy)
    then undefined OutOfBounds
    else ret command_copy.

(** ** Signal handlers *)

Definition default_sigint : M unit := sigaction SIGINT SIG_DFL.
Definition ignore_sigint : M unit := sigaction SIGINT SIG_IGN.

(** [set_foreground_mode]: the handler of SIGTSTP in the interpreter. *)
Definition set_foreground_mode : M unit :=
  fflush;;
  fm ← get foreground_mode;
  if fm =? TRUE then
    write STDOUT_FILENO (nl +:+ "Exiting foreground-only mode" +:+ nl +:+ ": ");;
    modify (set_foreground FALSE)
  else
    write STDOUT_FILENO
      (nl +:+ "Entering foreground-only mode (& is now ignored)" +:+ nl +:+ ": ");;
    modify (set_foreground TRUE).

Definition parent_handler : M unit :=
  ignore_sigint;;
  sigaction SIGTSTP Handler_set_foreground_mode.

Definition child_handler (inp : Input) : M unit :=
  sigaction SIGTSTP SIG_IGN;;
  if is_background inp =? TRUE then ignore_sigint else default_sigint.

(** [getline] blocks until a line arrives ([None] at end of input); [tstp]
    deliveries of SIGTSTP run the handler while it waits, and the call is
    restarted (SA_RESTART). *)
Fixpoint deliver (n : nat) (handler : M unit) : M unit :=
  match n with
  | O => ret tt
  | S n' => handler;; deliver n' handler
  end.

Definition getline (tstp : nat) (line : option string) : M (option string) :=
  emit EvGetline;;
  deliver tstp set_foreground_mode;;
  ret line.

(** ** [execute_smallsh] *)

(** The loop that copies [in->args[0 .. num_args-1]] into the argument
    vector. *)
Fixpoint copy_args (n : nat) (a : option (list string)) (i : nat)
    : M (list string) :=
  match n with
  | O => ret []
  | S n' =>
      match a with
      | None => undefined NullDereference
      | Some l =>
          match l !! i with
          | None => undefined OutOfBounds
          | Some x => rest ← copy_args n' a (S i); ret (x :: rest)
          end
      end
  end.

(** The argument vector [cmd], without its terminating [NULL]: the command
    name, then the arguments (the test [i + 1 < num_fields - 1] of the
    copying loop holds for every [i < num_args]). *)
Definition build_cmd (inp : Input) : M (list string) :=
  match command inp with
  | None => undefined NullDereference
  | Some c =>
      if num_args inp <? -1 then undefined OutOfBounds
      else if num_args inp =? -1 then ret []
      else
        rest ← copy_args (Z.to_nat (num_args inp)) (args inp) 0;
        ret (c :: rest)
  end.

(** The block "Redirect input/output" of the child, input half. *)
Definition redirect_input (inp : Input) (cmd : list string) (exit_code : Z)
    : M Z :=
  match input_file inp with
  | Some path =>
      input_file ← open path O_RDONLY None;
      if input_file =? -1 then
        exit_in_err_child "Error: input file could not be opened"
          inp (Some cmd)
      else dup2 input_file STDIN_FILENO;; ret exit_code
  | None =>
      if is_background inp =? 1 then
        open_null ← open "/dev/null" O_RDONLY None;
        dup2 open_null STDIN_FILENO;; ret exit_code
      else ret exit_code
  end.

(** The same block, output half; 384 is the octal 0600. *)
Definition redirect_output (inp : Input) (cmd : list string) (exit_code : Z)
    : M Z :=
  match output_file inp with
  | Some path =>
      output_file ←
        open path (Z.lor (Z.lor O_WRONLY O_CREAT) O_TRUNC) (Some 384);
      if output_file =? -1 then
        exit_in_err_child "Error: output file could not be opened"
          inp (Some cmd)
      else dup2 output_file STDOUT_FILENO;; ret exit_code
  | None =>
      if is_background inp =? 1 then
        open_null ← open "/dev/null" O_WRONLY None;
        dup2 open_null STDOUT_FILENO;; ret exit_code
      else ret exit_code
  end.

(** The block "if anything had an error, don't execute any commands". *)
Definition run_command (inp : Input) (cmd : list string) (exit_code : Z)
    : M Z :=
  if negb (exit_code =? 1) then
    file ← from_option ret (undefined NullDereference) (command inp);
    exit_code ← execvp file cmd;
    free_cmd (Some cmd);;
    if exit_code =? -1 then
      exit_in_err_child "Error: command could not be processed" inp None
    else ret exit_code
  else ret exit_code.

(** The branch [fork_pid == 0]: what the child does. *)
Definition child_branch (inp : Input) (exit_code : Z) : M Z :=
  child_handler inp;;
  cmd ← build_cmd inp;
  exit_code ← redirect_input inp cmd exit_code;
  exit_code ← redirect_output inp cmd exit_code;
  run_command inp cmd exit_code.

(** The last branch: what the parent does once the child exists. *)
Definition parent_branch (inp : Input) (fork_pid : Z) (exit_code : Z)
    : M Z :=
  parent_handler;;
  if is_background inp =? 0 then
    '(_, st) ← waitpid fork_pid 0;
    let exit_code := default exit_code st in
    (if WIFSIGNALED exit_code
     then printf ("terminated by signal " +:+ dec (WTERMSIG exit_code) +:+ nl)
     else ret tt);;
    ret exit_code
  else
    new_node ← malloc_Node;
    head ← get pid_head;
    store new_node {| data := fork_pid; next := head |};;
    modify (set_pid_head (Some new_node));;
    printf ("Background pid is " +:+ dec fork_pid +:+ "." +:+ nl);;
    ret exit_code.

(** [execute_smallsh(in, &pid_head)].  [fk] is the value [fork] returns in
    the modelled process (0 in the child, -1 on failure, the pid of the child
    in the parent) and [fate] how the new child ends. *)
Definition execute_smallsh (inp : Input) (fk : Z) (fate : option Z) : M Z :=
  let exit_code := 0 in
  fork_pid ← fork fk fate;
  if fork_pid =? 0 then child_branch inp exit_code
  else if fork_pid =? -1 then ret 1
  else parent_branch inp fork_pid exit_code.

(** ** [parse_input] *)

Definition count_spaces (s : string) : Z :=
  Z.of_nat (length (filter (fun c => c = " "%char) (list_ascii_of_string s))).

(** The pieces of [s] between spaces, empty ones included. *)
Fixpoint fields (s : string) : list string :=
  match s with
  | EmptyString => [EmptyString]
  | String c r =>
      if Ascii.eqb c " " then EmptyString :: fields r
      else match fields r with
           | f :: fs => String c f :: fs
           | [] => [String c EmptyString]
           end
  end.

(** The successive results of [strtok(s, " ")], [strtok(NULL, " ")], ...
    before it returns [NULL]: the non-empty pieces. *)
Definition strtok_all (s : string) : list string :=
  filter (fun f => f ≠ EmptyString) (fields s).

(** Filling [tokens[0 .. n-1]]: [strlen] of a [NULL] token is undefined. *)
Fixpoint fill_tokens (n : nat) (toks : list string) : M (list string) :=
  match n with
  | O => ret []
  | S n' =>
      match toks with
      | [] => undefined NullDereference
      | t :: ts => rest ← fill_tokens n' ts; ret (t :: rest)
      end
  end.

Definition is_redirect_or_amp (t : string) : bool :=
  String.eqb t "<" || String.eqb t ">" || String.eqb t "&".

(** The loop that counts the arguments: the tokens after the command, up to
    the first ["<"], [">"] or ["&"]. *)
Fixpoint count_args (toks : list string) : Z :=
  match toks with
  | [] => 0
  | t :: r => if is_redirect_or_amp t then 0 else 1 + count_args r
  end.

(** The loop that picks the file names, over [tokens[i ..]]: the token after
    a ["<"] or [">"] is read even when it lies beyond the array. *)
Fixpoint files_loop (toks : list string) (inp : Input) : M Input :=
  match toks with
  | [] => ret inp
  | t :: r =>
      if String.eqb t "<" || String.eqb t ">" then
        match r with
        | [] => undefined OutOfBounds
        | f :: _ =>
            if String.eqb t "<" then
              files_loop r
                {| command := command inp; num_args := num_args inp;
                   args := args inp; input_file := Some f;
                   output_file := output_file inp;
                   is_background := is_background inp |}
            else
              files_loop r
                {| command := command inp; num_args := num_args inp;
                   args := args inp; input_file := input_file inp;
                   output_file := Some f;
                   is_background := is_background inp |}
        end
      else files_loop r inp
  end.

(** [parse_input(&input, in)]: the exit code ([FALSE] for a comment) and the
    [Input] as the call leaves it. *)
Definition parse_input (input : string) (inp : Input) : M (Z * Input) :=
  input ← expand_smallsh input;
  let num_tokens := 1 + count_spaces input in
  tokens ← fill_tokens (Z.to_nat num_tokens) (strtok_all input);
  match tokens with
  | [] => undefined OutOfBounds
  | String "#" _ :: _ => ret (FALSE, inp)
  | tokens0 :: rest =>
      let nargs := count_args rest in
      fm ← get foreground_mode;
      let background :=
        if String.eqb (List.last tokens EmptyString) "&" && (fm =? FALSE)
        then TRUE else is_background inp in
      let inp :=
        if 0 <? nargs then
          {| command := Some tokens0; num_args := nargs;
             args := Some (take (Z.to_nat nargs) rest);
             input_file := input_file inp; output_file := output_file inp;
             is_background := background |}
        else
          {| command := Some tokens0; num_args := num_args inp;
             args := args inp;
             input_file := input_file inp; output_file := output_file inp;
             is_background := background |} in
      inp ← files_loop (drop (Z.to_nat nargs) tokens) inp;
      ret (TRUE, inp)
  end.

(** ** [get_input] *)

(** [input[input_length - 1] = '\0'] *)
Definition chop (input : string) : string :=
  String.substring 0 (String.length input - 1) input.

(** [get_input(in, &parse_status)]: [line] is what [getline] reads ([None] at
    end of input).  Returns the program status, the [Input] and the parse
    status as the call leaves them. *)
Definition get_input (inp : Input) (parse_status : Z) (tstp : nat)
    (line : option string) : M (Z * Input * Z) :=
  let program_status := TRUE in
  fflush;;
  printf ": ";;
  input ← getline tstp line;
  match input with
  | Some input =>
      let input_length := String.length input in
      (if (input_length =? 0)%nat then undefined OutOfBounds else ret tt);;
      let input := chop input in
      '(parse_status, inp) ←
        (if (1 <? input_length)%nat then parse_input input inp
         else ret (parse_status, inp));
      program_status ←
        (if parse_status =? TRUE then
           c ← from_option ret (undefined NullDereference) (command inp);
           if String.eqb c "exit" then ret FALSE else ret program_status
         else ret program_status);
      ret (program_status, inp, parse_status)
  | None => ret (FALSE, inp, parse_status)
  end.

(** ** [wait_background] *)

(** [a->next = v] *)
Definition store_next (a : N) (v : option N) : M unit :=
  n ← load a;
  store a {| data := data n; next := v |}.

(** The inner loop, which looks for [wait_result] after the head.  [curr] is
    the node the loop condition [curr->next] is read from; inside the body it
    becomes [prev]. *)
Fixpoint remove_loop (fuel : nat) (wait_result : Z) (curr : N) : M unit :=
  match fuel with
  | O => diverge
  | S fuel' =>
      c ← load curr;
      match next c with
      | None => ret tt
      | Some nx =>
          let prev := curr in
          n ← load nx;
          (if data n =? wait_result then
             n ← load nx;
             store_next prev (next n);;
             store_next nx None;;
             free nx
           else ret tt);;
          remove_loop fuel' wait_result nx
      end
  end.

(** The body of [if (wait_result != 0)]: report, then unlink and free. *)
Definition report_and_remove (wait_result : Z) (exit_code : option Z)
    : M unit :=
  exit_code ← from_option ret (undefined Uninitialised) exit_code;
  (if WIFEXITED exit_code && negb (wait_result =? -1) then
     printf ("background pid " +:+ dec wait_result +:+ " is done: exit value "
             +:+ dec (WEXITSTATUS exit_code) +:+ nl)
   else if WIFSIGNALED exit_code then
     printf ("background pid " +:+ dec wait_result
             +:+ " is done: terminated by signal "
             +:+ dec (WTERMSIG exit_code) +:+ nl)
   else ret tt);;
  head ← get pid_head;
  match head with
  | None => undefined NullDereference
  | Some curr =>
      c ← load curr;
      if data c =? wait_result then
        modify (set_pid_head (next c));;
        store_next curr None;;
        free curr
      else
        fuel ← list_fuel;
        remove_loop fuel wait_result curr
  end.

Fixpoint wait_background_loop (fuel : nat) (temp : option N)
    (exit_code : option Z) : M unit :=
  match temp with
  | None => ret tt
  | Some t =>
      match fuel with
      | O => diverge
      | S fuel' =>
          n ← load t;
          '(wait_result, st) ← waitpid (data n) WNOHANG;
          let exit_code := if st is Some _ then st else exit_code in
          (if negb (wait_result =? 0)
           then report_and_remove wait_result exit_code
           else ret tt);;
          head ← get pid_head;
          match head with
          | Some _ =>
              n ← load t;
              wait_background_loop fuel' (next n) exit_code
          | None => wait_background_loop fuel' None exit_code
          end
      end
  end.

(** [wait_background(&pid_head)]; the local [exit_code] starts
    uninitialised. *)
Definition wait_background : M unit :=
  fuel ← list_fuel;
  temp ← get pid_head;
  wait_background_loop fuel temp None.

(** ** [main] *)

(** What the environment does during one turn of the loop of [main]. *)
Record cycle := {
  c_ended : list Z;      (* running children that end before the sweep *)
  c_tstp : nat;          (* deliveries of SIGTSTP while reading the line *)
  c_line : string;       (* the line read, with its newline *)
  c_fork : Z;            (* what fork returns, if the turn forks *)
  c_fate : option Z      (* how the child created in this turn ends *)
}.

Definition child_ends (pid : Z) : M unit :=
  modify (fun s =>
    match children s !! pid with
    | Some (Running (Some st)) =>
        set_children (<[pid := Zombie st]> (children s)) s
    | _ => s
    end).

Fixpoint children_end (pids : list Z) : M unit :=
  match pids with
  | [] => ret tt
  | pid :: rest => child_ends pid;; children_end rest
  end.

(** The chain of [if]s of [main] that routes one request; returns the
    variable [exit_code] of [main] as the chain leaves it. *)
Definition dispatch (program_status : Z) (inp : Input) (exit_code : Z)
    (fk : Z) (fate : option Z) : M Z :=
  if program_status =? FALSE then
    head ← get pid_head;
    exit_smallsh head;;
    ret exit_code
  else
    match command inp with
    | Some c =>
        if String.eqb c "cd" then
          match args inp with
          | Some (a0 :: _) => cd_smallsh (Some a0)
          | Some [] => undefined OutOfBounds
          | None => cd_smallsh None
          end
        else if String.eqb c "status" then
          status_smallsh exit_code;;
          ret exit_code
        else execute_smallsh inp fk fate
    | None => ret exit_code
    end.

(** One turn of the [do ... while] of [main]: the new [program_status],
    [exit_code] and [parse_status].  Without a [cycle] the input has
    ended. *)
Definition main_body (c : option cycle) (exit_code parse_status : Z)
    : M (Z * Z * Z) :=
  children_end (from_option c_ended [] c);;
  wait_background;;
  let inp := init_input in
  '(program_status, inp, parse_status) ←
    get_input inp parse_status (from_option c_tstp O c) (c_line <$> c);
  exit_code ←
    dispatch program_status inp exit_code
      (from_option c_fork (-1) c) (c ≫= c_fate);
  free_input inp;;
  ret (program_status, exit_code, parse_status).

(** The [do ... while (program_status == TRUE)] of [main].  Once the script
    is used up every [getline] finds the end of input. *)
Fixpoint main_loop (script : list cycle) (exit_code parse_status : Z)
    : M unit :=
  match script with
  | [] =>
      '(program_status, _, _) ← main_body None exit_code parse_status;
      if program_status =? TRUE then diverge else ret tt
  | c :: script' =>
      '(program_status, exit_code, parse_status) ←
        main_body (Some c) exit_code parse_status;
      if program_status =? TRUE
      then main_loop script' exit_code parse_status
      else ret tt
  end.

(** The code of [main] after the loop: free the list, return 0. *)
Definition main_epilogue : M Z :=
  head ← get pid_head;
  (if head is Some _ then free_nodes else ret tt);;
  ret 0.

(** [main]: [script] is what the environment does, turn by turn; the value
    returned is the exit code of the interpreter. *)
Definition main (script : list cycle) : M Z :=
  parent_handler;;
  main_loop script 0 TRUE;;
  main_epilogue.

End Smallsh.

(** The interpreter as it starts: no background child, the three standard
    streams, default signal dispositions. *)
Definition init_state (dir : string) : state :=
  {| foreground_mode := FALSE; heap := ∅; pid_head := None;
     fds := <[0 := Inherited 0]> (<[1 := Inherited 1]> (<[2 := Inherited 2]> ∅));
     sigint := SIG_DFL; sigtstp := SIG_DFL; cwd := dir;
     children := ∅; trace := [] |}.

(** * Notions used to state the properties *)

(** [preserves R m]: whatever way [m] stops, the state it stops in is
    related by [R] to the one it started from. *)
Definition preserves {A} (R : relation state) (m : M A) : Prop :=
  forall s, R s (final_state (m s)).

(** Two frames: a projection of the state is kept, and the trace only
    grows. *)
Definition keeps {X} (f : state -> X) : relation state :=
  fun s s' => f s' = f s.

Definition trace_grows : relation state :=
  fun s s' => exists t, trace s' = trace s ++ t.

(** The state observed through its signal dispositions. *)
Definition signals (s : state) : sighandler * sighandler :=
  (sigint s, sigtstp s).

(** The argument count of a request agrees with its argument array. *)
Definition args_agree (inp : Input) : Prop :=
  match args inp with
  | Some l => num_args inp = Z.of_nat (length l)
  | None => num_args inp = 0
  end.

(** A request as [parse_input] builds them: a command name, and an argument
    count that agrees with the argument array. *)
Definition well_formed (inp : Input) : Prop :=
  is_Some (command inp) /\ args_agree inp.

(** [is_list h p l]: from pointer [p], the heap [h] holds a [NULL]-terminated
    list of live nodes whose addresses and pids are [l], in order. *)
Fixpoint is_list (h : gmap N (bool * Node)) (p : option N)
    (l : list (N * Z)) : Prop :=
  match l with
  | [] => p = None
  | (a, d) :: l' =>
      p = Some a /\
      exists nx, h !! a = Some (true, {| data := d; next := nx |}) /\
                 is_list h nx l'
  end.

(** What [exit_smallsh] does for one background pid. *)
Definition kill_and_wait (pid : Z) : list event :=
  [EvKill pid SIGKILL; EvWaitpid pid 0].

(** The calls of [<stdio.h>], which work on the buffer and the lock of a
    stream; POSIX lists none of them as safe to call from a signal
    handler. *)
Definition stdio_call (e : event) : bool :=
  match e with
  | EvPrintf _ | EvFflush | EvGetline => true
  | _ => false
  end.

(** The two notices of [set_foreground_mode], with the prompt the handler
    prints after them. *)
Definition entering_notice : string :=
  nl +:+ "Entering foreground-only mode (& is now ignored)" +:+ nl +:+ ": ".

Definition exiting_notice : string :=
  nl +:+ "Exiting foreground-only mode" +:+ nl +:+ ": ".

(** ** Concrete inputs *)

(** A machine on which the file [missing], the program [nosuch] and the
    directory [/nonexistent] do not exist and everything else does. *)
Definition demo (p : uaf_policy) : world :=
  {| w_pid := 4242;
     w_open := fun path _ => negb (String.eqb path "missing");
     w_exec := fun file => negb (String.eqb file "nosuch");
     w_chdir := fun _ path =>
       if String.eqb path "/nonexistent" then None else Some path;
     w_home := Some "/home/user";
     w_uaf := p |}.

(** [cat < missing &] *)
Definition cat_missing_bg : Input :=
  {| command := Some "cat"; num_args := 0; args := None;
     input_file := Some "missing"; output_file := None;
     is_background := TRUE |}.

(** [sort -r < names &] *)
Definition sort_names_bg : Input :=
  {| command := Some "sort"; num_args := 1; args := Some ["-r"];
     input_file := Some "names"; output_file := None;
     is_background := TRUE |}.

(** [sleep 5 &] *)
Definition sleep_bg : Input :=
  {| command := Some "sleep"; num_args := 1; args := Some ["5"];
     input_file := None; output_file := None; is_background := TRUE |}.

(** [ls] *)
Definition ls_fg : Input :=
  {| command := Some "ls"; num_args := 0; args := None;
     input_file := None; output_file := None; is_background := FALSE |}.

(** [cd] *)
Definition cd_home : Input :=
  {| command := Some "cd"; num_args := 0; args := None;
     input_file := None; output_file := None; is_background := FALSE |}.

(** The interpreter after [sleep 5 &] was started twice, as pids 100 and
    101, neither of which has ended. *)
Definition two_running : state :=
  final_state
    ((execute_smallsh (demo Trap) sleep_bg 100 (Some 0);;
      execute_smallsh (demo Trap) sleep_bg 101 (Some 256))
       (init_state "/")).

(** The same, once 100 has exited with code 0 and 101 with code 1. *)
Definition two_ended : state :=
  final_state (children_end [100; 101] two_running).

(** A turn of the loop in which the user types [line] and nothing else
    happens. *)
Definition typed (line : string) : cycle :=
  {| c_ended := []; c_tstp := O; c_line := line +:+ nl;
     c_fork := -1; c_fate := None |}.

(** [sleep 5], as [parse_input] returns it for the line [sleep 5 &] while the
    mode flag is [TRUE]. *)
Definition sleep_fg : Input :=
  {| command := Some "sleep"; num_args := 1; args := Some ["5"];
     input_file := None; output_file := None; is_background := FALSE |}.

(** [status] *)
Definition status_cmd : Input :=
  {| command := Some "status"; num_args := 0; args := None;
     input_file := None; output_file := None; is_background := FALSE |}.

(** [exit] *)
Definition exit_cmd : Input :=
  {| command := Some "exit"; num_args := 0; args := None;
     input_file := None; output_file := None; is_background := FALSE |}.

(** The interpreter in foreground-only mode. *)
Definition foreground_only : state := set_foreground TRUE (init_state "/").

(** ** Lines that [parse_input] accepts *)

(** A word: characters other than the space and the dollar sign. *)
Fixpoint plain (t : string) : bool :=
  match t with
  | EmptyString => true
  | String c r => negb (Ascii.eqb c " ") && negb (Ascii.eqb c "$") && plain r
  end.

(** The line made of the words [ws] separated by single spaces. *)
Fixpoint join (ws : list string) : string :=
  match ws with
  | [] => EmptyString
  | [t] => t
  | t :: r => t +:+ " " +:+ join r
  end.

(** Every ["<"] and [">"] among the tokens has a token after it. *)
Fixpoint redirects_have_files (toks : list string) : bool :=
  match toks with
  | [] => true
  | t :: r =>
      if String.eqb t "<" || String.eqb t ">"
      then match r with [] => false | _ :: _ => redirects_have_files r end
      else redirects_have_files r
  end.

(** What a trace prints through [printf], in order. *)
Definition printed (t : list event) : list string :=
  omap (fun e => match e with EvPrintf text => Some text | _ => None end) t.

(** A session: [sleep 5 &] twice, started as pids 100 and 101; both end
    while the second prompt is up; then [status], then [exit]. *)
Definition two_jobs_session : list cycle :=
  [ {| c_ended := []; c_tstp := O; c_line := "sleep 5 &" +:+ nl;
       c_fork := 100; c_fate := Some 0 |};
    {| c_ended := []; c_tstp := O; c_line := "sleep 5 &" +:+ nl;
       c_fork := 101; c_fate := Some 256 |};
    {| c_ended := [100; 101]; c_tstp := O; c_line := "status" +:+ nl;
       c_fork := -1; c_fate := None |};
    typed "exit" ].

(** ** Notions for further properties *)

(** No character of [t] is a dollar sign. *)
Definition dollar_free (t : string) : Prop :=
  forall c, In c (list_ascii_of_string t) -> c ≠ "$"%char.

(** The two redirection operators. *)
Definition is_redirect (t : string) : bool :=
  String.eqb t "<" || String.eqb t ">".

(** A word of a command line: not empty, without space or dollar sign. *)
Definition word (t : string) : Prop := t ≠ EmptyString /\ plain t = true.

(** The part of [parse_input] that follows the comment test, for the command
    name [tokens0] and the tokens [rest] after it. *)
Definition parse_request (tokens0 : string) (rest : list string)
    (inp : Input) : M (Z * Input) :=
  let tokens := tokens0 :: rest in
  let nargs := count_args rest in
  fm ← get foreground_mode;
  let background :=
    if String.eqb (List.last tokens EmptyString) "&" && (fm =? FALSE)
    then TRUE else is_background inp in
  let inp :=
    if 0 <? nargs then
      {| command := Some tokens0; num_args := nargs;
         args := Some (take (Z.to_nat nargs) rest);
         input_file := input_file inp; output_file := output_file inp;
         is_background := background |}
    else
      {| command := Some tokens0; num_args := num_args inp;
         args := args inp;
         input_file := input_file inp; output_file := output_file inp;
         is_background := background |} in
  inp ← files_loop (drop (Z.to_nat nargs) tokens) inp;
  ret (TRUE, inp).

(** The part of [parse_input] that follows the tokenizer. *)
Definition parse_tokens (tokens : list string) (inp : Input)
    : M (Z * Input) :=
  match tokens with
  | [] => undefined OutOfBounds
  | String "#" _ :: _ => ret (FALSE, inp)
  | tokens0 :: rest => parse_request tokens0 rest inp
  end.

(** The first character of [t] is the comment marker. *)
Definition is_comment (t : string) : bool :=
  match t with
  | String c _ => Ascii.eqb c "#"
  | EmptyString => false
  end.

(** The tokens of the line [command [arg ...] [< input_file] [> output_file]
    [&]]. *)
Definition line_tokens (cmd : string) (arguments : list string)
    (fin fout : option string) (amp : bool) : list string :=
  cmd :: arguments
    ++ (if fin is Some f then ["<"; f] else [])
    ++ (if fout is Some f then [">"; f] else [])
    ++ (if amp then ["&"] else []).

(** What the sweep prints for a child [pid] whose wait status is [st]. *)
Definition sweep_report (pid st : Z) : list event :=
  if WIFEXITED st && negb (pid =? -1) then
    [EvPrintf ("background pid " +:+ dec pid +:+ " is done: exit value "
               +:+ dec (WEXITSTATUS st) +:+ nl)]
  else if WIFSIGNALED st then
    [EvPrintf ("background pid " +:+ dec pid
               +:+ " is done: terminated by signal "
               +:+ dec (WTERMSIG st) +:+ nl)]
  else [].

(** The text that tells how a child ended, as [status] and the sweep print
    it. *)
Definition cause_text (t : termination) : string :=
  match t with
  | ExitedWith code => "exit value " +:+ dec (Z.land code 255)
  | KilledBy sig _ => "terminated by signal " +:+ dec sig
  end.

(** A way of ending that a wait status can tell. *)
Definition tellable (t : termination) : Prop :=
  match t with
  | KilledBy sig _ => deadly sig
  | ExitedWith _ => True
  end.

(** What the parent does when it starts a background child. *)
Definition background_start_events (fork_pid : Z) : list event :=
  [EvFork fork_pid; EvSigaction SIGINT SIG_IGN;
   EvSigaction SIGTSTP Handler_set_foreground_mode;
   EvPrintf ("Background pid is " +:+ dec fork_pid +:+ "." +:+ nl)].

(** What [child_handler] does. *)
Definition child_handler_events (inp : Input) : list event :=
  [EvSigaction SIGTSTP SIG_IGN;
   EvSigaction SIGINT (if is_background inp =? TRUE then SIG_IGN else SIG_DFL)].

(** What the input half of the redirection block does in a child whose
    lowest free descriptor is [fd], when every [open] succeeds. *)
Definition redirect_input_events (inp : Input) (fd : Z) : list event :=
  match input_file inp with
  | Some p => [EvOpen p O_RDONLY None fd; EvDup2 fd STDIN_FILENO]
  | None =>
      if is_background inp =? 1
      then [EvOpen "/dev/null" O_RDONLY None fd; EvDup2 fd STDIN_FILENO]
      else []
  end.


(** [ls > missing] *)
Definition ls_to_missing : Input :=
  {| command := Some "ls"; num_args := 0; args := None;
     input_file := None; output_file := Some "missing";
     is_background := FALSE |}.



(** * Properties *)

(** ** Wait statuses *)

Lemma small_cases (P : Z -> bool) (lo n : nat) :
  forallb P (map Z.of_nat (seq lo n)) = true ->
  forall z, Z.of_nat lo <= z < Z.of_nat lo + Z.of_nat n -> P z = true.
Proof.
  intros H z Hz. rewrite forallb_forall in H. apply H.
  apply in_map_iff. exists (Z.to_nat z). split; [lia|].
  apply in_seq. lia.
Qed.

Lemma land_255_range (x : Z) : 0 <= Z.land x 255 < 256.
Proof.
  change 255 with (Z.ones 8). rewrite Z.land_ones by lia.
  apply Z.mod_pos_bound. reflexivity.
Qed.

Lemma exited_status (code : Z) :
  WIFEXITED (wstatus (ExitedWith code)) = true /\
  WIFSIGNALED (wstatus (ExitedWith code)) = false /\
  WEXITSTATUS (wstatus (ExitedWith code)) = Z.land code 255.
Proof.
  pose proof (land_255_range code) as Hr. simpl wstatus.
  generalize dependent (Z.land code 255). intros b Hb.
  pose proof (small_cases
    (fun b => WIFEXITED (Z.shiftl b 8) && negb (WIFSIGNALED (Z.shiftl b 8))
              && (WEXITSTATUS (Z.shiftl b 8) =? b)) 0 256) as H.
  specialize (H eq_refl b ltac:(lia)).
  apply andb_prop in H as [H H3]. apply andb_prop in H as [H1 H2].
  apply negb_true_iff in H2. apply Z.eqb_eq in H3. auto.
Qed.

Lemma killed_status (sig : Z) (core : bool) :
  deadly sig ->
  WIFSIGNALED (wstatus (KilledBy sig core)) = true /\
  WIFEXITED (wstatus (KilledBy sig core)) = false /\
  WTERMSIG (wstatus (KilledBy sig core)) = sig.
Proof.
  intros Hd.
  pose proof (small_cases
    (fun sig => forallb (fun core =>
       WIFSIGNALED (wstatus (KilledBy sig core))
       && negb (WIFEXITED (wstatus (KilledBy sig core)))
       && (WTERMSIG (wstatus (KilledBy sig core)) =? sig)) [true; false])
    1 126) as H.
  specialize (H eq_refl sig ltac:(unfold deadly in Hd; lia)).
  rewrite forallb_forall in H.
  specialize (H core ltac:(destruct core; simpl; auto)).
  apply andb_prop in H as [H H3]. apply andb_prop in H as [H1 H2].
  apply negb_true_iff in H2. apply Z.eqb_eq in H3. auto.
Qed.

(** ** Reasoning about computations *)

Ltac munfold := unfold mbind, M_bind, mret, M_ret in *.

Lemma bind_ret_l {A B} (m : M A) (k : A -> M B) (s s' : state) (a : A) :
  m s = Ret a s' -> bind m k s = k a s'.
Proof. intros H. unfold bind. now rewrite H. Qed.

Lemma preserves_ret {A} (R : relation state) `{!Reflexive R} (a : A) :
  preserves R (ret a).
Proof. intros s. simpl. reflexivity. Qed.

Lemma preserves_bind {A B} (R : relation state) `{!Transitive R}
    (m : M A) (k : A -> M B) :
  preserves R m -> (forall a, preserves R (k a)) -> preserves R (bind m k).
Proof.
  intros Hm Hk s. unfold bind. specialize (Hm s).
  destruct (m s) as [a s'| | | |]; simpl in *; try exact Hm.
  etransitivity; [exact Hm | apply Hk].
Qed.

#[global] Instance keeps_refl {X} (f : state -> X) : Reflexive (keeps f).
Proof. intros s. reflexivity. Qed.

#[global] Instance keeps_trans {X} (f : state -> X) : Transitive (keeps f).
Proof. intros s1 s2 s3 H1 H2. unfold keeps in *. congruence. Qed.

#[global] Instance trace_grows_refl : Reflexive trace_grows.
Proof. intros s. exists []. now rewrite app_nil_r. Qed.

#[global] Instance trace_grows_trans : Transitive trace_grows.
Proof.
  intros s1 s2 s3 [t1 H1] [t2 H2]. exists (t1 ++ t2).
  rewrite H2, H1. now rewrite app_assoc.
Qed.

Section Frames.

Variable w : world.
Variable R : relation state.
Context `{!PreOrder R}.
Hypothesis R_log : forall e s, R s (log e s).
Hypothesis R_heap : forall h s, R s (set_heap h s).
Hypothesis R_head : forall p s, R s (set_pid_head p s).

Lemma undefined_frame {A} (u : ub) : preserves R (@undefined A u).
Proof. intros s. simpl. reflexivity. Qed.

Lemma emit_frame (e : event) : preserves R (emit e).
Proof. intros s. simpl. apply R_log. Qed.

Lemma get_frame {A} (f : state -> A) : preserves R (get f).
Proof. intros s. simpl. reflexivity. Qed.

Lemma load_frame (a : N) : preserves R (load w a).
Proof. intros s. unfold load. repeat case_match; simpl; reflexivity. Qed.

Lemma deref_frame (p : option N) : preserves R (deref w p).
Proof. destruct p; [apply load_frame | apply undefined_frame]. Qed.

Lemma free_frame (a : N) : preserves R (free a).
Proof.
  intros s. unfold free. repeat case_match; simpl; try reflexivity.
  apply R_heap.
Qed.

Lemma free_nodes_loop_frame (fuel : nat) (temp : option N) :
  preserves R (free_nodes_loop w fuel temp).
Proof.
  revert temp. induction fuel as [|fuel IH]; intros [t|]; simpl;
    try (intros s; simpl; reflexivity).
  munfold. apply preserves_bind; [exact _ | apply get_frame | intros h].
  apply preserves_bind; [exact _ | apply deref_frame | intros n].
  apply preserves_bind; [exact _ | | intros _].
  { intros s. simpl. apply R_head. }
  apply preserves_bind; [exact _ | apply free_frame | intros _].
  apply preserves_bind; [exact _ | apply get_frame | intros h'].
  apply IH.
Qed.

Lemma free_nodes_frame : preserves R (free_nodes w).
Proof.
  unfold free_nodes, list_fuel. munfold.
  apply preserves_bind; [exact _ | apply get_frame | intros fuel].
  apply preserves_bind; [exact _ | apply get_frame | intros temp].
  apply preserves_bind; [exact _ | apply free_nodes_loop_frame | intros _].
  intros s. simpl. apply R_head.
Qed.

Lemma exit_in_err_child_frame message inp cmd :
  preserves R (exit_in_err_child w message inp cmd).
Proof.
  unfold exit_in_err_child, dynamic_mem_clean, free_input, free_cmd, printf.
  munfold.
  apply preserves_bind; [exact _ | apply emit_frame | intros _].
  apply preserves_bind; [exact _ | | intros _].
  { apply preserves_bind; [exact _ | apply preserves_ret; exact _ | intros _].
    apply free_nodes_frame. }
  apply preserves_bind; [exact _ | apply preserves_ret; exact _ | intros _].
  intros s. simpl. reflexivity.
Qed.

Lemma execvp_frame file argv : preserves R (execvp w file argv).
Proof. intros s. unfold execvp. case_match; simpl; apply R_log. Qed.

Lemma run_command_frame inp cmd exit_code :
  preserves R (run_command w inp cmd exit_code).
Proof.
  unfold run_command, free_cmd. munfold.
  destruct (negb (exit_code =? 1)); [|apply preserves_ret; exact _].
  apply preserves_bind; [exact _ | | intros file].
  { destruct (command inp); simpl;
      [apply preserves_ret; exact _ | apply undefined_frame]. }
  apply preserves_bind; [exact _ | apply execvp_frame | intros r].
  apply preserves_bind; [exact _ | apply preserves_ret; exact _ | intros _].
  destruct (r =? -1);
    [apply exit_in_err_child_frame | apply preserves_ret; exact _].
Qed.

Lemma copy_args_frame n a i : preserves R (copy_args n a i).
Proof.
  revert i. induction n as [|n IH]; intros i; simpl;
    [apply preserves_ret; exact _|].
  destruct a as [l|]; [|apply undefined_frame].
  destruct (l !! i); [|apply undefined_frame].
  munfold. apply preserves_bind; [exact _ | apply IH | intros rest].
  apply preserves_ret; exact _.
Qed.

Lemma build_cmd_frame inp : preserves R (build_cmd inp).
Proof.
  unfold build_cmd. destruct (command inp); [|apply undefined_frame].
  destruct (num_args inp <? -1); [apply undefined_frame|].
  destruct (num_args inp =? -1); [apply preserves_ret; exact _|].
  munfold. apply preserves_bind; [exact _ | apply copy_args_frame | intros r].
  apply preserves_ret; exact _.
Qed.

Hypothesis R_fds : forall f s, R s (set_fds f s).

Lemma open_frame path flags mode : preserves R (open w path flags mode).
Proof.
  intros s. unfold open. case_match; simpl; [|apply R_log].
  etransitivity; [apply R_fds | apply R_log].
Qed.

Lemma dup2_frame oldfd newfd : preserves R (dup2 oldfd newfd).
Proof.
  intros s. unfold dup2. case_match; simpl; [|apply R_log].
  etransitivity; [apply R_fds | apply R_log].
Qed.

Lemma redirect_input_frame inp cmd exit_code :
  preserves R (redirect_input w inp cmd exit_code).
Proof.
  unfold redirect_input. munfold. destruct (input_file inp).
  - apply preserves_bind; [exact _ | apply open_frame | intros fd].
    destruct (fd =? -1); [apply exit_in_err_child_frame|].
    apply preserves_bind; [exact _ | apply dup2_frame | intros _].
    apply preserves_ret; exact _.
  - destruct (is_background inp =? 1); [|apply preserves_ret; exact _].
    apply preserves_bind; [exact _ | apply open_frame | intros fd].
    apply preserves_bind; [exact _ | apply dup2_frame | intros _].
    apply preserves_ret; exact _.
Qed.

Lemma redirect_output_frame inp cmd exit_code :
  preserves R (redirect_output w inp cmd exit_code).
Proof.
  unfold redirect_output. munfold. destruct (output_file inp).
  - apply preserves_bind; [exact _ | apply open_frame | intros fd].
    destruct (fd =? -1); [apply exit_in_err_child_frame|].
    apply preserves_bind; [exact _ | apply dup2_frame | intros _].
    apply preserves_ret; exact _.
  - destruct (is_background inp =? 1); [|apply preserves_ret; exact _].
    apply preserves_bind; [exact _ | apply open_frame | intros fd].
    apply preserves_bind; [exact _ | apply dup2_frame | intros _].
    apply preserves_ret; exact _.
Qed.

(** What the child does after it has installed its signal dispositions. *)
Lemma child_setup_frame inp exit_code :
  preserves R
    (bind (build_cmd inp) (fun cmd =>
     bind (redirect_input w inp cmd exit_code) (fun exit_code =>
     bind (redirect_output w inp cmd exit_code) (fun exit_code =>
     run_command w inp cmd exit_code)))).
Proof.
  apply preserves_bind; [exact _ | apply build_cmd_frame | intros cmd].
  apply preserves_bind; [exact _ | apply redirect_input_frame | intros e1].
  apply preserves_bind; [exact _ | apply redirect_output_frame | intros e2].
  apply run_command_frame.
Qed.

End Frames.

#[global] Instance keeps_preorder {X} (f : state -> X) : PreOrder (keeps f).
Proof. split; exact _. Qed.

#[global] Instance trace_grows_preorder : PreOrder trace_grows.
Proof. split; exact _. Qed.

Lemma trace_grows_log e s : trace_grows s (log e s).
Proof. now exists [e]. Qed.

Lemma trace_grows_same s s' : trace s' = trace s -> trace_grows s s'.
Proof. intros H. exists []. now rewrite app_nil_r. Qed.

(** ** The child: signal dispositions (C7) *)

(** C7.  In the child, whatever the request and whatever happens later, the
    first two actions are the two [sigaction] calls, and from then on — in
    particular when [execvp] replaces the image — SIGTSTP is ignored and
    SIGINT is ignored for a background request and has its default
    disposition for a foreground one. *)
Theorem child_signal_dispositions (w : world) (inp : Input)
    (fate : option Z) (s : state) :
  let s' := final_state (execute_smallsh w inp 0 fate s) in
  let h := if is_background inp =? TRUE then SIG_IGN else SIG_DFL in
  sigtstp s' = SIG_IGN /\
  sigint s' = h /\
  exists t, trace s' =
    trace s ++ EvSigaction SIGTSTP SIG_IGN :: EvSigaction SIGINT h :: t.
Proof.
  pose proof (child_setup_frame w (keeps signals)
                ltac:(intros; reflexivity) ltac:(intros; reflexivity)
                ltac:(intros; reflexivity) ltac:(intros; reflexivity)
                inp 0) as Hsig.
  pose proof (child_setup_frame w trace_grows trace_grows_log
                ltac:(intros; now apply trace_grows_same)
                ltac:(intros; now apply trace_grows_same)
                ltac:(intros; now apply trace_grows_same) inp 0) as Htr.
  unfold execute_smallsh, child_branch, child_handler, ignore_sigint,
    default_sigint, sigaction. munfold.
  destruct (is_background inp =? TRUE); cbn -[build_cmd redirect_input
    redirect_output run_command];
    match goal with
    | |- context [final_state (bind ?m ?k ?s0)] =>
        specialize (Hsig s0); specialize (Htr s0);
        destruct Htr as [t Ht]; unfold keeps, signals in Hsig;
        injection Hsig as Hi Ht'
    end;
    (split; [exact Ht' | split; [exact Hi | exists t; rewrite Ht; simpl;
       rewrite <- !app_assoc; reflexivity]]).
Qed.

(** ** Failure of [fork] (C8) *)

(** C8.  When [fork] returns -1, [execute_smallsh] returns 1 to its caller
    and has done nothing but the failed call: nothing is printed, no signal
    disposition, descriptor or directory changes, the list of background
    pids and the children of the interpreter are as before. *)
Theorem fork_failure_returns_1 (w : world) (inp : Input) (fate : option Z)
    (s : state) :
  exists s',
    execute_smallsh w inp (-1) fate s = Ret 1 s' /\
    trace s' = trace s ++ [EvFork (-1)] /\
    heap s' = heap s /\ pid_head s' = pid_head s /\
    children s' = children s /\
    fds s' = fds s /\ signals s' = signals s /\ cwd s' = cwd s /\
    foreground_mode s' = foreground_mode s.
Proof. eexists. repeat split. Qed.

(** ** Fresh descriptors and addresses *)

Lemma first_free_fresh {K V} `{Countable K} (m : gmap K V) (inj : nat -> K) :
  Inj (=) (=) inj ->
  m !! inj (first_free (fun i => bool_decide (m !! inj i = None)) (size m))
  = None.
Proof.
  intros Hinj. unfold first_free.
  destruct (List.find _ _) as [i|] eqn:E; simpl.
  - apply List.find_some in E as [_ E]. now apply bool_decide_eq_true in E.
  - exfalso.
    assert (Hall : forall i, (i < S (size m))%nat -> inj i ∈ dom m).
    { intros i Hi. apply elem_of_dom.
      pose proof (List.find_none _ _ E i) as Hn. cbv beta in Hn.
      destruct (m !! inj i) eqn:Ei; [eauto|].
      rewrite bool_decide_eq_false in Hn. exfalso. apply Hn; [|reflexivity].
      apply in_seq. lia. }
    set (X := (list_to_set (inj <$> seq 0 (S (size m))) : gset K)).
    assert (HX : X ⊆ dom m).
    { intros k Hk. apply elem_of_list_to_set in Hk.
      apply list_elem_of_fmap in Hk as (i & -> & Hi).
      apply Hall. apply list_elem_of_In, in_seq in Hi. lia. }
    apply subseteq_size in HX.
    unfold X in HX. rewrite size_list_to_set in HX.
    + rewrite length_fmap, length_seq, size_dom in HX. lia.
    + apply NoDup_fmap; [exact Hinj | apply NoDup_seq].
Qed.

Lemma lowest_fd_free (f : gmap Z ofile) : f !! lowest_fd f = None.
Proof. apply (first_free_fresh f Z.of_nat). intros a b. lia. Qed.

Lemma unused_addr_free (h : gmap N (bool * Node)) : h !! unused_addr h = None.
Proof. apply (first_free_fresh h N.of_nat). intros a b. lia. Qed.

(** ** The child: redirection (C1) *)

Lemma copy_args_all (l : list string) (n i : nat) (s : state) :
  (n + i = length l)%nat -> copy_args n (Some l) i s = Ret (drop i l) s.
Proof.
  revert i. induction n as [|n IH]; intros i Hn; simpl.
  - rewrite drop_ge by lia. reflexivity.
  - destruct (l !! i) as [x|] eqn:Ex.
    + munfold. unfold bind. rewrite IH by lia.
      simpl. now rewrite (drop_S _ _ _ Ex).
    + apply lookup_ge_None in Ex. lia.
Qed.

Lemma build_cmd_well_formed (inp : Input) :
  well_formed inp ->
  exists c, command inp = Some c /\
    forall s, build_cmd inp s = Ret (c :: default [] (args inp)) s.
Proof.
  intros [[c Hc] Ha]. exists c. split; [exact Hc|]. intros s.
  unfold args_agree in Ha.
  unfold build_cmd. rewrite Hc. destruct (args inp) as [l|].
  - rewrite Ha. destruct (Z.ltb_spec (Z.of_nat (length l)) (-1)); [lia|].
    destruct (Z.eqb_spec (Z.of_nat (length l)) (-1)); [lia|].
    munfold. unfold bind. rewrite Nat2Z.id.
    rewrite (copy_args_all l (length l) 0 s) by lia. reflexivity.
  - rewrite Ha. reflexivity.
Qed.

Lemma lowest_fd_nonneg (f : gmap Z ofile) : (lowest_fd f =? -1) = false.
Proof. apply Z.eqb_neq. unfold lowest_fd. lia. Qed.

Lemma lowest_fd_not_open (f : gmap Z ofile) (fd : Z) :
  is_Some (f !! fd) -> lowest_fd f ≠ fd.
Proof.
  intros [x Hx] E. pose proof (lowest_fd_free f) as Hf.
  rewrite E in Hf. congruence.
Qed.

(** Opening [path] and binding descriptor [target] to it leaves every other
    open descriptor as it was. *)
Lemma open_dup2 (w : world) path flags mode target (s : state) :
  w_open w path flags = true ->
  is_Some (fds s !! target) ->
  exists s',
    bind (open w path flags mode) (fun fd => dup2 fd target) s
      = Ret target s' /\
    fds s' !! target = Some (Opened path flags mode) /\
    forall fd, fd ≠ target -> is_Some (fds s !! fd) ->
               fds s' !! fd = fds s !! fd.
Proof.
  intros Ho Ht. unfold bind, open. rewrite Ho. unfold dup2. simpl.
  rewrite lookup_insert_eq. eexists. split; [reflexivity|]. simpl. split.
  - apply lookup_insert_eq.
  - intros fd Hne Hfd. rewrite lookup_insert_ne by congruence.
    rewrite lookup_insert_ne; [reflexivity|].
    now apply lowest_fd_not_open.
Qed.

Lemma redirect_input_ok (w : world) inp cmd ec (s : state) i0 i1 :
  fds s !! STDIN_FILENO = Some i0 ->
  fds s !! STDOUT_FILENO = Some i1 ->
  (forall p, input_file inp = Some p -> w_open w p O_RDONLY = true) ->
  w_open w "/dev/null" O_RDONLY = true ->
  exists s',
    redirect_input w inp cmd ec s = Ret ec s' /\
    fds s' !! STDIN_FILENO =
      Some (match input_file inp with
            | Some p => Opened p O_RDONLY None
            | None => if is_background inp =? 1
                      then Opened "/dev/null" O_RDONLY None else i0
            end) /\
    fds s' !! STDOUT_FILENO = Some i1.
Proof.
  intros H0 H1 Hin Hnull. unfold redirect_input. munfold.
  destruct (input_file inp) as [p|].
  - destruct (open_dup2 w p O_RDONLY None STDIN_FILENO s (Hin p eq_refl))
      as (s' & Hrun & Hfd & Hother); [eauto|].
    exists s'. split; [|split; [exact Hfd|]].
    + revert Hrun. unfold bind, open. rewrite (Hin p eq_refl).
      rewrite lowest_fd_nonneg. intros ->. reflexivity.
    + rewrite Hother; [exact H1 | discriminate | eauto].
  - destruct (is_background inp =? 1).
    + destruct (open_dup2 w "/dev/null" O_RDONLY None STDIN_FILENO s Hnull)
        as (s' & Hrun & Hfd & Hother); [eauto|].
      exists s'. split; [|split; [exact Hfd|]].
      * revert Hrun. unfold bind. destruct (open _ _ _ _ _); try congruence.
        intros ->. reflexivity.
      * rewrite Hother; [exact H1 | discriminate | eauto].
    + exists s. auto.
Qed.

Lemma redirect_output_ok (w : world) inp cmd ec (s : state) i0 i1 :
  fds s !! STDIN_FILENO = Some i0 ->
  fds s !! STDOUT_FILENO = Some i1 ->
  (forall p, output_file inp = Some p ->
     w_open w p (Z.lor (Z.lor O_WRONLY O_CREAT) O_TRUNC) = true) ->
  w_open w "/dev/null" O_WRONLY = true ->
  exists s',
    redirect_output w inp cmd ec s = Ret ec s' /\
    fds s' !! STDOUT_FILENO =
      Some (match output_file inp with
            | Some p =>
                Opened p (Z.lor (Z.lor O_WRONLY O_CREAT) O_TRUNC) (Some 384)
            | None => if is_background inp =? 1
                      then Opened "/dev/null" O_WRONLY None else i1
            end) /\
    fds s' !! STDIN_FILENO = Some i0.
Proof.
  intros H0 H1 Hout Hnull. unfold redirect_output. munfold.
  destruct (output_file inp) as [p|].
  - destruct (open_dup2 w p _ (Some 384) STDOUT_FILENO s (Hout p eq_refl))
      as (s' & Hrun & Hfd & Hother); [eauto|].
    exists s'. split; [|split; [exact Hfd|]].
    + revert Hrun. unfold bind, open. rewrite (Hout p eq_refl).
      rewrite lowest_fd_nonneg. intros ->. reflexivity.
    + rewrite Hother; [exact H0 | discriminate | eauto].
  - destruct (is_background inp =? 1).
    + destruct (open_dup2 w "/dev/null" O_WRONLY None STDOUT_FILENO s Hnull)
        as (s' & Hrun & Hfd & Hother); [eauto|].
      exists s'. split; [|split; [exact Hfd|]].
      * revert Hrun. unfold bind. destruct (open _ _ _ _ _); try congruence.
        intros ->. reflexivity.
      * rewrite Hother; [exact H0 | discriminate | eauto].
    + exists s. auto.
Qed.

(** C1, as the code has it.  Take a request whose explicit paths, if any,
    can be opened, in a child that has its standard input and output and can
    open the null device.  Then, in the state in which the child reaches
    [execvp]:
    - a stream without a path is bound to the null device when the request
      is background, and is the stream of the interpreter, unchanged, when
      the request is foreground;
    - a stream with a path is bound to that file, opened read-only for
      input and write-only, create, truncate, mode 0600 for output;
    and when the program exists the child becomes that program in exactly
    this state. *)
Theorem child_redirection (w : world) (inp : Input) (fate : option Z)
    (s : state) (i0 i1 : ofile) :
  fds s !! STDIN_FILENO = Some i0 ->
  fds s !! STDOUT_FILENO = Some i1 ->
  well_formed inp ->
  (forall p, input_file inp = Some p -> w_open w p O_RDONLY = true) ->
  (forall p, output_file inp = Some p ->
     w_open w p (Z.lor (Z.lor O_WRONLY O_CREAT) O_TRUNC) = true) ->
  (forall flags, w_open w "/dev/null" flags = true) ->
  let o := execute_smallsh w inp 0 fate s in
  let s' := final_state o in
  let wr := Z.lor (Z.lor O_WRONLY O_CREAT) O_TRUNC in
  (input_file inp = None -> is_background inp = TRUE ->
     fds s' !! STDIN_FILENO = Some (Opened "/dev/null" O_RDONLY None)) /\
  (input_file inp = None -> is_background inp = FALSE ->
     fds s' !! STDIN_FILENO = Some i0) /\
  (forall p, input_file inp = Some p ->
     fds s' !! STDIN_FILENO = Some (Opened p O_RDONLY None)) /\
  (output_file inp = None -> is_background inp = TRUE ->
     fds s' !! STDOUT_FILENO = Some (Opened "/dev/null" O_WRONLY None)) /\
  (output_file inp = None -> is_background inp = FALSE ->
     fds s' !! STDOUT_FILENO = Some i1) /\
  (forall p, output_file inp = Some p ->
     fds s' !! STDOUT_FILENO = Some (Opened p wr (Some 384))) /\
  (forall c, command inp = Some c -> w_exec w c = true ->
     o = Execed c (c :: default [] (args inp)) s').
Proof.
  intros H0 H1 Hwf Hin Hout Hnull o s' wr.
  destruct (build_cmd_well_formed inp Hwf) as (c & Hc & Hcmd).
  set (s1 := final_state (child_handler inp (set_children ∅ s))).
  assert (Hh : child_handler inp (set_children ∅ s) = Ret tt s1).
  { unfold s1, child_handler, ignore_sigint, default_sigint, sigaction.
    munfold. destruct (is_background inp =? TRUE); reflexivity. }
  assert (Hf1 : fds s1 = fds s).
  { unfold s1, child_handler, ignore_sigint, default_sigint, sigaction.
    munfold. destruct (is_background inp =? TRUE); reflexivity. }
  destruct (redirect_input_ok w inp (c :: default [] (args inp)) 0 s1 i0 i1)
    as (s2 & Hri & Hi2 & Ho2); rewrite ?Hf1; auto.
  edestruct (redirect_output_ok w inp (c :: default [] (args inp)) 0 s2)
    as (s3 & Hro & Ho3 & Hi3); [exact Hi2 | exact Ho2 | auto | auto |].
  assert (Ho : o = run_command w inp (c :: default [] (args inp)) 0 s3).
  { unfold o, execute_smallsh, child_branch. munfold.
    unfold bind at 1. cbn [fork Z.eqb].
    rewrite (bind_ret_l _ _ _ _ _ Hh).
    rewrite (bind_ret_l _ _ _ _ _ (Hcmd s1)).
    rewrite (bind_ret_l _ _ _ _ _ Hri).
    rewrite (bind_ret_l _ _ _ _ _ Hro). reflexivity. }
  assert (Hkeep : fds s' = fds s3).
  { unfold s'. rewrite Ho.
    apply (run_command_frame w (keeps fds)); intros; reflexivity. }
  rewrite Hkeep, Hi3, Ho3.
  repeat split.
  - intros -> Hbg. rewrite Hbg. reflexivity.
  - intros -> Hbg. rewrite Hbg. reflexivity.
  - intros p ->. reflexivity.
  - intros -> Hbg. rewrite Hbg. reflexivity.
  - intros -> Hbg. rewrite Hbg. reflexivity.
  - intros p ->. reflexivity.
  - intros c' Hc' Hex. assert (c' = c) as -> by congruence.
    unfold s'. rewrite Ho. unfold run_command. munfold. simpl.
    rewrite Hc. simpl. unfold bind, ret, execvp. rewrite Hex. reflexivity.
Qed.

(** ** The parent: foreground wait (C3, C4) *)

Lemma bind_Ret_inv {A B} (m : M A) (k : A -> M B) (s s2 : state) (b : B) :
  bind m k s = Ret b s2 ->
  exists a s1, m s = Ret a s1 /\ k a s1 = Ret b s2.
Proof. unfold bind. destruct (m s); try discriminate. eauto. Qed.

Lemma fork_parent (r : Z) (fate : option Z) (s : state) :
  0 < r ->
  fork r fate s =
    Ret r (log (EvFork r)
             (set_children (<[r := Running fate]> (children s)) s)).
Proof.
  intros Hr. unfold fork.
  destruct (Z.eqb_spec r 0); [lia|].
  destruct (Z.ltb_spec 0 r); [reflexivity | lia].
Qed.

Lemma execute_smallsh_parent (w : world) (inp : Input) (fork_pid : Z)
    (fate : option Z) (s : state) :
  0 < fork_pid ->
  execute_smallsh w inp fork_pid fate s =
    parent_branch inp fork_pid 0
      (log (EvFork fork_pid)
         (set_children (<[fork_pid := Running fate]> (children s)) s)).
Proof.
  intros Hpid. unfold execute_smallsh. munfold.
  rewrite (bind_ret_l _ _ _ _ _ (fork_parent fork_pid fate s Hpid)).
  destruct (Z.eqb_spec fork_pid 0); [lia|].
  destruct (Z.eqb_spec fork_pid (-1)); [lia|]. reflexivity.
Qed.

(** Undefined behaviour in the first part of a sequence is undefined
    behaviour of the sequence. *)
Lemma bind_undefined {A B} (m : M A) (k : A -> M B) (s s' : state) (u : ub) :
  m s = Undefined u s' -> bind m k s = Undefined u s'.
Proof. intros H. unfold bind. now rewrite H. Qed.

(** A foreground request whose child exists and ends with status [st]: the
    parent waits for that child, without [WNOHANG], and returns [st]. *)
Lemma foreground_wait (w : world) (inp : Input) (fork_pid st : Z)
    (s : state) :
  0 < fork_pid -> is_background inp = FALSE ->
  exists s',
    execute_smallsh w inp fork_pid (Some st) s = Ret st s' /\
    trace s' =
      trace s ++
      [EvFork fork_pid; EvSigaction SIGINT SIG_IGN;
       EvSigaction SIGTSTP Handler_set_foreground_mode;
       EvWaitpid fork_pid 0] ++
      (if WIFSIGNALED st
       then [EvPrintf ("terminated by signal " +:+ dec (WTERMSIG st) +:+ nl)]
       else []) /\
    heap s' = heap s /\ pid_head s' = pid_head s /\
    children s' = delete fork_pid (children s) /\
    fds s' = fds s /\ cwd s' = cwd s /\
    foreground_mode s' = foreground_mode s.
Proof.
  intros Hpid Hfg. rewrite execute_smallsh_parent by exact Hpid.
  unfold parent_branch, parent_handler, ignore_sigint, sigaction, printf.
  munfold. rewrite Hfg.
  cbn -[WIFSIGNALED WTERMSIG dec String.append].
  unfold bind at 1. unfold waitpid.
  cbn -[WIFSIGNALED WTERMSIG dec String.append].
  rewrite lookup_insert_eq. change (Z.land 0 WNOHANG =? 0) with true.
  cbn -[WIFSIGNALED WTERMSIG dec String.append].
  rewrite delete_insert_eq.
  destruct (WIFSIGNALED st); cbn -[WTERMSIG dec String.append];
    eexists; (split; [reflexivity|]); cbn -[WTERMSIG dec String.append];
    rewrite <- ?app_assoc; repeat split.
Qed.

(** The same request when the child never ends: the call never returns. *)
Lemma foreground_wait_blocks (w : world) (inp : Input) (fork_pid : Z)
    (s : state) :
  0 < fork_pid -> is_background inp = FALSE ->
  exists s',
    execute_smallsh w inp fork_pid None s = Diverges s' /\
    trace s' =
      trace s ++
      [EvFork fork_pid; EvSigaction SIGINT SIG_IGN;
       EvSigaction SIGTSTP Handler_set_foreground_mode;
       EvWaitpid fork_pid 0].
Proof.
  intros Hpid Hfg. rewrite execute_smallsh_parent by exact Hpid.
  unfold parent_branch, parent_handler, ignore_sigint, sigaction, printf.
  munfold. rewrite Hfg. cbn.
  unfold bind at 1. unfold waitpid. cbn.
  rewrite lookup_insert_eq. change (Z.land 0 WNOHANG =? 0) with true. cbn.
  eexists. split; [reflexivity|]. cbn. rewrite <- ?app_assoc. reflexivity.
Qed.

(** A command name that is none of the built-ins goes to
    [execute_smallsh]. *)
Lemma dispatch_external (w : world) (inp : Input) (exit_code fk : Z)
    (fate : option Z) (c : string) :
  command inp = Some c -> c ≠ "cd" -> c ≠ "status" ->
  dispatch w TRUE inp exit_code fk fate = execute_smallsh w inp fk fate.
Proof.
  intros Hc Hcd Hst. unfold dispatch. simpl. rewrite Hc.
  destruct (String.eqb_spec c "cd"); [contradiction|].
  destruct (String.eqb_spec c "status"); [contradiction|]. reflexivity.
Qed.

(** C4.  A foreground request for an external command whose child exists
    (pid [fork_pid]) and ends as [t]: the parent waits for [fork_pid] and for
    nothing else, without [WNOHANG]; the wait status of the child becomes
    the variable [exit_code] of [main], and it says whether the child exited
    or was killed and by which signal; "terminated by signal n" is printed
    when the child was killed and nothing is printed when it exited. *)
Theorem foreground_completion (w : world) (inp : Input) (c : string)
    (fork_pid exit_code : Z) (t : termination) (s : state) :
  command inp = Some c -> c ≠ "cd" -> c ≠ "status" ->
  is_background inp = FALSE ->
  0 < fork_pid ->
  match t with KilledBy sig _ => deadly sig | ExitedWith _ => True end ->
  exists s',
    dispatch w TRUE inp exit_code fork_pid (Some (wstatus t)) s
      = Ret (wstatus t) s' /\
    trace s' =
      trace s ++
      [EvFork fork_pid; EvSigaction SIGINT SIG_IGN;
       EvSigaction SIGTSTP Handler_set_foreground_mode;
       EvWaitpid fork_pid 0] ++
      match t with
      | KilledBy sig _ =>
          [EvPrintf ("terminated by signal " +:+ dec sig +:+ nl)]
      | ExitedWith _ => []
      end /\
    match t with
    | KilledBy sig _ =>
        WIFSIGNALED (wstatus t) = true /\ WTERMSIG (wstatus t) = sig
    | ExitedWith code =>
        WIFSIGNALED (wstatus t) = false /\ WIFEXITED (wstatus t) = true /\
        WEXITSTATUS (wstatus t) = Z.land code 255
    end /\
    heap s' = heap s /\ pid_head s' = pid_head s.
Proof.
  intros Hc Hcd Hst Hfg Hpid Ht.
  rewrite (dispatch_external w inp exit_code fork_pid _ c Hc Hcd Hst).
  destruct (foreground_wait w inp fork_pid (wstatus t) s Hpid Hfg)
    as (s' & Hrun & Htr & Hheap & Hhead & _).
  exists s'. split; [exact Hrun|]. rewrite Htr.
  destruct t as [code|sig core].
  - destruct (exited_status code) as (He & Hs & Hx). rewrite Hs. auto.
  - destruct (killed_status sig core Ht) as (Hs & He & Hx).
    rewrite Hs, Hx. auto.
Qed.

(** The file-name loop of [parse_input] changes neither the state nor the
    background flag. *)
Lemma files_loop_background (toks : list string) :
  forall inp inp' s s',
    files_loop toks inp s = Ret inp' s' ->
    s' = s /\ is_background inp' = is_background inp /\
    command inp' = command inp /\ num_args inp' = num_args inp /\
    args inp' = args inp.
Proof.
  induction toks as [|t r IH]; intros inp inp' s s' H; simpl in H.
  - injection H as <- <-. auto.
  - destruct (String.eqb t "<" || String.eqb t ">").
    + destruct r as [|f r']; [discriminate|].
      destruct (String.eqb t "<"); apply IH in H; simpl in H; exact H.
    + now apply IH in H.
Qed.

Lemma fill_tokens_state (n : nat) :
  forall toks tokens s s',
    fill_tokens n toks s = Ret tokens s' -> s' = s.
Proof.
  induction n as [|n IH]; intros toks tokens s s' H; simpl in H.
  - now injection H as <- <-.
  - destruct toks as [|t ts]; [discriminate|]. munfold.
    apply bind_Ret_inv in H as (rest & s1 & H1 & H2).
    apply IH in H1 as ->. now injection H2 as <- <-.
Qed.

Lemma expand_smallsh_state (w : world) (x y : string) (s s' : state) :
  expand_smallsh w x s = Ret y s' -> s' = s.
Proof.
  unfold expand_smallsh. destruct (_ <=? _)%nat; [discriminate|].
  destruct (_ <=? _); [discriminate|].
  now intros [= <- <-].
Qed.

Lemma count_args_bounds (toks : list string) :
  0 <= count_args toks <= Z.of_nat (length toks).
Proof.
  induction toks as [|t r IH]; simpl; [lia|].
  destruct (is_redirect_or_amp t); lia.
Qed.

(** What [parse_input] returns: the state is untouched; the background flag
    is set only when the mode flag is [FALSE]; and a line that is not a
    comment gives a well-formed request. *)
Lemma parse_input_facts (w : world) (line : string) (inp0 inp : Input)
    (code : Z) (s s1 : state) :
  parse_input w line inp0 s = Ret (code, inp) s1 ->
  s1 = s /\
  (is_background inp = is_background inp0 \/
   is_background inp = TRUE /\ foreground_mode s = FALSE) /\
  (code = FALSE /\ inp = inp0 \/
   code = TRUE /\ (args_agree inp0 -> well_formed inp)).
Proof.
  unfold parse_input. munfold. intros H.
  apply bind_Ret_inv in H as (input & s2 & He & H).
  apply expand_smallsh_state in He as ->.
  apply bind_Ret_inv in H as (tokens & s3 & Hf & H).
  apply fill_tokens_state in Hf as ->.
  destruct tokens as [|tokens0 rest]; [discriminate|].
  assert (Hmain :
    bind (get foreground_mode) (fun fm =>
      let background :=
        if String.eqb (List.last (tokens0 :: rest) EmptyString) "&"
           && (fm =? FALSE)
        then TRUE else is_background inp0 in
      let inp1 :=
        if 0 <? count_args rest then
          {| command := Some tokens0; num_args := count_args rest;
             args := Some (take (Z.to_nat (count_args rest)) rest);
             input_file := input_file inp0; output_file := output_file inp0;
             is_background := background |}
        else
          {| command := Some tokens0; num_args := num_args inp0;
             args := args inp0;
             input_file := input_file inp0; output_file := output_file inp0;
             is_background := background |} in
      bind (files_loop (drop (Z.to_nat (count_args rest)) (tokens0 :: rest))
              inp1) (fun inp2 => ret (TRUE, inp2))) s = Ret (code, inp) s1 ->
    s1 = s /\
    (is_background inp = is_background inp0 \/
     is_background inp = TRUE /\ foreground_mode s = FALSE) /\
    (code = FALSE /\ inp = inp0 \/
     code = TRUE /\ (args_agree inp0 -> well_formed inp))).
  { clear H. intros H. unfold bind at 1 in H. cbn [get] in H.
    apply bind_Ret_inv in H as (inp2 & s4 & Hl & H).
    injection H as <- <- <-.
    apply files_loop_background in Hl as (-> & Hbg & Hc & Hn & Ha).
    split; [reflexivity|]. split.
    - rewrite Hbg.
      destruct (String.eqb _ "&"); simpl;
        [destruct (Z.eqb_spec (foreground_mode s) FALSE)|];
        destruct (0 <? count_args rest); simpl; auto.
    - right. split; [reflexivity|]. intros Hagree.
      unfold well_formed, args_agree. rewrite Hc, Hn, Ha.
      pose proof (count_args_bounds rest) as Hb.
      destruct (Z.ltb_spec 0 (count_args rest)); simpl.
      + split; [eauto|]. rewrite length_take. lia.
      + split; [eauto | exact Hagree]. }
  destruct tokens0 as [|a tokens0']; [exact (Hmain H)|].
  destruct (Ascii.eqb_spec a "#") as [->|Hne].
  - injection H as <- <- <-. auto.
  - apply Hmain. revert H.
    destruct a as [[] [] [] [] [] [] [] []]; try (intros H; exact H);
      exfalso; apply Hne; reflexivity.
Qed.

(** C3.  While the mode flag is [TRUE], [parse_input] leaves the background
    flag of every request at [FALSE], whatever the line ends with, and
    prints nothing; such a request, once its child exists, is waited for
    without [WNOHANG]: [execute_smallsh] returns only with the status the
    child ended with, never returns if the child never ends, and the list of
    background pids is not touched. *)
Theorem foreground_only_mode (w : world) (line : string) (code : Z)
    (inp : Input) (s s1 : state) :
  foreground_mode s = TRUE ->
  parse_input w line init_input s = Ret (code, inp) s1 ->
  s1 = s /\
  is_background inp = FALSE /\
  forall (fork_pid : Z) (s2 : state), 0 < fork_pid ->
    (forall st, exists s3,
       execute_smallsh w inp fork_pid (Some st) s2 = Ret st s3 /\
       (exists t, trace s3 =
          trace s2 ++ [EvFork fork_pid; EvSigaction SIGINT SIG_IGN;
                       EvSigaction SIGTSTP Handler_set_foreground_mode;
                       EvWaitpid fork_pid 0] ++ t) /\
       heap s3 = heap s2 /\ pid_head s3 = pid_head s2) /\
    (exists s3, execute_smallsh w inp fork_pid None s2 = Diverges s3).
Proof.
  intros Hfm Hparse.
  apply parse_input_facts in Hparse as (-> & Hbg & _).
  assert (Hfg : is_background inp = FALSE).
  { destruct Hbg as [Hbg | [_ Hbg]]; [exact Hbg|].
    rewrite Hfm in Hbg. discriminate. }
  split; [reflexivity|]. split; [exact Hfg|].
  intros fork_pid s2 Hpid. split.
  - intros st.
    destruct (foreground_wait w inp fork_pid st s2 Hpid Hfg)
      as (s3 & Hrun & Htr & Hheap & Hhead & _).
    exists s3. repeat split; eauto.
  - destruct (foreground_wait_blocks w inp fork_pid s2 Hpid Hfg)
      as (s3 & Hrun & _). eauto.
Qed.

(** ** Lists of background pids in the heap *)

Lemma is_list_functional h p l1 :
  forall l2, is_list h p l1 -> is_list h p l2 -> l1 = l2.
Proof.
  revert p. induction l1 as [|[a d] l1 IH]; intros p [|[a' d'] l2] H1 H2;
    simpl in *; try reflexivity.
  - destruct H2 as [-> _]. discriminate.
  - destruct H1 as [-> _]. discriminate.
  - destruct H1 as (-> & nx & Ha & H1), H2 as (E & nx' & Ha' & H2).
    injection E as <-. rewrite Ha in Ha'. injection Ha' as <- <-.
    f_equal. eapply IH; eauto.
Qed.

Lemma is_list_suffix h l1 :
  forall p a d l2, is_list h p (l1 ++ (a, d) :: l2) ->
                   is_list h (Some a) ((a, d) :: l2).
Proof.
  induction l1 as [|[a1 d1] l1 IH]; intros p a d l2 H; simpl in *.
  - destruct H as (-> & H). split; [reflexivity | exact H].
  - destruct H as (-> & nx & _ & H). eapply IH; eauto.
Qed.

Lemma is_list_NoDup h l : forall p, is_list h p l -> NoDup l.*1.
Proof.
  induction l as [|[a d] l IH]; intros p H; simpl; [constructor|].
  pose proof H as H'. destruct H as (-> & nx & Ha & H).
  constructor; [|eauto].
  intros Hin. apply list_elem_of_fmap in Hin as ([a' d'] & E & Hin).
  simpl in E. subst a'.
  apply list_elem_of_split in Hin as (l1 & l2 & ->).
  pose proof (is_list_suffix _ _ _ _ _ _ H) as Hs.
  pose proof (is_list_functional _ _ _ _ H' Hs) as E.
  apply (f_equal length) in E. simpl in E.
  rewrite length_app in E. simpl in E. lia.
Qed.

Lemma is_list_dom h l : forall p, is_list h p l -> forall a, a ∈ l.*1 -> a ∈ dom h.
Proof.
  induction l as [|[a d] l IH]; intros p H x Hx; simpl in *.
  - inversion Hx.
  - destruct H as (-> & nx & Ha & H). apply elem_of_cons in Hx as [->|Hx].
    + apply elem_of_dom. eauto.
    + eapply IH; eauto.
Qed.

(** A list in the heap is no longer than the heap is large: the loops over
    it have enough fuel. *)
Lemma is_list_length h p l : is_list h p l -> (length l <= size h)%nat.
Proof.
  intros H.
  assert (Hs : (list_to_set l.*1 : gset N) ⊆ dom h).
  { intros a Ha. apply elem_of_list_to_set in Ha. eapply is_list_dom; eauto. }
  apply subseteq_size in Hs.
  rewrite size_list_to_set in Hs by (eapply is_list_NoDup; eauto).
  rewrite length_fmap, size_dom in Hs. exact Hs.
Qed.

(** Writing to a node outside the list does not disturb the list. *)
Lemma is_list_insert_other h l : forall p a v,
  a ∉ l.*1 -> is_list h p l -> is_list (<[a := v]> h) p l.
Proof.
  induction l as [|[b d] l IH]; intros p a v Hn H; simpl in *; [exact H|].
  destruct H as (-> & nx & Hb & H).
  apply not_elem_of_cons in Hn as [Hab Hn].
  split; [reflexivity|]. exists nx. split.
  - rewrite lookup_insert_ne by congruence. exact Hb.
  - now apply IH.
Qed.

(** ** [exit_smallsh] *)

Lemma exit_smallsh_loop_spec (w : world) (l : list (N * Z)) :
  forall (fuel : nat) (p : option N) (s : state),
    is_list (heap s) p l -> (length l < fuel)%nat ->
    exists s',
      exit_smallsh_loop w fuel p s = Ret tt s' /\
      trace s' = trace s ++ flat_map kill_and_wait l.*2 /\
      children s' = foldl (fun c pid => delete pid c) (children s) l.*2 /\
      heap s' = heap s /\ pid_head s' = pid_head s /\ fds s' = fds s /\
      cwd s' = cwd s /\ foreground_mode s' = foreground_mode s.
Proof.
  induction l as [|[a d] l IH]; intros fuel p s Hl Hfuel; simpl in Hl.
  - subst p. exists s. destruct fuel; simpl; rewrite ?app_nil_r; auto 10.
  - destruct Hl as (-> & nx & Ha & Hl).
    destruct fuel as [|fuel]; [simpl in Hfuel; lia|]. simpl in Hfuel.
    assert (Hstep : exists s1,
      bind (kill d SIGKILL) (fun _ => waitpid d 0) s
        = Ret (if children s !! d is Some _ then (d, Some
                 (match children s !! d with
                  | Some (Zombie st) => st
                  | _ => wstatus (KilledBy SIGKILL false)
                  end)) else (-1, None)) s1 /\
      trace s1 = trace s ++ kill_and_wait d /\
      children s1 = delete d (children s) /\
      heap s1 = heap s /\ pid_head s1 = pid_head s /\ fds s1 = fds s /\
      cwd s1 = cwd s /\ foreground_mode s1 = foreground_mode s).
    { unfold bind, kill, waitpid.
      destruct (children s !! d) as [[fate|st]|] eqn:Ed; simpl.
      - rewrite lookup_insert_eq. eexists. split; [reflexivity|]. simpl.
        rewrite delete_insert_eq, <- app_assoc. auto 10.
      - rewrite Ed. eexists. split; [reflexivity|]. simpl.
        rewrite <- app_assoc. auto 10.
      - rewrite Ed. eexists. split; [reflexivity|]. simpl.
        rewrite <- app_assoc, delete_id by exact Ed. auto 10. }
    destruct Hstep as (s1 & Hrun & Htr & Hch & Hh & Hp & Hf & Hc & Hm).
    destruct (IH fuel nx s1) as (s' & Hrun' & Htr' & Hch' & Hh' & Hp' & Hf' & Hc' & Hm');
      [rewrite Hh; exact Hl | lia |].
    exists s'. split.
    + simpl. munfold. unfold bind at 1. unfold load. rewrite Ha.
      cbn [data next]. revert Hrun. unfold bind.
      destruct (kill d SIGKILL s) as [r1 sk| | | |]; try discriminate.
      intros Hw. rewrite Hw. exact Hrun'.
    + simpl. rewrite Htr', Htr, Hch', Hch, <- app_assoc.
      repeat split; congruence.
Qed.

Lemma exit_smallsh_spec (w : world) (l : list (N * Z)) (p : option N)
    (s : state) :
  is_list (heap s) p l ->
  exists s',
    exit_smallsh w p s = Ret tt s' /\
    trace s' = trace s ++ flat_map kill_and_wait l.*2 /\
    children s' = foldl (fun c pid => delete pid c) (children s) l.*2 /\
    heap s' = heap s /\ pid_head s' = pid_head s /\ fds s' = fds s /\
    cwd s' = cwd s /\ foreground_mode s' = foreground_mode s.
Proof.
  intros Hl. unfold exit_smallsh, list_fuel. munfold. unfold bind, get.
  apply exit_smallsh_loop_spec; [exact Hl|].
  apply is_list_length in Hl. lia.
Qed.

Lemma foldl_delete_lookup (pids : list Z) :
  forall (c : gmap Z child) (pid : Z),
    foldl (fun c pid => delete pid c) c pids !! pid =
      if bool_decide (pid ∈ pids) then None else c !! pid.
Proof.
  induction pids as [|q pids IH]; intros c pid; cbn [foldl].
  - case_bool_decide as H; [inversion H | reflexivity].
  - rewrite IH. destruct (decide (pid = q)) as [->|Hne].
    + case_bool_decide as H1; case_bool_decide as H2; try reflexivity;
        try apply lookup_delete_eq; exfalso; apply H2; left.
    + rewrite lookup_delete_ne by congruence.
      case_bool_decide as H1; case_bool_decide as H2; try reflexivity.
      * exfalso. apply H2. now right.
      * exfalso. apply elem_of_cons in H2 as [?|?]; contradiction.
Qed.

(** ** [free_nodes] and the end of [main] *)

Lemma free_nodes_loop_spec (w : world) (l : list (N * Z)) :
  forall (fuel : nat) (s : state),
    is_list (heap s) (pid_head s) l -> (length l < fuel)%nat ->
    exists s',
      free_nodes_loop w fuel (pid_head s) s = Ret tt s' /\
      pid_head s' = None /\ trace s' = trace s /\
      children s' = children s /\ fds s' = fds s /\ cwd s' = cwd s /\
      foreground_mode s' = foreground_mode s.
Proof.
  induction l as [|[a d] l IH]; intros fuel s Hl Hfuel.
  - simpl in Hl. rewrite Hl. exists s. destruct fuel; simpl; auto 10.
  - pose proof (is_list_NoDup _ _ _ Hl) as Hnd. simpl in Hnd.
    apply NoDup_cons in Hnd as [Hna _].
    simpl in Hl. destruct Hl as (Hp & nx & Ha & Hl).
    destruct fuel as [|fuel]; [simpl in Hfuel; lia|]. simpl in Hfuel.
    set (s1 := set_heap (<[a := (false, {| data := d; next := nx |})]> (heap s))
                 (set_pid_head nx s)).
    destruct (IH fuel s1) as (s' & Hrun & Hrest);
      [simpl; now apply is_list_insert_other | lia |].
    exists s'. split; [|exact Hrest].
    rewrite Hp. simpl. munfold. unfold bind, get, deref, load, modify, free.
    rewrite Hp. rewrite Ha. simpl. rewrite Ha. simpl. exact Hrun.
Qed.

Lemma free_nodes_spec (w : world) (l : list (N * Z)) (s : state) :
  is_list (heap s) (pid_head s) l ->
  exists s',
    free_nodes w s = Ret tt s' /\
    pid_head s' = None /\ trace s' = trace s /\
    children s' = children s /\ fds s' = fds s /\ cwd s' = cwd s /\
    foreground_mode s' = foreground_mode s.
Proof.
  intros Hl. unfold free_nodes, list_fuel. munfold. unfold bind at 1, get.
  unfold bind at 1.
  destruct (free_nodes_loop_spec w l (S (size (heap s))) s Hl)
    as (s' & Hrun & Hrest); [apply is_list_length in Hl; lia|].
  unfold bind. rewrite Hrun. eexists. split; [reflexivity|].
  simpl. tauto.
Qed.

(** With a well-formed list of background pids, the code after the loop of
    [main] only releases memory, and [main] returns 0. *)
Lemma main_epilogue_spec (w : world) (l : list (N * Z)) (s : state) :
  is_list (heap s) (pid_head s) l ->
  exists s',
    main_epilogue w s = Ret 0 s' /\
    trace s' = trace s /\ children s' = children s.
Proof.
  intros Hl. unfold main_epilogue. munfold. unfold bind at 1, get.
  destruct (pid_head s) eqn:Ep.
  - rewrite <- Ep in Hl.
    destruct (free_nodes_spec w l s Hl) as (s' & Hrun & _ & Ht & Hc & _).
    unfold bind. rewrite Hrun. exists s'. auto.
  - exists s. auto.
Qed.

(** ** [get_input] *)

Lemma set_foreground_mode_returns (s : state) :
  exists s',
    set_foreground_mode s = Ret tt s' /\
    heap s' = heap s /\ pid_head s' = pid_head s /\
    children s' = children s /\ cwd s' = cwd s /\ fds s' = fds s.
Proof.
  unfold set_foreground_mode, fflush, write, emit. munfold.
  unfold bind, modify, get. simpl.
  destruct (foreground_mode s =? TRUE); simpl; eexists;
    (split; [reflexivity | simpl; auto 10]).
Qed.

Lemma deliver_returns (n : nat) : forall s : state,
  exists s',
    deliver n set_foreground_mode s = Ret tt s' /\
    heap s' = heap s /\ pid_head s' = pid_head s /\
    children s' = children s /\ cwd s' = cwd s /\ fds s' = fds s.
Proof.
  induction n as [|n IH]; intros s; simpl.
  - exists s. auto 10.
  - destruct (set_foreground_mode_returns s) as (s1 & H1 & E1).
    destruct (IH s1) as (s2 & H2 & E2).
    exists s2. munfold. unfold bind. rewrite H1. split; [exact H2|].
    intuition congruence.
Qed.

Lemma getline_returns (tstp : nat) (line : option string) (s : state) :
  exists s',
    getline tstp line s = Ret line s' /\
    heap s' = heap s /\ pid_head s' = pid_head s /\
    children s' = children s /\ cwd s' = cwd s /\ fds s' = fds s.
Proof.
  unfold getline, emit. munfold. unfold bind at 1, modify.
  destruct (deliver_returns tstp (log EvGetline s)) as (s' & H & E).
  unfold bind. rewrite H. exists s'. split; [reflexivity | exact E].
Qed.

(** [get_input] asks the loop to stop exactly at the end of input and when
    the parse status is [TRUE] and the command name is ["exit"]. *)
Lemma get_input_stops (w : world) (inp0 inp : Input) (ps ps' status : Z)
    (tstp : nat) (line : option string) (s s' : state) :
  get_input w inp0 ps tstp line s = Ret (status, inp, ps') s' ->
  (status = TRUE \/ status = FALSE) /\
  (status = FALSE <->
   line = None \/ (ps' = TRUE /\ command inp = Some "exit")).
Proof.
  unfold get_input, fflush, printf, emit. munfold. intros H.
  apply bind_Ret_inv in H as ([] & s1 & _ & H).
  apply bind_Ret_inv in H as ([] & s2 & _ & H).
  apply bind_Ret_inv in H as (input & s3 & Hg & H).
  destruct (getline_returns tstp line s2) as (s3' & Hg' & _).
  rewrite Hg' in Hg. injection Hg as <- <-.
  destruct line as [l|].
  - apply bind_Ret_inv in H as ([] & s4 & _ & H).
    apply bind_Ret_inv in H as ([ps1 inp1] & s5 & _ & H).
    apply bind_Ret_inv in H as (st & s6 & Hst & H).
    injection H as <- <- <- <-.
    destruct (Z.eqb_spec ps1 TRUE) as [->|Hne].
    + apply bind_Ret_inv in Hst as (c & s7 & Hc & Hst).
      destruct (command inp1) as [c'|] eqn:Ec; [|discriminate].
      injection Hc as E1 E2. subst c s7.
      destruct (String.eqb_spec c' "exit") as [E|Hne];
        injection Hst as <- <-.
      * subst c'. split; [now right|]. split; auto.
      * split; [now left|]. split; [discriminate|].
        intros [?|[_ E]]; [discriminate|]. congruence.
    + injection Hst as <- <-. split; [now left|].
      split; [discriminate|]. intros [?|[E _]]; [discriminate|contradiction].
  - injection H as <- <- <- <-. split; [now right|]. split; auto.
Qed.

(** A turn in which the input has ended, or in which the command read is
    ["exit"], asks the loop to stop. *)
Lemma get_input_exit (w : world) (inp : Input) (ps ps' status : Z)
    (tstp : nat) (line : option string) (s s' : state) :
  get_input w init_input ps tstp line s = Ret (status, inp, ps') s' ->
  line = None \/ command inp = Some "exit" ->
  status = FALSE.
Proof.
  intros H Hwhy. pose proof (get_input_stops _ _ _ _ _ _ _ _ _ _ H) as [_ Hiff].
  apply Hiff. destruct Hwhy as [->|Hc]; [now left|].
  destruct line as [l|]; [right | now left]. split; [|exact Hc].
  revert H. unfold get_input, fflush, printf, emit. munfold. intros H.
  apply bind_Ret_inv in H as ([] & s1 & _ & H).
  apply bind_Ret_inv in H as ([] & s2 & _ & H).
  apply bind_Ret_inv in H as (input & s3 & Hg & H).
  destruct (getline_returns tstp (Some l) s2) as (s3' & Hg' & _).
  rewrite Hg' in Hg. injection Hg as <- <-.
  apply bind_Ret_inv in H as ([] & s4 & _ & H).
  apply bind_Ret_inv in H as ([ps1 inp1] & s5 & Hparse & H).
  apply bind_Ret_inv in H as (st & s6 & _ & H).
  injection H as <- <- <- <-.
  destruct (1 <? String.length l)%nat.
  - apply parse_input_facts in Hparse as (_ & _ & [[_ ->]|[-> _]]);
      [discriminate | reflexivity].
  - injection Hparse as <- <- <-. discriminate.
Qed.

(** Reading a line changes neither the list of background pids nor the
    children of the interpreter. *)
Lemma get_input_registry (w : world) (inp0 inp : Input) (ps ps' status : Z)
    (tstp : nat) (line : option string) (s s' : state) :
  get_input w inp0 ps tstp line s = Ret (status, inp, ps') s' ->
  heap s' = heap s /\ pid_head s' = pid_head s /\ children s' = children s.
Proof.
  unfold get_input, fflush, printf, emit. munfold. intros H.
  apply bind_Ret_inv in H as ([] & s1 & H1 & H).
  apply bind_Ret_inv in H as ([] & s2 & H2 & H).
  injection H1 as <-. injection H2 as <-.
  apply bind_Ret_inv in H as (input & s3 & Hg & H).
  destruct (getline_returns tstp line (log (EvPrintf ": ") (log EvFflush s)))
    as (s3' & Hg' & Hh & Hp & Hc & _).
  rewrite Hg' in Hg. injection Hg as <- <-.
  simpl in Hh, Hp, Hc. rewrite <- Hh, <- Hp, <- Hc.
  destruct line as [l|].
  - apply bind_Ret_inv in H as ([] & s4 & H4 & H).
    assert (s4 = s3') as ->.
    { destruct (String.length l =? 0)%nat; [discriminate|].
      now injection H4 as <-. }
    apply bind_Ret_inv in H as ([ps1 inp1] & s5 & Hparse & H).
    assert (s5 = s3') as ->.
    { destruct (1 <? String.length l)%nat.
      - now apply parse_input_facts in Hparse as (-> & _).
      - now injection Hparse as <- <- <-. }
    apply bind_Ret_inv in H as (st & s6 & Hst & H).
    injection H as <- <- <- <-.
    destruct (ps1 =? TRUE).
    + apply bind_Ret_inv in Hst as (c & s7 & Hc7 & Hst).
      destruct (command inp1); [|discriminate]. injection Hc7 as <- <-.
      destruct (String.eqb _ "exit"); injection Hst as <- <-; auto.
    + injection Hst as <- <-. auto.
  - injection H as <- <- <- <-. auto.
Qed.

(** ** Shutdown (C9) *)

(** C9.  Take a turn of the loop of [main] in which the input has ended or
    the command read is ["exit"].  The turn sends SIGKILL to every pid that
    is in the list of background pids after the sweep and waits for each
    without [WNOHANG], in list order, after which none of them is a child of
    the interpreter any more; the loop ends there, whatever input is left,
    and [main] returns 0.  [exit_smallsh] returns to [main]: no [exit] is
    called. *)
Theorem shutdown_kills_and_waits (w : world) (script : list cycle)
    (exit_code ps ps' status : Z) (inp : Input) (s s1 s2 : state)
    (cells : list (N * Z)) :
  bind (children_end (from_option c_ended [] (head script)))
    (fun _ => wait_background w) s = Ret tt s1 ->
  get_input w init_input ps (from_option c_tstp O (head script))
    (c_line <$> head script) s1 = Ret (status, inp, ps') s2 ->
  head script = None \/ command inp = Some "exit" ->
  is_list (heap s1) (pid_head s1) cells ->
  exists s3 s4,
    main_body w (head script) exit_code ps s = Ret (FALSE, exit_code, ps') s3 /\
    trace s3 = trace s2 ++ flat_map kill_and_wait cells.*2 /\
    (forall pid, pid ∈ cells.*2 -> children s3 !! pid = None) /\
    bind (main_loop w script exit_code ps) (fun _ => main_epilogue w) s
      = Ret 0 s4 /\
    trace s4 = trace s3.
Proof.
  intros Hsweep Hget Hwhy Hl.
  destruct (get_input_registry _ _ _ _ _ _ _ _ _ _ Hget) as (Hh2 & Hp2 & _).
  rewrite <- Hh2, <- Hp2 in Hl.
  assert (status = FALSE) as ->.
  { eapply get_input_exit; [exact Hget|].
    destruct Hwhy as [->|Hc]; [now left | now right]. }
  apply bind_Ret_inv in Hsweep as ([] & s0 & Hce & Hwb).
  destruct (exit_smallsh_spec w cells (pid_head s2) s2 Hl)
    as (s3 & Hex & Htr & Hch & Hh & Hp & _).
  assert (Hbody :
    main_body w (head script) exit_code ps s = Ret (FALSE, exit_code, ps') s3).
  { unfold main_body. munfold.
    rewrite (bind_ret_l _ _ _ _ _ Hce).
    rewrite (bind_ret_l _ _ _ _ _ Hwb).
    rewrite (bind_ret_l _ _ _ _ _ Hget).
    unfold dispatch. munfold. simpl. unfold bind at 1. unfold bind at 1.
    unfold get. unfold bind at 1. rewrite Hex. reflexivity. }
  destruct (main_epilogue_spec w cells s3) as (s4 & Hep & Ht4 & _);
    [rewrite Hh, Hp; exact Hl|].
  exists s3, s4. split; [exact Hbody|]. split; [exact Htr|]. split.
  - intros pid Hpid. rewrite Hch, foldl_delete_lookup.
    now rewrite bool_decide_eq_true_2.
  - split; [|exact Ht4].
    assert (Hloop : main_loop w script exit_code ps s = Ret tt s3).
    { destruct script as [|c rest]; simpl in *; munfold;
        rewrite (bind_ret_l _ _ _ _ _ Hbody); reflexivity. }
    rewrite (bind_ret_l _ _ _ _ _ Hloop). exact Hep.
Qed.

(** ** Built-ins and the last status (C5) *)

(** C5, as the code has it.  [status], and the shutdown chosen by ["exit"]
    or the end of input, leave the variable [exit_code] of [main] as it was.
    [cd] overwrites it with what [chdir] returned: 0 when the directory (the
    first argument, or [$HOME] without one) could be entered, -1 when it
    could not, in which case the working directory is unchanged. *)
Theorem builtins_and_exit_code (w : world) (inp : Input)
    (exit_code fk : Z) (fate : option Z) (s : state) :
  (command inp = Some "status" ->
   exists s', dispatch w TRUE inp exit_code fk fate s = Ret exit_code s' /\
              cwd s' = cwd s) /\
  (forall cells, is_list (heap s) (pid_head s) cells ->
   exists s', dispatch w FALSE inp exit_code fk fate s = Ret exit_code s' /\
              cwd s' = cwd s) /\
  (command inp = Some "cd" -> args inp ≠ Some [] ->
   let target :=
     match args inp with Some (a0 :: _) => Some a0 | _ => w_home w end in
   exists s',
     match target ≫= w_chdir w (cwd s) with
     | Some d =>
         dispatch w TRUE inp exit_code fk fate s = Ret 0 s' /\ cwd s' = d
     | None =>
         dispatch w TRUE inp exit_code fk fate s = Ret (-1) s' /\
         cwd s' = cwd s
     end).
Proof.
  split; [|split].
  - intros Hc. unfold dispatch. simpl. rewrite Hc. simpl.
    unfold status_smallsh, printf, emit. munfold. unfold bind.
    destruct (WIFSIGNALED exit_code); [|destruct (WIFEXITED exit_code)];
      simpl; eexists; split; reflexivity.
  - intros cells Hl. unfold dispatch. simpl. munfold.
    unfold bind at 1. unfold get.
    destruct (exit_smallsh_spec w cells (pid_head s) s Hl)
      as (s' & Hex & _ & _ & _ & _ & _ & Hcwd & _).
    unfold bind. rewrite Hex. exists s'. split; [reflexivity | exact Hcwd].
  - intros Hc Hargs target. unfold dispatch. simpl. rewrite Hc. simpl.
    unfold target, cd_smallsh, getenv_HOME, chdir.
    destruct (args inp) as [[|a0 l]|]; [contradiction| |].
    + simpl. destruct (w_chdir w (cwd s) a0); eexists; split; reflexivity.
    + destruct (w_home w) as [h|]; simpl;
        [destruct (w_chdir w (cwd s) h)|]; eexists; split; reflexivity.
Qed.

(** ** The handler of SIGTSTP (C6) *)

(** C6.  Each run of the handler flips the mode flag and writes the notice
    of the new mode with [write]; but before that it calls [fflush] on
    [stdout], a call of [<stdio.h>], so [write] is not all the handler
    does. *)
Theorem handler_flushes_stdout (s : state) :
  exists s',
    set_foreground_mode s = Ret tt s' /\
    trace s' =
      trace s ++
      [EvFflush;
       EvWrite STDOUT_FILENO
         (if foreground_mode s =? TRUE then exiting_notice
          else entering_notice)] /\
    foreground_mode s' = (if foreground_mode s =? TRUE then FALSE else TRUE) /\
    stdio_call EvFflush = true.
Proof.
  unfold set_foreground_mode, fflush, write, emit. munfold.
  unfold bind, modify, get. simpl.
  destruct (foreground_mode s =? TRUE); simpl; eexists;
    (split; [reflexivity|]); simpl; rewrite <- app_assoc; auto.
Qed.

(** Two deliveries of the signal bring the mode flag back and print the two
    notices in order. *)
Lemma handler_twice (s : state) :
  foreground_mode s = FALSE ->
  exists s',
    bind set_foreground_mode (fun _ => set_foreground_mode) s = Ret tt s' /\
    foreground_mode s' = FALSE /\
    trace s' = trace s ++ [EvFflush; EvWrite STDOUT_FILENO entering_notice;
                           EvFflush; EvWrite STDOUT_FILENO exiting_notice].
Proof.
  intros Hfm.
  unfold set_foreground_mode, fflush, write, emit. munfold.
  unfold bind, modify, get. simpl. rewrite Hfm. simpl.
  eexists. split; [reflexivity|]. simpl. rewrite <- !app_assoc. auto.
Qed.

(** ** An empty line (C10) *)

Lemma children_end_no_children (pids : list Z) (s : state) :
  children s = ∅ -> children_end pids s = Ret tt s.
Proof.
  intros He. induction pids as [|pid pids IH]; simpl; [reflexivity|].
  munfold. unfold bind, child_ends, modify. rewrite He, lookup_empty.
  exact IH.
Qed.

(** After a comment line the parse status is [FALSE], and an empty line is a
    turn in which nothing happens. *)
Lemma empty_line_after_comment (w : world) (tstp : nat) (s : state) :
  exists s',
    get_input w init_input FALSE tstp (Some nl) s
      = Ret (TRUE, init_input, FALSE) s' /\
    heap s' = heap s /\ pid_head s' = pid_head s /\
    children s' = children s /\ cwd s' = cwd s.
Proof.
  unfold get_input, fflush, printf, emit. munfold.
  unfold bind at 1. unfold modify. unfold bind at 1.
  destruct (getline_returns tstp (Some nl) (log (EvPrintf ": ") (log EvFflush s)))
    as (s' & Hg & Hh & Hp & Hc & Hd & _).
  unfold bind at 1. rewrite Hg. exists s'. split; [reflexivity|]. auto.
Qed.

(** C10.  When the first line typed is empty, [parse_input] is not called
    and [parse_status] still has the value [TRUE] that [main] gave it, so
    [get_input] compares the command name, which is [NULL], with ["exit"]:
    the turn does not complete. *)
Theorem empty_first_line_reads_null_command (w : world) (dir : string)
    (ended : list Z) (tstp : nat) (fk : Z) (fate : option Z)
    (rest : list cycle) :
  exists s',
    main w ({| c_ended := ended; c_tstp := tstp; c_line := nl;
               c_fork := fk; c_fate := fate |} :: rest) (init_state dir)
      = Undefined NullDereference s'.
Proof.
  set (s1 := final_state (parent_handler (init_state dir))).
  assert (H1 : parent_handler (init_state dir) = Ret tt s1) by reflexivity.
  destruct (getline_returns tstp (Some nl)
              (log (EvPrintf ": ") (log EvFflush s1))) as (s' & Hg & _).
  exists s'. unfold main. munfold.
  rewrite (bind_ret_l _ _ _ _ _ H1).
  apply bind_undefined. cbn [main_loop]. munfold.
  apply bind_undefined. unfold main_body. munfold.
  cbn [from_option c_ended c_tstp c_line fmap option_fmap option_map].
  rewrite (bind_ret_l _ _ s1 s1 tt)
    by (apply children_end_no_children; reflexivity).
  rewrite (bind_ret_l _ _ s1 s1 tt) by reflexivity.
  apply bind_undefined.
  unfold get_input, fflush, printf, emit. munfold.
  unfold bind at 1. unfold modify. unfold bind at 1.
  unfold bind at 1. rewrite Hg. reflexivity.
Qed.

(** ** The sweep (C2) *)

(** C2.  Pids 100 and 101 have both ended before the sweep.  The sweep
    reports 101, unlinks and frees its node, and then reads [temp->next] in
    the freed node.  Where that read still finds the [NULL] the code stored
    before [free], the sweep stops there: 100 is still in the list, and a
    second sweep right after the first reports it. *)
Theorem sweep_stops_after_first_removal :
  (exists s1,
     wait_background (demo Trap) two_ended = Undefined UseAfterFree s1 /\
     trace s1 =
       trace two_ended ++
       [EvWaitpid 101 WNOHANG;
        EvPrintf ("background pid 101 is done: exit value 1" +:+ nl)]) /\
  (exists s1 s2,
     wait_background (demo Stale) two_ended = Ret tt s1 /\
     trace s1 =
       trace two_ended ++
       [EvWaitpid 101 WNOHANG;
        EvPrintf ("background pid 101 is done: exit value 1" +:+ nl)] /\
     children s1 = {[ 100 := Zombie 0 ]} /\
     wait_background (demo Stale) s1 = Ret tt s2 /\
     trace s2 =
       trace s1 ++
       [EvWaitpid 100 WNOHANG;
        EvPrintf ("background pid 100 is done: exit value 0" +:+ nl)]).
Proof.
  split.
  - eexists. split; [vm_compute; reflexivity | vm_compute; reflexivity].
  - eexists. eexists. split; [vm_compute; reflexivity|].
    split; [vm_compute; reflexivity|].
    split; [vm_compute; reflexivity|].
    split; vm_compute; reflexivity.
Qed.

(** ** The sweep when nothing has ended, and with a single entry *)

Lemma wait_background_loop_running (w : world) (l : list (N * Z)) :
  forall (fuel : nat) (temp : option N) (ec : option Z) (s : state),
    is_list (heap s) temp l -> (length l < fuel)%nat ->
    (l ≠ [] -> is_Some (pid_head s)) ->
    (forall pid, pid ∈ l.*2 -> exists fate, children s !! pid = Some (Running fate)) ->
    exists s',
      wait_background_loop w fuel temp ec s = Ret tt s' /\
      trace s' = trace s ++ map (fun pid => EvWaitpid pid WNOHANG) l.*2 /\
      heap s' = heap s /\ pid_head s' = pid_head s /\
      children s' = children s /\ fds s' = fds s /\ cwd s' = cwd s /\
      foreground_mode s' = foreground_mode s.
Proof.
  induction l as [|[a d] l IH]; intros fuel temp ec s Hl Hfuel Hhead Hrun.
  - simpl in Hl. subst temp. exists s.
    destruct fuel; simpl; rewrite ?app_nil_r; auto 10.
  - simpl in Hl. destruct Hl as (-> & nx & Ha & Hl).
    destruct fuel as [|fuel]; [simpl in Hfuel; lia|]. simpl in Hfuel.
    destruct (Hrun d) as [fate Hd]; [apply elem_of_cons; now left|].
    destruct Hhead as [hd Hhd]; [discriminate|].
    destruct (IH fuel nx ec (log (EvWaitpid d WNOHANG) s))
      as (s' & Hloop & Htr & Hrest).
    { exact Hl. }
    { lia. }
    { intros _. simpl. eauto. }
    { intros pid Hpid. apply Hrun. apply elem_of_cons. now right. }
    exists s'. split.
    + simpl. munfold. unfold bind at 1. unfold load. rewrite Ha.
      cbn [data next]. unfold bind at 1. unfold waitpid. rewrite Hd.
      change (Z.land WNOHANG WNOHANG =? 0) with false. cbn iota.
      cbn [negb Z.eqb]. unfold bind at 1. unfold ret at 1.
      unfold bind at 1. unfold get. cbn [pid_head log]. rewrite Hhd.
      unfold bind at 1. unfold load. cbn [heap log]. rewrite Ha.
      cbn [next]. exact Hloop.
    + simpl in Htr. rewrite Htr. simpl. rewrite <- app_assoc. exact (conj eq_refl Hrest).
Qed.

(** While every background child is still running, the sweep polls each of
    them once, prints nothing and leaves the list as it is. *)
Lemma sweep_all_running (w : world) (l : list (N * Z)) (s : state) :
  is_list (heap s) (pid_head s) l ->
  (forall pid, pid ∈ l.*2 -> exists fate, children s !! pid = Some (Running fate)) ->
  exists s',
    wait_background w s = Ret tt s' /\
    trace s' = trace s ++ map (fun pid => EvWaitpid pid WNOHANG) l.*2 /\
    heap s' = heap s /\ pid_head s' = pid_head s /\
    children s' = children s.
Proof.
  intros Hl Hrun. unfold wait_background, list_fuel. munfold.
  unfold bind, get.
  destruct (wait_background_loop_running w l (S (size (heap s))) (pid_head s)
              None s Hl) as (s' & H & Htr & Hh & Hp & Hc & _); auto.
  - apply is_list_length in Hl. lia.
  - intros Hne. destruct l as [|[a d] l]; [contradiction|].
    simpl in Hl. destruct Hl as [-> _]. eauto.
  - exists s'. auto.
Qed.

Lemma wait_background_loop_NULL (w : world) (fuel : nat) (ec : option Z) :
  wait_background_loop w fuel None ec = ret tt.
Proof. destruct fuel; reflexivity. Qed.

(** When the list has one entry and that child has ended, the sweep reports
    it and empties the list. *)
Lemma sweep_single_ended (w : world) (a : N) (pid st : Z) (s : state) :
  is_list (heap s) (pid_head s) [(a, pid)] ->
  children s !! pid = Some (Zombie st) ->
  pid ≠ 0 ->
  exists s' report,
    wait_background w s = Ret tt s' /\
    trace s' = trace s ++ EvWaitpid pid WNOHANG :: report /\
    pid_head s' = None /\
    children s' = delete pid (children s).
Proof.
  intros (Hp & nx & Ha & Hnx) Hz Hpid. simpl in Hnx. subst nx.
  unfold wait_background, list_fuel. munfold. unfold bind at 1, get.
  unfold bind at 1. rewrite Hp. cbn [wait_background_loop]. munfold.
  unfold bind at 1. unfold load. rewrite Ha. cbn [data next].
  unfold bind at 1. unfold waitpid. rewrite Hz.
  destruct (Z.eqb_spec pid 0) as [|_]; [contradiction|]. cbn [negb].
  unfold report_and_remove. munfold. cbn [from_option].
  unfold bind at 1. unfold bind at 1. unfold ret at 1.
  set (s1 := set_children _ _).
  set (msg := if WIFEXITED st && negb (pid =? -1) then _ else _).
  assert (Hmsg : exists report s2, msg s1 = Ret tt s2 /\
            trace s2 = trace s1 ++ report /\ heap s2 = heap s1 /\
            pid_head s2 = pid_head s1 /\ children s2 = children s1).
  { unfold msg, printf, emit, modify.
    destruct (WIFEXITED st && negb (pid =? -1));
      [|destruct (WIFSIGNALED st)].
    - eexists [_]. eexists. repeat split.
    - eexists [_]. eexists. repeat split.
    - exists []. exists s1. rewrite app_nil_r. repeat split. }
  destruct Hmsg as (report & s2 & Hm & Htr & Hh & Hp2 & Hc).
  unfold bind at 1. rewrite Hm. unfold bind at 1. unfold get.
  rewrite Hp2. cbn [pid_head s1 set_children log]. rewrite Hp.
  unfold bind at 1. unfold load. rewrite Hh. cbn [heap s1 set_children log].
  rewrite Ha. cbn [data next]. rewrite Z.eqb_refl.
  unfold bind at 1. unfold modify. unfold store_next. munfold.
  unfold bind at 1. unfold bind at 1. unfold load.
  cbn [heap set_pid_head]. rewrite Hh. cbn [heap s1 set_children log].
  rewrite Ha. unfold store. cbn [heap set_pid_head]. rewrite Hh.
  cbn [heap s1 set_children log]. rewrite Ha.
  unfold free. cbn [heap set_heap]. rewrite lookup_insert_eq.
  unfold bind at 1. unfold get. cbn [pid_head set_heap set_pid_head next].
  rewrite wait_background_loop_NULL.
  eexists. exists report. split; [reflexivity|].
  cbn [trace children pid_head set_heap set_pid_head].
  rewrite Htr, Hc. unfold s1. simpl. rewrite <- app_assoc. auto.
Qed.

(** ** [parse_input] returns on every well-formed line *)

Lemma expand_loop_plain (pid_str t : string) :
  (forall c, In c (list_ascii_of_string t) -> c ≠ "$"%char) ->
  expand_loop pid_str t = t.
Proof.
  induction t as [|c r IH]; intros H; [reflexivity|].
  simpl. destruct r as [|c' r']; [reflexivity|].
  destruct (Ascii.eqb_spec c "$") as [->|_].
  - exfalso. apply (H "$"%char); [left|]; reflexivity.
  - rewrite andb_false_r. f_equal. apply IH.
    intros x Hx. apply H. right. exact Hx.
Qed.

Lemma plain_chars (t : string) (c : ascii) :
  plain t = true -> In c (list_ascii_of_string t) ->
  c ≠ " "%char /\ c ≠ "$"%char.
Proof.
  induction t as [|a r IH]; simpl; [tauto|]. intros Hp [->|Hin].
  - apply andb_prop in Hp as [Hp _]. apply andb_prop in Hp as [H1 H2].
    split; intros ->; discriminate.
  - apply andb_prop in Hp as [_ Hp]. auto.
Qed.

Lemma list_ascii_app (a b : string) :
  list_ascii_of_string (a +:+ b)
  = list_ascii_of_string a ++ list_ascii_of_string b.
Proof. induction a as [|c a IH]; simpl; [reflexivity | now rewrite IH]. Qed.

Lemma count_spaces_plain (t : string) : plain t = true -> count_spaces t = 0.
Proof.
  intros Hp. unfold count_spaces.
  induction t as [|c r IH]; [reflexivity|]. simpl in *.
  apply andb_prop in Hp as [Hp Hr]. apply andb_prop in Hp as [H1 _].
  rewrite filter_cons. destruct (decide (c = " "%char)) as [->|_];
    [discriminate | now apply IH].
Qed.

Lemma count_spaces_app (a b : string) :
  count_spaces (a +:+ b) = count_spaces a + count_spaces b.
Proof.
  unfold count_spaces. rewrite list_ascii_app, filter_app, length_app. lia.
Qed.

Lemma fields_plain (t : string) : plain t = true -> fields t = [t].
Proof.
  induction t as [|c r IH]; [reflexivity|]. simpl. intros Hp.
  apply andb_prop in Hp as [Hp Hr]. apply andb_prop in Hp as [H1 _].
  destruct (Ascii.eqb c " "); [discriminate|]. now rewrite IH.
Qed.

Lemma fields_plain_space (t r : string) :
  plain t = true -> fields (t +:+ " " +:+ r) = t :: fields r.
Proof.
  induction t as [|c t IH]; [reflexivity|]. simpl. intros Hp.
  apply andb_prop in Hp as [Hp Hr]. apply andb_prop in Hp as [H1 _].
  destruct (Ascii.eqb c " "); [discriminate|]. now rewrite IH.
Qed.

(** The line [join ws] has one space less than it has words, and [strtok]
    gives the words back. *)
Lemma join_tokens (ws : list string) :
  ws ≠ [] -> Forall (fun t => t ≠ EmptyString /\ plain t = true) ws ->
  1 + count_spaces (join ws) = Z.of_nat (length ws) /\
  strtok_all (join ws) = ws /\
  (forall c, In c (list_ascii_of_string (join ws)) -> c ≠ "$"%char).
Proof.
  induction ws as [|t [|t' r] IH]; intros Hne Hall; [contradiction| |].
  - apply Forall_cons in Hall as [[Ht Hp] _]. simpl. split; [|split].
    + now rewrite count_spaces_plain.
    + unfold strtok_all. rewrite fields_plain by exact Hp.
      rewrite filter_cons. now destruct (decide (t ≠ EmptyString)).
    + intros c Hc. now apply (plain_chars t c Hp).
  - apply Forall_cons in Hall as [[Ht Hp] Hall].
    destruct (IH ltac:(discriminate) Hall) as (Hc & Hs & Hd).
    change (join (t :: t' :: r)) with (t +:+ " " +:+ join (t' :: r)).
    split; [|split].
    + rewrite !count_spaces_app, count_spaces_plain by exact Hp.
      change (count_spaces " ") with 1.
      change (length (t :: t' :: r)) with (S (length (t' :: r))). lia.
    + unfold strtok_all in *. rewrite fields_plain_space by exact Hp.
      rewrite filter_cons. destruct (decide (t ≠ EmptyString)); [|contradiction].
      now rewrite Hs.
    + intros c Hin. rewrite !list_ascii_app in Hin.
      apply in_app_or in Hin as [Hin|Hin];
        [now apply (plain_chars t c Hp)|].
      apply in_app_or in Hin as [[<-|[]]|Hin]; [discriminate | now apply Hd].
Qed.

Lemma fill_tokens_all (ws : list string) (s : state) :
  fill_tokens (length ws) ws s = Ret ws s.
Proof.
  induction ws as [|t r IH]; simpl; [reflexivity|].
  munfold. unfold bind. now rewrite IH.
Qed.

Lemma files_loop_returns (toks : list string) :
  forall (inp : Input) (s : state),
    redirects_have_files toks = true ->
    exists inp', files_loop toks inp s = Ret inp' s.
Proof.
  induction toks as [|t r IH]; intros inp s H; simpl in *; [eauto|].
  destruct (String.eqb t "<" || String.eqb t ">").
  - destruct r as [|f r']; [discriminate|].
    destruct (String.eqb t "<"); apply IH; exact H.
  - apply IH; exact H.
Qed.

(** [parse_input] returns, and changes nothing, on every line of words
    separated by single spaces in which each redirection operator that the
    file-name loop meets is followed by a word, as long as the buffers are
    large enough. *)
Lemma parse_input_returns (w : world) (ws : list string) (inp : Input)
    (s : state) :
  ws ≠ [] -> Forall (fun t => t ≠ EmptyString /\ plain t = true) ws ->
  (String.length (dec (w_pid w)) < 10)%nat ->
  Z.of_nat (String.length (join ws)) < MAX_COMMAND_LEN ->
  redirects_have_files (drop (Z.to_nat (count_args (tail ws))) ws) = true ->
  exists code inp', parse_input w (join ws) inp s = Ret (code, inp') s.
Proof.
  intros Hne Hall Hpid Hlen Hred.
  destruct (join_tokens ws Hne Hall) as (Hc & Hs & Hd).
  unfold parse_input, expand_smallsh. munfold.
  destruct (Nat.leb_spec 10 (String.length (dec (w_pid w)))); [lia|].
  rewrite expand_loop_plain by exact Hd.
  destruct (Z.leb_spec MAX_COMMAND_LEN (Z.of_nat (String.length (join ws))));
    [lia|].
  unfold bind at 1. unfold ret at 1.
  rewrite Hc, Hs, Nat2Z.id.
  unfold bind at 1. rewrite fill_tokens_all.
  destruct ws as [|t0 rest]; [contradiction|]. simpl tail in Hred.
  assert (HK : exists inp',
    bind (get foreground_mode) (fun fm =>
      let background :=
        if String.eqb (List.last (t0 :: rest) EmptyString) "&"
           && (fm =? FALSE)
        then TRUE else is_background inp in
      let inp1 :=
        if 0 <? count_args rest then
          {| command := Some t0; num_args := count_args rest;
             args := Some (take (Z.to_nat (count_args rest)) rest);
             input_file := input_file inp; output_file := output_file inp;
             is_background := background |}
        else
          {| command := Some t0; num_args := num_args inp;
             args := args inp;
             input_file := input_file inp; output_file := output_file inp;
             is_background := background |} in
      bind (files_loop (drop (Z.to_nat (count_args rest)) (t0 :: rest)) inp1)
        (fun inp2 => ret (TRUE, inp2))) s = Ret (TRUE, inp') s).
  { unfold bind at 1. unfold get. cbv zeta.
    match goal with
    | |- context [files_loop ?toks ?i] =>
        destruct (files_loop_returns toks i s Hred) as (inp' & Hf)
    end.
    exists inp'. unfold bind. rewrite Hf. reflexivity. }
  destruct HK as (inp' & HK).
  destruct t0 as [|a t0']; [exists TRUE, inp'; exact HK|].
  destruct (Ascii.eqb_spec a "#") as [->|Hn]; [eexists; eexists; reflexivity|].
  exists TRUE, inp'. rewrite <- HK.
  destruct a as [[] [] [] [] [] [] [] []]; try reflexivity.
  exfalso. apply Hn. reflexivity.
Qed.

(** ** Concrete runs *)

(** C1, counterexample.  [cat < missing &] is a background request without
    an output path, yet its child never binds standard output to the null
    device: the input file cannot be opened, the child prints its diagnostic
    on the standard output it inherited and exits with status 1. *)
Lemma background_child_keeps_stdout :
  is_background cat_missing_bg = TRUE /\
  output_file cat_missing_bg = None /\
  exists s',
    execute_smallsh (demo Trap) cat_missing_bg 0 None (init_state "/")
      = Exited 1 s' /\
    fds s' !! STDOUT_FILENO = Some (Inherited 1) /\
    trace s' =
      [EvSigaction SIGTSTP SIG_IGN; EvSigaction SIGINT SIG_IGN;
       EvOpen "missing" O_RDONLY None (-1);
       EvPrintf ("Error: input file could not be opened" +:+ nl)].
Proof.
  split; [reflexivity|]. split; [reflexivity|].
  eexists. split; [vm_compute; reflexivity|].
  split; vm_compute; reflexivity.
Qed.

(** An instance: the child of [sort -r < names &] becomes [sort] with
    standard input bound to [names] and standard output to the null
    device. *)
Lemma child_redirection_witness :
  fds (init_state "/") !! STDIN_FILENO = Some (Inherited 0) /\
  fds (init_state "/") !! STDOUT_FILENO = Some (Inherited 1) /\
  well_formed sort_names_bg /\
  exists s',
    execute_smallsh (demo Trap) sort_names_bg 0 None (init_state "/")
      = Execed "sort" ["sort"; "-r"] s' /\
    fds s' !! STDIN_FILENO = Some (Opened "names" O_RDONLY None) /\
    fds s' !! STDOUT_FILENO = Some (Opened "/dev/null" O_WRONLY None).
Proof.
  assert (H0 : fds (init_state "/") !! STDIN_FILENO = Some (Inherited 0))
    by reflexivity.
  assert (H1 : fds (init_state "/") !! STDOUT_FILENO = Some (Inherited 1))
    by reflexivity.
  assert (Hwf : well_formed sort_names_bg).
  { split; [eexists; reflexivity | reflexivity]. }
  split; [exact H0|]. split; [exact H1|]. split; [exact Hwf|].
  destruct (child_redirection (demo Trap) sort_names_bg None (init_state "/")
              (Inherited 0) (Inherited 1) H0 H1 Hwf)
    as (_ & _ & Hin & Hout & _ & _ & Hexec).
  - intros p [= <-]. reflexivity.
  - intros p [=].
  - intros flags. reflexivity.
  - eexists. split; [exact (Hexec "sort" eq_refl eq_refl)|].
    split; [exact (Hin "names" eq_refl) | exact (Hout eq_refl eq_refl)].
Defined.

(** An instance: in foreground-only mode the line [sleep 5 &] is parsed as
    the foreground request [sleep 5], which is waited for. *)
Lemma foreground_only_mode_witness :
  foreground_mode foreground_only = TRUE /\
  parse_input (demo Trap) "sleep 5 &" init_input foreground_only
    = Ret (TRUE, sleep_fg) foreground_only /\
  (exists s3,
     execute_smallsh (demo Trap) sleep_fg 7 (Some 0) foreground_only
       = Ret 0 s3 /\ pid_head s3 = None) /\
  (exists s3,
     execute_smallsh (demo Trap) sleep_fg 7 None foreground_only
       = Diverges s3).
Proof.
  assert (Hfm : foreground_mode foreground_only = TRUE) by reflexivity.
  assert (Hp : parse_input (demo Trap) "sleep 5 &" init_input foreground_only
               = Ret (TRUE, sleep_fg) foreground_only)
    by (vm_compute; reflexivity).
  split; [exact Hfm|]. split; [exact Hp|].
  destruct (foreground_only_mode (demo Trap) "sleep 5 &" TRUE sleep_fg
              foreground_only foreground_only Hfm Hp) as (_ & _ & Hex).
  destruct (Hex 7 foreground_only ltac:(lia)) as [Hends Hnever].
  split; [|exact Hnever].
  destruct (Hends 0) as (s3 & Hrun & _ & _ & Hhead).
  exists s3. split; [exact Hrun | exact Hhead].
Defined.

(** An instance: [ls], run as pid 7 and interrupted by SIGINT. *)
Lemma foreground_completion_witness :
  deadly SIGINT /\
  exists s',
    dispatch (demo Trap) TRUE ls_fg 0 7 (Some 2) (init_state "/")
      = Ret 2 s' /\
    trace s' =
      [EvFork 7; EvSigaction SIGINT SIG_IGN;
       EvSigaction SIGTSTP Handler_set_foreground_mode; EvWaitpid 7 0;
       EvPrintf ("terminated by signal 2" +:+ nl)].
Proof.
  assert (Hd : deadly SIGINT) by (unfold deadly, SIGINT; lia).
  split; [exact Hd|].
  destruct (foreground_completion (demo Trap) ls_fg "ls" 7 0
              (KilledBy SIGINT false) (init_state "/") eq_refl
              ltac:(discriminate) ltac:(discriminate) eq_refl ltac:(lia) Hd)
    as (s' & Hrun & Htr & _).
  exists s'. split; [exact Hrun | exact Htr].
Defined.

(** C5, counterexample.  The last foreground command exited with code 1
    ([exit_code] is 256); the user types [cd]; at the end of the turn
    [exit_code] is 0. *)
Lemma cd_overwrites_exit_code :
  exists exit_code' s',
    main_body (demo Trap) (Some (typed "cd")) 256 TRUE (init_state "/")
      = Ret (TRUE, exit_code', TRUE) s' /\
    exit_code' ≠ 256.
Proof.
  exists 0. eexists. split; [vm_compute; reflexivity | discriminate].
Qed.

(** Instances: [status], the shutdown with two background jobs, and [cd]
    without argument, each with [exit_code] at 256 before. *)
Lemma builtins_and_exit_code_witness :
  (exists s', dispatch (demo Trap) TRUE status_cmd 256 (-1) None (init_state "/")
                = Ret 256 s') /\
  (exists s', dispatch (demo Trap) FALSE exit_cmd 256 (-1) None two_running
                = Ret 256 s') /\
  (exists s', dispatch (demo Trap) TRUE cd_home 256 (-1) None (init_state "/")
                = Ret 0 s' /\ cwd s' = "/home/user").
Proof.
  split; [|split].
  - destruct (builtins_and_exit_code (demo Trap) status_cmd 256 (-1) None
                (init_state "/")) as (Hs & _ & _).
    destruct (Hs eq_refl) as (s' & H & _). exists s'. exact H.
  - destruct (builtins_and_exit_code (demo Trap) exit_cmd 256 (-1) None
                two_running) as (_ & He & _).
    destruct (He [(1%N, 101); (0%N, 100)]) as (s' & H & _).
    + split; [reflexivity|]. eexists. split; [vm_compute; reflexivity|].
      split; [reflexivity|]. eexists. split; [vm_compute; reflexivity|].
      reflexivity.
    + exists s'. exact H.
  - destruct (builtins_and_exit_code (demo Trap) cd_home 256 (-1) None
                (init_state "/")) as (_ & _ & Hc).
    destruct (Hc eq_refl ltac:(discriminate)) as (s' & H).
    exists s'. exact H.
Defined.

(** An instance: [exit] typed while pids 101 and 100 are running in the
    background. *)
Lemma shutdown_kills_and_waits_witness :
  exists s4,
    bind (main_loop (demo Trap) [typed "exit"] 0 TRUE)
      (fun _ => main_epilogue (demo Trap)) two_running = Ret 0 s4 /\
    trace s4 =
      trace two_running ++
      [EvWaitpid 101 WNOHANG; EvWaitpid 100 WNOHANG;
       EvFflush; EvPrintf ": "; EvGetline;
       EvKill 101 SIGKILL; EvWaitpid 101 0;
       EvKill 100 SIGKILL; EvWaitpid 100 0].
Proof.
  set (s1 := final_state (wait_background (demo Trap) two_running)).
  set (s2 := final_state
               (get_input (demo Trap) init_input TRUE O
                  (Some ("exit" +:+ nl)) s1)).
  destruct (shutdown_kills_and_waits (demo Trap) [typed "exit"] 0 TRUE TRUE
              FALSE exit_cmd two_running s1 s2 [(1%N, 101); (0%N, 100)])
    as (s3 & s4 & _ & Htr3 & _ & Hmain & Htr4).
  - vm_compute. reflexivity.
  - vm_compute. reflexivity.
  - right. reflexivity.
  - split; [reflexivity|]. eexists. split; [vm_compute; reflexivity|].
    split; [reflexivity|]. eexists. split; [vm_compute; reflexivity|].
    reflexivity.
  - exists s4. split; [exact Hmain|]. rewrite Htr4, Htr3.
    vm_compute. reflexivity.
Defined.

(** The session with two background jobs, from the start of [main].  The
    sweep before the third prompt reports 101 and then reads the freed node.
    Where that read finds [NULL], 100 is reported only by the sweep before
    the fourth prompt, one turn late, and [status] says "exit value 0"
    because starting a background job has overwritten [exit_code] with 0. *)
Lemma two_jobs_session_run :
  (exists s',
     main (demo Trap) two_jobs_session (init_state "/")
       = Undefined UseAfterFree s') /\
  (exists s',
     main (demo Stale) two_jobs_session (init_state "/") = Ret 0 s' /\
     printed (trace s') =
       [": "; "Background pid is 100." +:+ nl;
        ": "; "Background pid is 101." +:+ nl;
        "background pid 101 is done: exit value 1" +:+ nl;
        ": "; "exit value 0" +:+ nl;
        "background pid 100 is done: exit value 0" +:+ nl;
        ": "]).
Proof.
  split.
  - eexists. vm_compute. reflexivity.
  - eexists. split; vm_compute; reflexivity.
Qed.

(** [parse_input] accepts the line [sort -r < names > sorted &]. *)
Lemma parse_input_returns_example (s : state) :
  exists code inp,
    parse_input (demo Trap) "sort -r < names > sorted &" init_input s
      = Ret (code, inp) s.
Proof.
  apply (parse_input_returns (demo Trap)
           ["sort"; "-r"; "<"; "names"; ">"; "sorted"; "&"]).
  - discriminate.
  - repeat (apply Forall_cons; split; [split; [discriminate | reflexivity]|]).
    apply Forall_nil. exact I.
  - vm_compute. lia.
  - vm_compute. reflexivity.
  - reflexivity.
Qed.

(** * Further properties *)

(** ** [expand_smallsh] *)

Lemma expand_loop_cons (pid_str : string) (c : ascii) (rest : string) :
  Ascii.eqb c "$" = false ->
  expand_loop pid_str (String c rest) = String c (expand_loop pid_str rest).
Proof.
  intros Hc. simpl. destruct rest; [reflexivity|].
  now rewrite Hc, andb_false_r.
Qed.

(** X1.  The loop of [expand_smallsh] copies a prefix without dollar signs
    unchanged, keeps a single dollar sign at the end of the line, and
    replaces the first pair of dollar signs after such a prefix by the pid
    before it goes on with the rest of the line. *)
Theorem expand_loop_pairs (pid_str a b : string) :
  dollar_free a ->
  expand_loop pid_str a = a /\
  expand_loop pid_str (a +:+ "$") = a +:+ "$" /\
  expand_loop pid_str (a +:+ "$$" +:+ b)
    = a +:+ pid_str +:+ expand_loop pid_str b.
Proof.
  induction a as [|c r IH]; intros Hfree.
  - repeat split.
  - assert (Hc : Ascii.eqb c "$" = false).
    { apply Ascii.eqb_neq. apply Hfree. now left. }
    destruct IH as (IH1 & IH2 & IH3).
    { intros x Hx. apply Hfree. now right. }
    change (String c r +:+ "$") with (String c (r +:+ "$")).
    change (String c r +:+ "$$" +:+ b) with (String c (r +:+ "$$" +:+ b)).
    change (String c r +:+ pid_str +:+ expand_loop pid_str b)
      with (String c (r +:+ pid_str +:+ expand_loop pid_str b)).
    rewrite !expand_loop_cons by exact Hc.
    now rewrite IH1, IH2, IH3.
Qed.

Lemma expand_loop_pairs_witness :
  dollar_free "echo " /\
  expand_loop "4242" "echo $$ is $" = "echo 4242 is $".
Proof.
  assert (H : dollar_free "echo ").
  { intros c Hc. simpl in Hc.
    repeat (destruct Hc as [<-|Hc]; [discriminate|]). contradiction. }
  split; [exact H|].
  destruct (expand_loop_pairs "4242" "echo " " is $" H) as (_ & _ & H3).
  exact H3.
Defined.

(** ** [parse_input] *)

(** X2.  Whatever the line, when [parse_input] returns it has changed
    nothing in the process, and the request it leaves is either untouched
    (a comment, code [FALSE]) or has a command name, an argument count equal
    to the length of the argument array ([NULL] array, count 0, for no
    argument) and a background flag that is [TRUE] or [FALSE]. *)
Theorem parse_input_request (w : world) (line : string) (code : Z)
    (inp : Input) (s s' : state) :
  parse_input w line init_input s = Ret (code, inp) s' ->
  s' = s /\
  (code = FALSE /\ inp = init_input \/
   code = TRUE /\ well_formed inp /\ 0 <= num_args inp /\
   (args inp = None \/ exists a0 l, args inp = Some (a0 :: l))) /\
  (is_background inp = TRUE \/ is_background inp = FALSE).
Proof.
  intros H. pose proof H as H'.
  apply parse_input_facts in H as (-> & Hbg & Hcode).
  split; [reflexivity|]. split.
  - destruct Hcode as [[-> ->]|[-> Hwf]]; [now left|]. right.
    specialize (Hwf eq_refl). split; [reflexivity|]. split; [exact Hwf|].
    revert H'. unfold parse_input. munfold. intros H.
    apply bind_Ret_inv in H as (input & s2 & _ & H).
    apply bind_Ret_inv in H as (tokens & s3 & _ & H).
    destruct tokens as [|tokens0 rest]; [discriminate|].
    assert (Hmain :
      forall K : Z -> Input,
        (forall fm, num_args (K fm) = (if 0 <? count_args rest
                                       then count_args rest else 0) /\
                    args (K fm) = (if 0 <? count_args rest
                      then Some (take (Z.to_nat (count_args rest)) rest)
                      else None)) ->
        bind (get foreground_mode) (fun fm =>
          bind (files_loop (drop (Z.to_nat (count_args rest))
                              (tokens0 :: rest)) (K fm))
            (fun inp2 => ret (TRUE, inp2))) s3 = Ret (TRUE, inp) s ->
        0 <= num_args inp /\
        (args inp = None \/ exists a0 l, args inp = Some (a0 :: l))).
    { intros K HK HB. unfold bind at 1 in HB. cbn [get] in HB.
      apply bind_Ret_inv in HB as (inp2 & s4 & Hl & HB).
      injection HB as <- <-.
      apply files_loop_background in Hl as (_ & _ & _ & Hn & Ha).
      destruct (HK (foreground_mode s3)) as [HKn HKa].
      rewrite Hn, Ha, HKn, HKa.
      pose proof (count_args_bounds rest) as Hb.
      destruct (Z.ltb_spec 0 (count_args rest)); [|split; [lia | now left]].
      split; [lia|]. right.
      destruct rest as [|r0 rest']; [simpl in *; lia|].
      destruct (Z.to_nat (count_args (r0 :: rest'))) eqn:E; [lia|].
      simpl. eauto. }
    assert (HK : forall fm,
      num_args
        (if 0 <? count_args rest then
          {| command := Some tokens0; num_args := count_args rest;
             args := Some (take (Z.to_nat (count_args rest)) rest);
             input_file := input_file init_input;
             output_file := output_file init_input;
             is_background :=
               if String.eqb (List.last (tokens0 :: rest) EmptyString) "&"
                  && (fm =? FALSE)
               then TRUE else is_background init_input |}
        else
          {| command := Some tokens0; num_args := num_args init_input;
             args := args init_input;
             input_file := input_file init_input;
             output_file := output_file init_input;
             is_background :=
               if String.eqb (List.last (tokens0 :: rest) EmptyString) "&"
                  && (fm =? FALSE)
               then TRUE else is_background init_input |})
        = (if 0 <? count_args rest then count_args rest else 0) /\
      args
        (if 0 <? count_args rest then
          {| command := Some tokens0; num_args := count_args rest;
             args := Some (take (Z.to_nat (count_args rest)) rest);
             input_file := input_file init_input;
             output_file := output_file init_input;
             is_background :=
               if String.eqb (List.last (tokens0 :: rest) EmptyString) "&"
                  && (fm =? FALSE)
               then TRUE else is_background init_input |}
        else
          {| command := Some tokens0; num_args := num_args init_input;
             args := args init_input;
             input_file := input_file init_input;
             output_file := output_file init_input;
             is_background :=
               if String.eqb (List.last (tokens0 :: rest) EmptyString) "&"
                  && (fm =? FALSE)
               then TRUE else is_background init_input |})
        = (if 0 <? count_args rest
           then Some (take (Z.to_nat (count_args rest)) rest) else None)).
    { intros fm. destruct (0 <? count_args rest); split; reflexivity. }
    destruct tokens0 as [|a tokens0'];
      [exact (Hmain _ HK H)|].
    destruct (Ascii.eqb_spec a "#") as [->|Hne]; [discriminate|].
    apply (Hmain _ HK). revert H.
    destruct a as [[] [] [] [] [] [] [] []]; try (intros H; exact H);
      exfalso; apply Hne; reflexivity.
  - destruct Hbg as [->|[-> _]]; [now right | now left].
Qed.

Lemma parse_input_request_witness :
  exists inp,
    parse_input (demo Trap) "wc -l < in.txt &" init_input (init_state "/")
      = Ret (TRUE, inp) (init_state "/") /\
    well_formed inp /\ is_background inp = TRUE.
Proof.
  eexists.
  assert (H : parse_input (demo Trap) "wc -l < in.txt &" init_input
                (init_state "/")
              = Ret (TRUE, {| command := Some "wc"; num_args := 1;
                              args := Some ["-l"];
                              input_file := Some "in.txt";
                              output_file := None;
                              is_background := TRUE |}) (init_state "/"))
    by (vm_compute; reflexivity).
  split; [exact H|].
  destruct (parse_input_request _ _ _ _ _ _ H)
    as (_ & [[E _]|(_ & Hwf & _)] & _); [discriminate|].
  split; [exact Hwf | reflexivity].
Defined.

Lemma bind_ext {A B} (m : M A) (k1 k2 : A -> M B) (s : state) :
  (forall a s', k1 a s' = k2 a s') -> bind m k1 s = bind m k2 s.
Proof. intros H. unfold bind. destruct (m s); auto. Qed.

Lemma parse_input_unfold (w : world) (line : string) (inp : Input)
    (s : state) :
  parse_input w line inp s =
    bind (expand_smallsh w line) (fun input =>
      bind (fill_tokens (Z.to_nat (1 + count_spaces input))
              (strtok_all input))
        (fun tokens => parse_tokens tokens inp)) s.
Proof.
  unfold parse_input. munfold.
  apply bind_ext. intros input s1. apply bind_ext. intros tokens s2.
  destruct tokens as [|t0 rest]; [reflexivity|].
  destruct t0 as [|a t0']; [reflexivity|].
  destruct a as [[] [] [] [] [] [] [] []]; reflexivity.
Qed.

(** On a line of words separated by single spaces, with buffers large
    enough, the tokens are the words. *)
Lemma parse_input_join (w : world) (ws : list string) (inp : Input)
    (s : state) :
  ws ≠ [] -> Forall word ws ->
  (String.length (dec (w_pid w)) < 10)%nat ->
  Z.of_nat (String.length (join ws)) < MAX_COMMAND_LEN ->
  parse_input w (join ws) inp s = parse_tokens ws inp s.
Proof.
  intros Hne Hall Hpid Hlen.
  destruct (join_tokens ws Hne Hall) as (Hc & Hs & Hd).
  rewrite parse_input_unfold. unfold expand_smallsh.
  destruct (Nat.leb_spec 10 (String.length (dec (w_pid w)))); [lia|].
  rewrite expand_loop_plain by exact Hd.
  destruct (Z.leb_spec MAX_COMMAND_LEN (Z.of_nat (String.length (join ws))));
    [lia|].
  unfold bind at 1. unfold ret at 1.
  rewrite Hc, Hs, Nat2Z.id.
  unfold bind at 1. now rewrite fill_tokens_all.
Qed.

Lemma parse_tokens_command (t0 : string) (rest : list string) (inp : Input) :
  is_comment t0 = false ->
  parse_tokens (t0 :: rest) inp = parse_request t0 rest inp.
Proof.
  intros Hc. destruct t0 as [|a t0']; [reflexivity|]. simpl in Hc.
  apply Ascii.eqb_neq in Hc.
  destruct a as [[] [] [] [] [] [] [] []]; try reflexivity.
  exfalso. apply Hc. reflexivity.
Qed.

(** X3.  A line of words whose first word begins with the comment marker is
    not a request: [parse_input] returns [FALSE] and leaves the [Input] and
    the process as they were, whatever the other words are. *)
Theorem parse_input_comment (w : world) (t0 : string) (rest : list string)
    (inp : Input) (s : state) :
  is_comment t0 = true -> Forall word (t0 :: rest) ->
  (String.length (dec (w_pid w)) < 10)%nat ->
  Z.of_nat (String.length (join (t0 :: rest))) < MAX_COMMAND_LEN ->
  parse_input w (join (t0 :: rest)) inp s = Ret (FALSE, inp) s.
Proof.
  intros Hc Hall Hpid Hlen.
  rewrite parse_input_join by (auto; discriminate).
  destruct t0 as [|a t0']; [discriminate|]. simpl in Hc.
  apply Ascii.eqb_eq in Hc. subst a. reflexivity.
Qed.

Lemma parse_input_comment_witness :
  parse_input (demo Trap) "#rm -rf / &" sleep_bg foreground_only
    = Ret (FALSE, sleep_bg) foreground_only.
Proof.
  apply (parse_input_comment (demo Trap) "#rm" ["-rf"; "/"; "&"]).
  - reflexivity.
  - repeat (apply Forall_cons; split; [split; [discriminate | reflexivity]|]).
    apply Forall_nil. exact I.
  - vm_compute. lia.
  - vm_compute. reflexivity.
Defined.

(** *** Stray spaces *)

Lemma fields_length (t : string) :
  Z.of_nat (length (fields t)) = 1 + count_spaces t.
Proof.
  unfold count_spaces. induction t as [|c r IH]; [reflexivity|].
  cbn [fields list_ascii_of_string]. rewrite filter_cons.
  destruct (Ascii.eqb_spec c " ") as [->|Hne].
  - destruct (decide (" "%char = " "%char)); [|contradiction].
    cbn [length]. lia.
  - destruct (decide (c = " "%char)); [contradiction|].
    destruct (fields r); cbn [length] in *; lia.
Qed.

Lemma fields_empty_piece (a b : string) :
  In EmptyString (fields b) ->
  In EmptyString (List.tl (fields (a +:+ " " +:+ b))).
Proof.
  intros Hb. induction a as [|c a IH]; [exact Hb|].
  change (String c a +:+ " " +:+ b) with (String c (a +:+ " " +:+ b)).
  cbn [fields]. destruct (Ascii.eqb c " ").
  - cbn [List.tl]. destruct (fields (a +:+ " " +:+ b)); [contradiction|].
    right. exact IH.
  - destruct (fields (a +:+ " " +:+ b)); [contradiction | exact IH].
Qed.

Lemma filter_shorter {A} (P : A -> Prop) `{forall x, Decision (P x)}
    (l : list A) (x : A) :
  In x l -> ~ P x -> (length (filter P l) < length l)%nat.
Proof.
  induction l as [|y l IH]; [contradiction|]. intros [->|Hin] Hx.
  - rewrite filter_cons. destruct (decide (P x)); [contradiction|].
    pose proof (length_filter P l). simpl. lia.
  - specialize (IH Hin Hx). rewrite filter_cons.
    destruct (decide (P y)); simpl; lia.
Qed.

Lemma fill_tokens_short (n : nat) :
  forall (toks : list string) (s : state),
    (length toks < n)%nat ->
    fill_tokens n toks s = Undefined NullDereference s.
Proof.
  induction n as [|n IH]; intros toks s H; [lia|].
  destruct toks as [|t ts]; [reflexivity|]. simpl in *. munfold.
  apply bind_undefined. apply IH. lia.
Qed.

(** X4.  A space that begins the line, ends it, or follows another space
    makes [strtok] return fewer tokens than [parse_input] has counted:
    the copy of the missing token dereferences [NULL].  (The line is taken
    without dollar signs, so that expansion leaves it as it is.) *)
Theorem parse_input_stray_space (w : world) (a b : string) (inp : Input)
    (s : state) :
  a = EmptyString \/ b = EmptyString \/ (exists b', b = " " +:+ b') ->
  dollar_free (a +:+ " " +:+ b) ->
  (String.length (dec (w_pid w)) < 10)%nat ->
  Z.of_nat (String.length (a +:+ " " +:+ b)) < MAX_COMMAND_LEN ->
  parse_input w (a +:+ " " +:+ b) inp s = Undefined NullDereference s.
Proof.
  intros Hshape Hd Hpid Hlen.
  assert (Hin : In EmptyString (fields (a +:+ " " +:+ b))).
  { destruct Hshape as [->|Hb]; [now left|].
    assert (In EmptyString (fields b)) as Hb'.
    { destruct Hb as [->|[b' ->]]; now left. }
    pose proof (fields_empty_piece a b Hb') as H.
    destruct (fields (a +:+ " " +:+ b)); [contradiction | now right]. }
  rewrite parse_input_unfold. unfold expand_smallsh.
  destruct (Nat.leb_spec 10 (String.length (dec (w_pid w)))); [lia|].
  rewrite expand_loop_plain by exact Hd.
  destruct (Z.leb_spec MAX_COMMAND_LEN
              (Z.of_nat (String.length (a +:+ " " +:+ b)))); [lia|].
  unfold bind at 1. unfold ret at 1.
  apply bind_undefined. apply fill_tokens_short.
  pose proof (fields_length (a +:+ " " +:+ b)) as Hf.
  unfold strtok_all.
  pose proof (filter_shorter (fun f => f ≠ EmptyString) _ _ Hin) as Hs.
  specialize (Hs ltac:(intros Hn; now apply Hn)). lia.
Qed.

Lemma parse_input_stray_space_witness :
  parse_input (demo Trap) "ls  -l" init_input (init_state "/")
    = Undefined NullDereference (init_state "/") /\
  parse_input (demo Trap) "ls " init_input (init_state "/")
    = Undefined NullDereference (init_state "/").
Proof.
  split.
  - apply (parse_input_stray_space (demo Trap) "ls" " -l").
    + right. right. now exists "-l".
    + intros c Hc. simpl in Hc.
      repeat (destruct Hc as [<-|Hc]; [discriminate|]). contradiction.
    + vm_compute. lia.
    + vm_compute. reflexivity.
  - apply (parse_input_stray_space (demo Trap) "ls" "").
    + right. now left.
    + intros c Hc. simpl in Hc.
      repeat (destruct Hc as [<-|Hc]; [discriminate|]). contradiction.
    + vm_compute. lia.
    + vm_compute. reflexivity.
Defined.

(** *** A redirection operator at the end of the line *)

Lemma files_loop_dangling (toks : list string) :
  forall (inp : Input) (s : state),
    toks ≠ [] -> is_redirect (List.last toks EmptyString) = true ->
    files_loop toks inp s = Undefined OutOfBounds s.
Proof.
  induction toks as [|t r IH]; intros inp s Hne Hlast; [contradiction|].
  destruct r as [|f r'].
  - simpl in *. unfold is_redirect in Hlast. now rewrite Hlast.
  - cbn [files_loop].
    change (List.last (t :: f :: r') EmptyString)
      with (List.last (f :: r') EmptyString) in Hlast.
    destruct (String.eqb t "<" || String.eqb t ">");
      [destruct (String.eqb t "<")|]; apply IH; auto; discriminate.
Qed.

Lemma last_drop {A} (l : list A) (n : nat) (d : A) :
  (n < length l)%nat -> List.last (drop n l) d = List.last l d.
Proof.
  revert n. induction l as [|x l IH]; intros n Hn; [simpl in Hn; lia|].
  destruct n as [|n]; [reflexivity|]. simpl in Hn.
  cbn [drop]. rewrite IH by lia.
  destruct l; [simpl in Hn; lia | reflexivity].
Qed.

(** X5.  When the last word of a request is ["<"] or [">"], the file-name
    loop reads the token after it, which lies beyond the array of tokens:
    [parse_input] has undefined behaviour, whatever comes before. *)
Theorem parse_input_dangling_redirect (w : world) (t0 : string)
    (rest : list string) (inp : Input) (s : state) :
  is_comment t0 = false -> Forall word (t0 :: rest) ->
  is_redirect (List.last (t0 :: rest) EmptyString) = true ->
  (String.length (dec (w_pid w)) < 10)%nat ->
  Z.of_nat (String.length (join (t0 :: rest))) < MAX_COMMAND_LEN ->
  parse_input w (join (t0 :: rest)) inp s = Undefined OutOfBounds s.
Proof.
  intros Hc Hall Hlast Hpid Hlen.
  rewrite parse_input_join by (auto; discriminate).
  rewrite parse_tokens_command by exact Hc.
  unfold parse_request. munfold. unfold bind at 1. unfold get.
  apply bind_undefined.
  pose proof (count_args_bounds rest) as Hb.
  apply files_loop_dangling.
  - intros E. apply (f_equal length) in E. rewrite length_drop in E.
    simpl in E. lia.
  - rewrite last_drop by (simpl; lia). exact Hlast.
Qed.

Lemma parse_input_dangling_redirect_witness :
  parse_input (demo Trap) "sort -r >" init_input (init_state "/")
    = Undefined OutOfBounds (init_state "/").
Proof.
  apply (parse_input_dangling_redirect (demo Trap) "sort" ["-r"; ">"]).
  - reflexivity.
  - repeat (apply Forall_cons; split; [split; [discriminate | reflexivity]|]).
    apply Forall_nil. exact I.
  - reflexivity.
  - vm_compute. lia.
  - vm_compute. reflexivity.
Defined.

(** *** The grammar of a request *)

Lemma count_args_app (l tail : list string) :
  Forall (fun a => is_redirect_or_amp a = false) l ->
  count_args (l ++ tail) = Z.of_nat (length l) + count_args tail.
Proof.
  induction l as [|a l IH]; intros H; [simpl; lia|].
  apply Forall_cons in H as [Ha H]. cbn [app count_args length].
  rewrite Ha, IH by exact H. lia.
Qed.

Lemma last_not_amp (l : list string) (x : string) :
  Forall (fun a => is_redirect_or_amp a = false) (x :: l) ->
  is_redirect_or_amp (List.last (x :: l) EmptyString) = false.
Proof.
  revert x. induction l as [|y l IH]; intros x H.
  - now apply Forall_cons in H as [Hx _].
  - apply Forall_cons in H as [_ H]. now apply IH.
Qed.

Lemma drop_length_cons {A} (x d : A) (l tail : list A) :
  drop (length l) (x :: l ++ tail) = List.last (x :: l) d :: tail.
Proof.
  revert x. induction l as [|y l IH]; intros x; [reflexivity|].
  cbn [length app drop]. rewrite IH. reflexivity.
Qed.

Lemma last_app_cons {A} (l : list A) (y : A) (tail : list A) (d : A) :
  List.last (l ++ y :: tail) d = List.last (y :: tail) d.
Proof.
  induction l as [|x l IH]; [reflexivity|].
  cbn [app]. destruct (l ++ y :: tail) eqn:E; [destruct l; discriminate|].
  cbn [List.last]. exact IH.
Qed.

Lemma not_special (t : string) :
  is_redirect_or_amp t = false ->
  String.eqb t "<" = false /\ String.eqb t ">" = false /\
  String.eqb t "&" = false.
Proof.
  unfold is_redirect_or_amp. intros H.
  apply orb_false_elim in H as [H H3]. apply orb_false_elim in H as [H1 H2].
  auto.
Qed.

(** X6.  A line that follows the grammar
    [command [arg ...] [< input_file] [> output_file] [&]], with single
    spaces and none of the names being ["<"], [">"] or ["&"], is parsed
    into exactly its parts: the command, the arguments in order (a [NULL]
    array when there is none), the two file names, and a background flag
    that is set when the line ends with ["&"] and the mode flag is
    [FALSE]. *)
Theorem parse_input_grammar (w : world) (cmd : string)
    (arguments : list string) (fin fout : option string) (amp : bool)
    (s : state) :
  let ws := line_tokens cmd arguments fin fout amp in
  Forall word ws ->
  is_comment cmd = false ->
  Forall (fun a => is_redirect_or_amp a = false) (cmd :: arguments) ->
  (forall f, fin = Some f -> is_redirect_or_amp f = false) ->
  (forall f, fout = Some f -> is_redirect_or_amp f = false) ->
  (String.length (dec (w_pid w)) < 10)%nat ->
  Z.of_nat (String.length (join ws)) < MAX_COMMAND_LEN ->
  parse_input w (join ws) init_input s =
    Ret (TRUE,
         {| command := Some cmd;
            num_args := Z.of_nat (length arguments);
            args := if arguments is [] then None else Some arguments;
            input_file := fin;
            output_file := fout;
            is_background :=
              if amp && (foreground_mode s =? FALSE) then TRUE else FALSE |})
        s.
Proof.
  intros ws Hall Hc Hns Hfin Hfout Hpid Hlen.
  rewrite parse_input_join by (auto; discriminate).
  unfold ws, line_tokens. rewrite parse_tokens_command by exact Hc.
  set (tail := (if fin is Some f then ["<"; f] else [])
                 ++ (if fout is Some f then [">"; f] else [])
                 ++ (if amp then ["&"] else [])).
  assert (Hx : is_redirect_or_amp (List.last (cmd :: arguments) EmptyString)
               = false) by now apply last_not_amp.
  apply not_special in Hx as (Hx1 & Hx2 & Hx3).
  assert (Htail : count_args tail = 0).
  { unfold tail. destruct fin, fout, amp; reflexivity. }
  assert (Hn : count_args (arguments ++ tail) = Z.of_nat (length arguments)).
  { rewrite count_args_app, Htail by now apply Forall_cons in Hns as [_ ?].
    lia. }
  assert (Hlast : String.eqb (List.last (cmd :: arguments ++ tail) EmptyString)
                    "&" = amp).
  { unfold tail.
    destruct fin as [f1|] eqn:E1, fout as [f2|] eqn:E2, amp;
      cbn [app];
      try (destruct (not_special f1 (Hfin f1 eq_refl)) as (_ & _ & Hf1));
      try (destruct (not_special f2 (Hfout f2 eq_refl)) as (_ & _ & Hf2));
      rewrite ?app_nil_r, ?app_comm_cons, ?last_app_cons;
      cbn [List.last]; auto. }
  unfold parse_request. munfold. unfold bind at 1. unfold get.
  cbv zeta. rewrite Hn, Hlast, Nat2Z.id.
  rewrite (drop_length_cons cmd EmptyString), take_app_length.
  cbn [files_loop]. rewrite Hx1, Hx2. cbn [orb].
  assert (Hfiles : forall i : Input,
    files_loop tail i s =
      Ret {| command := command i; num_args := num_args i; args := args i;
             input_file := if fin is Some _ then fin else input_file i;
             output_file := if fout is Some _ then fout else output_file i;
             is_background := is_background i |} s).
  { intros i. unfold tail.
    destruct fin as [f1|] eqn:E1, fout as [f2|] eqn:E2, amp;
      cbn [app files_loop String.eqb Ascii.eqb Bool.eqb orb];
      try (destruct (not_special f1 (Hfin f1 eq_refl)) as (Hf11 & Hf12 & _));
      try (destruct (not_special f2 (Hfout f2 eq_refl)) as (Hf21 & Hf22 & _));
      rewrite ?Hf11, ?Hf12, ?Hf21, ?Hf22;
      cbn [orb files_loop String.eqb Ascii.eqb Bool.eqb];
      destruct i; reflexivity. }
  unfold bind. rewrite Hfiles. unfold ret. f_equal. f_equal.
  destruct arguments as [|a0 l].
  - cbn [length Z.of_nat Z.ltb Z.compare]. simpl.
    destruct fin, fout; reflexivity.
  - destruct (Z.ltb_spec 0 (Z.of_nat (length (a0 :: l))));
      [|simpl length in *; lia]. simpl.
    destruct fin, fout; reflexivity.
Qed.

Lemma parse_input_grammar_witness :
  parse_input (demo Trap) "sort -r names < in.txt > out.txt &" init_input
    (init_state "/")
  = Ret (TRUE,
         {| command := Some "sort"; num_args := 2;
            args := Some ["-r"; "names"];
            input_file := Some "in.txt"; output_file := Some "out.txt";
            is_background := TRUE |}) (init_state "/").
Proof.
  apply (parse_input_grammar (demo Trap) "sort" ["-r"; "names"]
           (Some "in.txt") (Some "out.txt") true (init_state "/")).
  - repeat (apply Forall_cons; split; [split; [discriminate | reflexivity]|]).
    apply Forall_nil. exact I.
  - reflexivity.
  - repeat (apply Forall_cons; split; [reflexivity|]).
    apply Forall_nil. exact I.
  - intros f [= <-]. reflexivity.
  - intros f [= <-]. reflexivity.
  - vm_compute. lia.
  - vm_compute. reflexivity.
Defined.

(** ** Background children *)

(** The parent branch of a background request: a node for the child is put
    at the head of the list, the notice is printed and nothing is waited
    for. *)
Lemma parent_background (w : world) (inp : Input) (fork_pid : Z)
    (fate : option Z) (l : list (N * Z)) (s : state) :
  0 < fork_pid -> is_background inp = TRUE ->
  is_list (heap s) (pid_head s) l ->
  exists s' a,
    execute_smallsh w inp fork_pid fate s = Ret 0 s' /\
    heap s !! a = None /\
    heap s' = <[a := (true, {| data := fork_pid; next := pid_head s |})]> (heap s) /\
    pid_head s' = Some a /\
    is_list (heap s') (pid_head s') ((a, fork_pid) :: l) /\
    trace s' = trace s ++ background_start_events fork_pid /\
    children s' = <[fork_pid := Running fate]> (children s) /\
    fds s' = fds s /\ cwd s' = cwd s /\
    foreground_mode s' = foreground_mode s.
Proof.
  intros Hpid Hbg Hl. rewrite execute_smallsh_parent by exact Hpid.
  unfold parent_branch, parent_handler, ignore_sigint, sigaction, printf.
  munfold. rewrite Hbg.
  cbn -[dec String.append unused_addr].
  pose proof (unused_addr_free (heap s)) as Hfree.
  set (a := unused_addr (heap s)) in *.
  unfold bind at 1. unfold store. cbn -[dec String.append].
  rewrite lookup_insert_eq. cbn -[dec String.append].
  rewrite insert_insert_eq.
  eexists. exists a. split; [reflexivity|].
  cbn -[dec String.append]. split; [exact Hfree|]. split; [reflexivity|].
  split; [reflexivity|]. split.
  - split; [reflexivity|]. exists (pid_head s). split.
    + apply lookup_insert_eq.
    + apply is_list_insert_other; [|exact Hl].
      intros Hin. apply (is_list_dom _ _ _ Hl) in Hin.
      apply elem_of_dom in Hin as [x Hx]. congruence.
  - unfold background_start_events. rewrite <- !app_assoc. auto 10.
Qed.

(** X7.  Dispatching a background request whose child exists: its pid is
    put at the head of the list of background pids, which keeps its other
    entries; "Background pid is <pid>." is printed; nothing is waited for,
    even when the child never ends; and the variable [exit_code] of [main]
    becomes 0, whatever the last foreground command left in it. *)
Theorem background_start (w : world) (inp : Input) (c : string)
    (fork_pid exit_code : Z) (fate : option Z) (l : list (N * Z))
    (s : state) :
  command inp = Some c -> c ≠ "cd" -> c ≠ "status" ->
  is_background inp = TRUE -> 0 < fork_pid ->
  is_list (heap s) (pid_head s) l ->
  exists s' a,
    dispatch w TRUE inp exit_code fork_pid fate s = Ret 0 s' /\
    is_list (heap s') (pid_head s') ((a, fork_pid) :: l) /\
    trace s' = trace s ++ background_start_events fork_pid /\
    children s' = <[fork_pid := Running fate]> (children s).
Proof.
  intros Hc Hcd Hst Hbg Hpid Hl.
  rewrite (dispatch_external w inp exit_code fork_pid fate c Hc Hcd Hst).
  destruct (parent_background w inp fork_pid fate l s Hpid Hbg Hl)
    as (s' & a & Hrun & _ & _ & _ & Hl' & Htr & Hch & _).
  exists s', a. auto.
Qed.

Lemma background_start_witness :
  exists s' a,
    dispatch (demo Trap) TRUE sleep_bg 256 102 None two_running = Ret 0 s' /\
    is_list (heap s') (pid_head s') [(a, 102); (1%N, 101); (0%N, 100)].
Proof.
  destruct (background_start (demo Trap) sleep_bg "sleep" 102 256 None
              [(1%N, 101); (0%N, 100)] two_running)
    as (s' & a & Hrun & Hl & _); try reflexivity; try discriminate.
  - split; [reflexivity|]. eexists. split; [vm_compute; reflexivity|].
    split; [reflexivity|]. eexists. split; [vm_compute; reflexivity|].
    reflexivity.
  - exists s', a. split; [exact Hrun | exact Hl].
Defined.

(** X8.  While every background child is still running, two sweeps in a
    row poll each child once per sweep, print nothing, and leave the list
    and the children as they were: nothing is reported twice and nothing is
    lost. *)
Theorem sweep_twice_all_running (w : world) (l : list (N * Z)) (s : state) :
  is_list (heap s) (pid_head s) l ->
  (forall pid, pid ∈ l.*2 ->
     exists fate, children s !! pid = Some (Running fate)) ->
  exists s',
    bind (wait_background w) (fun _ => wait_background w) s = Ret tt s' /\
    trace s' =
      trace s ++ map (fun pid => EvWaitpid pid WNOHANG) (l.*2 ++ l.*2) /\
    heap s' = heap s /\ pid_head s' = pid_head s /\
    children s' = children s.
Proof.
  intros Hl Hrun.
  destruct (sweep_all_running w l s Hl Hrun)
    as (s1 & H1 & Ht1 & Hh1 & Hp1 & Hc1).
  destruct (sweep_all_running w l s1) as (s2 & H2 & Ht2 & Hh2 & Hp2 & Hc2).
  { rewrite Hh1, Hp1. exact Hl. }
  { rewrite Hc1. exact Hrun. }
  exists s2. rewrite (bind_ret_l _ _ _ _ _ H1). split; [exact H2|].
  rewrite Ht2, Ht1, map_app, app_assoc. repeat split; congruence.
Qed.

Lemma sweep_twice_all_running_witness :
  exists s',
    bind (wait_background (demo Trap)) (fun _ => wait_background (demo Trap))
      two_running = Ret tt s' /\
    trace s' =
      trace two_running ++
      [EvWaitpid 101 WNOHANG; EvWaitpid 100 WNOHANG;
       EvWaitpid 101 WNOHANG; EvWaitpid 100 WNOHANG] /\
    pid_head s' = pid_head two_running.
Proof.
  destruct (sweep_twice_all_running (demo Trap) [(1%N, 101); (0%N, 100)]
              two_running) as (s' & Hrun & Htr & _ & Hp & _).
  - split; [reflexivity|]. eexists. split; [vm_compute; reflexivity|].
    split; [reflexivity|]. eexists. split; [vm_compute; reflexivity|].
    reflexivity.
  - intros pid Hpid.
    apply elem_of_cons in Hpid as [->|Hpid]; [eexists; vm_compute; reflexivity|].
    apply elem_of_cons in Hpid as [->|Hpid]; [eexists; vm_compute; reflexivity|].
    inversion Hpid.
  - exists s'. split; [exact Hrun|]. split; [exact Htr | exact Hp].
Defined.

(** The sweep over a list with one entry whose child has ended. *)
Lemma sweep_single_report (w : world) (a : N) (pid st : Z) (s : state) :
  is_list (heap s) (pid_head s) [(a, pid)] ->
  children s !! pid = Some (Zombie st) ->
  pid ≠ 0 ->
  exists s',
    wait_background w s = Ret tt s' /\
    trace s' = trace s ++ EvWaitpid pid WNOHANG :: sweep_report pid st /\
    pid_head s' = None /\
    heap s' = <[a := (false, {| data := pid; next := None |})]> (heap s) /\
    children s' = delete pid (children s) /\
    fds s' = fds s /\ cwd s' = cwd s /\
    foreground_mode s' = foreground_mode s.
Proof.
  intros (Hp & nx & Ha & Hnx) Hz Hpid. simpl in Hnx. subst nx.
  unfold wait_background, list_fuel. munfold. unfold bind at 1, get.
  unfold bind at 1. rewrite Hp. cbn [wait_background_loop]. munfold.
  unfold bind at 1. unfold load. rewrite Ha. cbn [data next].
  unfold bind at 1. unfold waitpid. rewrite Hz.
  destruct (Z.eqb_spec pid 0) as [|_]; [contradiction|]. cbn [negb].
  unfold report_and_remove. munfold. cbn [from_option].
  unfold bind at 1. unfold bind at 1. unfold ret at 1.
  set (s1 := set_children _ _).
  set (msg := if WIFEXITED st && negb (pid =? -1) then _ else _).
  assert (Hmsg : exists s2, msg s1 = Ret tt s2 /\
            trace s2 = trace s1 ++ sweep_report pid st /\
            heap s2 = heap s1 /\ pid_head s2 = pid_head s1 /\
            children s2 = children s1 /\ fds s2 = fds s1 /\
            cwd s2 = cwd s1 /\ foreground_mode s2 = foreground_mode s1).
  { unfold msg, sweep_report, printf, emit, modify.
    destruct (WIFEXITED st && negb (pid =? -1));
      [|destruct (WIFSIGNALED st)].
    - eexists. repeat split.
    - eexists. repeat split.
    - exists s1. rewrite app_nil_r. repeat split. }
  destruct Hmsg as (s2 & Hm & Htr & Hh & Hp2 & Hc & Hf & Hd & Hfm).
  unfold bind at 1. rewrite Hm. unfold bind at 1. unfold get.
  rewrite Hp2. cbn [pid_head s1 set_children log]. rewrite Hp.
  unfold bind at 1. unfold load. rewrite Hh. cbn [heap s1 set_children log].
  rewrite Ha. cbn [data next]. rewrite Z.eqb_refl.
  unfold bind at 1. unfold modify. unfold store_next. munfold.
  unfold bind at 1. unfold bind at 1. unfold load.
  cbn [heap set_pid_head]. rewrite Hh. cbn [heap s1 set_children log].
  rewrite Ha. unfold store. cbn [heap set_pid_head]. rewrite Hh.
  cbn [heap s1 set_children log]. rewrite Ha.
  unfold free. cbn [heap set_heap]. rewrite lookup_insert_eq.
  unfold bind at 1. unfold get. cbn [pid_head set_heap set_pid_head next].
  rewrite wait_background_loop_NULL.
  eexists. split; [reflexivity|].
  cbn [trace children pid_head heap fds cwd foreground_mode set_heap
       set_pid_head data].
  rewrite ?Htr, ?Hc, ?Hh, ?Hf, ?Hd, ?Hfm. unfold s1. simpl.
  rewrite <- app_assoc, ?insert_insert_eq. repeat split.
Qed.

Lemma sweep_report_cause (pid : Z) (t : termination) :
  tellable t -> pid ≠ -1 ->
  sweep_report pid (wstatus t) =
    [EvPrintf ("background pid " +:+ dec pid +:+ " is done: "
               +:+ cause_text t +:+ nl)].
Proof.
  intros Ht Hpid. unfold sweep_report.
  destruct (Z.eqb_spec pid (-1)) as [|_]; [contradiction|].
  destruct t as [code|sig core].
  - destruct (exited_status code) as (-> & _ & ->). reflexivity.
  - destruct (killed_status sig core Ht) as (-> & -> & ->). reflexivity.
Qed.

(** X9.  Round trip of a background job, from an empty list: the job is
    started as [fork_pid], ends as [t], and the next sweep prints
    "background pid <fork_pid> is done: " followed by the exit value or the
    signal that [t] names; after it the list is empty again and the pid is
    no child of the interpreter, and a second sweep does nothing at all. *)
Theorem background_round_trip (w : world) (inp : Input) (fork_pid : Z)
    (t : termination) (s : state) :
  pid_head s = None -> is_background inp = TRUE -> 0 < fork_pid ->
  tellable t ->
  exists s',
    bind (execute_smallsh w inp fork_pid (Some (wstatus t))) (fun _ =>
      bind (child_ends fork_pid) (fun _ =>
        bind (wait_background w) (fun _ => wait_background w))) s
      = Ret tt s' /\
    trace s' =
      trace s ++ background_start_events fork_pid ++
      [EvWaitpid fork_pid WNOHANG;
       EvPrintf ("background pid " +:+ dec fork_pid +:+ " is done: "
                 +:+ cause_text t +:+ nl)] /\
    pid_head s' = None /\
    children s' = delete fork_pid (children s).
Proof.
  intros Hempty Hbg Hpid Ht.
  destruct (parent_background w inp fork_pid (Some (wstatus t)) [] s Hpid Hbg)
    as (s1 & a & H1 & Hfresh & Hh1 & Hp1 & Hl1 & Ht1 & Hc1 & _);
    [exact Hempty|].
  rewrite (bind_ret_l _ _ _ _ _ H1).
  set (s2 := set_children (<[fork_pid := Zombie (wstatus t)]> (children s1)) s1).
  assert (H2 : child_ends fork_pid s1 = Ret tt s2).
  { unfold child_ends, modify. rewrite Hc1, lookup_insert_eq.
    unfold s2. now rewrite Hc1. }
  rewrite (bind_ret_l _ _ _ _ _ H2).
  destruct (sweep_single_report w a fork_pid (wstatus t) s2)
    as (s3 & H3 & Ht3 & Hp3 & _ & Hc3 & _).
  { exact Hl1. }
  { unfold s2. simpl. apply lookup_insert_eq. }
  { lia. }
  rewrite (bind_ret_l _ _ _ _ _ H3).
  exists s3. split.
  - unfold wait_background, list_fuel. munfold. unfold bind, get.
    rewrite Hp3. reflexivity.
  - rewrite Ht3, Hc3, sweep_report_cause by (auto; lia).
    unfold s2. simpl. rewrite Ht1, Hc1, <- app_assoc.
    split; [reflexivity|]. split; [exact Hp3|].
    now rewrite delete_insert_eq, delete_insert_eq.
Qed.

Lemma background_round_trip_witness :
  tellable (ExitedWith 3) /\
  exists s',
    bind (execute_smallsh (demo Trap) sleep_bg 77 (Some 768)) (fun _ =>
      bind (child_ends 77) (fun _ =>
        bind (wait_background (demo Trap))
          (fun _ => wait_background (demo Trap)))) (init_state "/")
      = Ret tt s' /\
    printed (trace s') =
      ["Background pid is 77." +:+ nl;
       "background pid 77 is done: exit value 3" +:+ nl] /\
    pid_head s' = None.
Proof.
  split; [exact I|].
  destruct (background_round_trip (demo Trap) sleep_bg 77 (ExitedWith 3)
              (init_state "/") eq_refl eq_refl ltac:(lia) I)
    as (s' & Hrun & Htr & Hp & _).
  exists s'. split; [exact Hrun|]. split; [|exact Hp].
  rewrite Htr. reflexivity.
Defined.

(** ** [free_nodes] *)

Lemma free_nodes_loop_heap (w : world) (l : list (N * Z)) :
  forall (fuel : nat) (s : state),
    is_list (heap s) (pid_head s) l -> (length l < fuel)%nat ->
    exists s',
      free_nodes_loop w fuel (pid_head s) s = Ret tt s' /\
      pid_head s' = None /\ trace s' = trace s /\
      (forall a, a ∈ l.*1 ->
         exists n, heap s !! a = Some (true, n) /\
                   heap s' !! a = Some (false, n)) /\
      (forall a, a ∉ l.*1 -> heap s' !! a = heap s !! a).
Proof.
  induction l as [|[a d] l IH]; intros fuel s Hl Hfuel.
  - simpl in Hl. rewrite Hl. exists s. destruct fuel; simpl;
      (repeat split; auto; intros ? Hin; inversion Hin).
  - pose proof (is_list_NoDup _ _ _ Hl) as Hnd. simpl in Hnd.
    apply NoDup_cons in Hnd as [Hna _].
    simpl in Hl. destruct Hl as (Hp & nx & Ha & Hl).
    destruct fuel as [|fuel]; [simpl in Hfuel; lia|]. simpl in Hfuel.
    set (s1 := set_heap (<[a := (false, {| data := d; next := nx |})]> (heap s))
                 (set_pid_head nx s)).
    destruct (IH fuel s1) as (s' & Hrun & Hnone & Htr & Hdead & Hother);
      [simpl; now apply is_list_insert_other | lia |].
    exists s'. split.
    { rewrite Hp. simpl. munfold. unfold bind, get, deref, load, modify, free.
      rewrite Hp. rewrite Ha. simpl. rewrite Ha. simpl. exact Hrun. }
    split; [exact Hnone|]. split; [exact Htr|]. split.
    + intros b Hb. simpl in Hb. apply elem_of_cons in Hb as [->|Hb].
      * eexists. split; [exact Ha|]. rewrite Hother by exact Hna.
        simpl. apply lookup_insert_eq.
      * destruct (Hdead b Hb) as (n & Hn1 & Hn2). exists n. split; [|exact Hn2].
        simpl in Hn1. rewrite lookup_insert_ne in Hn1; [exact Hn1|].
        intros ->. contradiction.
    + intros b Hb. simpl in Hb. apply not_elem_of_cons in Hb as [Hba Hb].
      rewrite Hother by exact Hb. simpl. now rewrite lookup_insert_ne.
Qed.

(** X10.  [free_nodes] on a well-formed list returns, having freed every
    node of the list exactly once (each was live and is now dead, its
    contents untouched), set the head to [NULL] and left every other object
    of the heap alone; it prints nothing. *)
Theorem free_nodes_frees_list (w : world) (l : list (N * Z)) (s : state) :
  is_list (heap s) (pid_head s) l ->
  exists s',
    free_nodes w s = Ret tt s' /\
    pid_head s' = None /\ trace s' = trace s /\
    (forall a, a ∈ l.*1 ->
       exists n, heap s !! a = Some (true, n) /\
                 heap s' !! a = Some (false, n)) /\
    (forall a, a ∉ l.*1 -> heap s' !! a = heap s !! a).
Proof.
  intros Hl. unfold free_nodes, list_fuel. munfold. unfold bind at 1, get.
  unfold bind at 1.
  destruct (free_nodes_loop_heap w l (S (size (heap s))) s Hl)
    as (s' & Hrun & Hrest); [apply is_list_length in Hl; lia|].
  unfold bind. rewrite Hrun. eexists. split; [reflexivity|].
  simpl. destruct Hrest as (_ & Hrest). split; [reflexivity | exact Hrest].
Qed.

Lemma free_nodes_frees_list_witness :
  exists s',
    free_nodes (demo Trap) two_running = Ret tt s' /\
    pid_head s' = None /\
    heap s' !! 1%N = Some (false, {| data := 101; next := Some 0%N |}) /\
    heap s' !! 0%N = Some (false, {| data := 100; next := None |}).
Proof.
  destruct (free_nodes_frees_list (demo Trap) [(1%N, 101); (0%N, 100)]
              two_running) as (s' & Hrun & Hp & _ & Hdead & _).
  - split; [reflexivity|]. eexists. split; [vm_compute; reflexivity|].
    split; [reflexivity|]. eexists. split; [vm_compute; reflexivity|].
    reflexivity.
  - exists s'. split; [exact Hrun|]. split; [exact Hp|].
    destruct (Hdead 1%N) as (n1 & Hn1 & Hn1'); [left|].
    destruct (Hdead 0%N) as (n0 & Hn0 & Hn0'); [right; left|].
    vm_compute in Hn1. vm_compute in Hn0.
    injection Hn1 as <-. injection Hn0 as <-. auto.
Defined.

(** ** The sweep after a child has ended *)

Lemma load_live (w : world) (a : N) (n : Node) (s : state) :
  heap s !! a = Some (true, n) -> load w a s = Ret n s.
Proof. intros H. unfold load. now rewrite H. Qed.

Lemma load_dead_trap (w : world) (a : N) (n : Node) (s : state) :
  w_uaf w = Trap -> heap s !! a = Some (false, n) ->
  load w a s = Undefined UseAfterFree s.
Proof. intros Hw H. unfold load. now rewrite H, Hw. Qed.

Lemma store_next_live (w : world) (a : N) (n : Node) (v : option N)
    (s : state) :
  heap s !! a = Some (true, n) ->
  store_next w a v s =
    Ret tt (set_heap (<[a := (true, {| data := data n; next := v |})]> (heap s)) s).
Proof.
  intros H. unfold store_next. munfold.
  rewrite (bind_ret_l _ _ _ _ _ (load_live w a n s H)).
  unfold store. now rewrite H.
Qed.

Lemma free_live (a : N) (n : Node) (s : state) :
  heap s !! a = Some (true, n) ->
  free a s = Ret tt (set_heap (<[a := (false, n)]> (heap s)) s).
Proof. intros H. unfold free. now rewrite H. Qed.

(** The inner loop reads the node it has just freed. *)
Lemma remove_loop_use_after_free (w : world) (mid : list (N * Z)) :
  forall (fuel : nat) (curr : N) (d : Z) (a : N) (pid : Z)
         (post : list (N * Z)) (s : state),
    w_uaf w = Trap ->
    is_list (heap s) (Some curr) ((curr, d) :: mid ++ (a, pid) :: post) ->
    Forall (fun q => q ≠ pid) mid.*2 ->
    (length mid + 2 <= fuel)%nat ->
    exists s', remove_loop w fuel pid curr s = Undefined UseAfterFree s'.
Proof.
  induction mid as [|[m dm] mid IH];
    intros fuel curr d a pid post s Hw Hl Hne Hfuel.
  - pose proof (is_list_NoDup _ _ _ Hl) as Hnd. simpl in Hnd.
    apply NoDup_cons in Hnd as [Hca _].
    apply not_elem_of_cons in Hca as [Hca _].
    simpl in Hl.
    destruct Hl as (_ & nx & Hc & -> & nxa & Ha & _).
    destruct fuel as [|[|fuel]]; [simpl in Hfuel; lia.. |].
    cbn [remove_loop]. munfold.
    rewrite (bind_ret_l _ _ _ _ _ (load_live w curr _ s Hc)). cbn [next].
    rewrite (bind_ret_l _ _ _ _ _ (load_live w a _ s Ha)). cbn [data].
    rewrite Z.eqb_refl.
    set (s1 := set_heap (<[curr := (true, {| data := d; next := nxa |})]> (heap s)) s).
    set (s2 := set_heap (<[a := (true, {| data := pid; next := None |})]> (heap s1)) s1).
    set (s3 := set_heap (<[a := (false, {| data := pid; next := None |})]> (heap s2)) s2).
    assert (Ha1 : heap s1 !! a = Some (true, {| data := pid; next := nxa |})).
    { unfold s1. simpl. rewrite lookup_insert_ne by congruence. exact Ha. }
    assert (Hrem :
      bind (load w a) (fun n =>
        bind (store_next w curr (next n)) (fun _ =>
          bind (store_next w a None) (fun _ => free a))) s = Ret tt s3).
    { rewrite (bind_ret_l _ _ _ _ _ (load_live w a _ s Ha)). cbn [next].
      rewrite (bind_ret_l _ _ _ _ _ (store_next_live w curr _ nxa s Hc)).
      cbn [data]. fold s1.
      rewrite (bind_ret_l _ _ _ _ _ (store_next_live w a _ None s1 Ha1)).
      cbn [data]. fold s2. apply free_live. unfold s2. simpl.
      apply lookup_insert_eq. }
    rewrite (bind_ret_l _ _ _ _ _ Hrem).
    exists s3. apply bind_undefined.
    eapply load_dead_trap; [exact Hw|]. unfold s3. simpl.
    apply lookup_insert_eq.
  - simpl in Hl. destruct Hl as (_ & nx & Hc & -> & nxm & Hm & Hl).
    simpl in Hne. apply Forall_cons in Hne as [Hdm Hne].
    destruct fuel as [|fuel]; [simpl in Hfuel; lia|]. simpl in Hfuel.
    cbn [remove_loop]. munfold.
    rewrite (bind_ret_l _ _ _ _ _ (load_live w curr _ s Hc)). cbn [next].
    rewrite (bind_ret_l _ _ _ _ _ (load_live w m _ s Hm)). cbn [data].
    destruct (Z.eqb_spec dm pid) as [|_]; [contradiction|].
    unfold bind at 1. unfold ret at 1.
    apply (IH fuel m dm a pid post s Hw); [|exact Hne | lia].
    simpl. split; [reflexivity|]. eauto.
Qed.

(** The printing half of the sweep changes only the trace. *)
Lemma sweep_print (pid st : Z) (s : state) :
  exists s',
    (if WIFEXITED st && negb (pid =? -1) then
       printf ("background pid " +:+ dec pid +:+ " is done: exit value "
               +:+ dec (WEXITSTATUS st) +:+ nl)
     else if WIFSIGNALED st then
       printf ("background pid " +:+ dec pid
               +:+ " is done: terminated by signal "
               +:+ dec (WTERMSIG st) +:+ nl)
     else ret tt) s = Ret tt s' /\
    trace s' = trace s ++ sweep_report pid st /\
    heap s' = heap s /\ pid_head s' = pid_head s /\
    children s' = children s.
Proof.
  unfold sweep_report, printf, emit, modify.
  destruct (WIFEXITED st && negb (pid =? -1)); [|destruct (WIFSIGNALED st)].
  - eexists. repeat split.
  - eexists. repeat split.
  - exists s. rewrite app_nil_r. repeat split.
Qed.

(** The visited entry is the head of the list: it is unlinked and freed. *)
Lemma report_and_remove_head (w : world) (a : N) (pid st : Z)
    (nxa : option N) (s : state) :
  pid_head s = Some a ->
  heap s !! a = Some (true, {| data := pid; next := nxa |}) ->
  exists s',
    report_and_remove w pid (Some st) s = Ret tt s' /\
    trace s' = trace s ++ sweep_report pid st /\
    pid_head s' = nxa /\
    heap s' = <[a := (false, {| data := pid; next := None |})]> (heap s) /\
    children s' = children s.
Proof.
  intros Hp Ha. unfold report_and_remove. munfold. cbn [from_option].
  rewrite (bind_ret_l _ _ _ _ _ (eq_refl : ret st s = Ret st s)).
  destruct (sweep_print pid st s) as (s2 & Hprint & Htr & Hh2 & Hp2 & Hc2).
  rewrite (bind_ret_l _ _ _ _ _ Hprint).
  unfold bind at 1. unfold get. rewrite Hp2, Hp.
  assert (Ha2 : heap s2 !! a = Some (true, {| data := pid; next := nxa |}))
    by (rewrite Hh2; exact Ha).
  rewrite (bind_ret_l _ _ _ _ _ (load_live w a _ s2 Ha2)). cbn [data].
  rewrite Z.eqb_refl. cbn [next].
  unfold bind at 1. unfold modify.
  set (s3 := set_pid_head nxa s2).
  rewrite (bind_ret_l _ _ _ _ _ (store_next_live w a _ None s3 Ha2)).
  cbn [data].
  erewrite free_live by (simpl; apply lookup_insert_eq).
  eexists. split; [reflexivity|]. simpl.
  rewrite insert_insert_eq, Htr, Hh2, Hc2. repeat split.
Qed.

(** The visited entry stands further down the list: the inner loop frees it
    and reads it again. *)
Lemma report_and_remove_use_after_free (w : world) (h0 : N) (d0 : Z)
    (mid : list (N * Z)) (a : N) (pid st : Z) (post : list (N * Z))
    (s : state) :
  w_uaf w = Trap ->
  is_list (heap s) (pid_head s) ((h0, d0) :: mid ++ (a, pid) :: post) ->
  d0 ≠ pid -> Forall (fun q => q ≠ pid) mid.*2 ->
  exists s', report_and_remove w pid (Some st) s = Undefined UseAfterFree s'.
Proof.
  intros Hw Hl Hd0 Hmid. unfold report_and_remove. munfold.
  cbn [from_option].
  rewrite (bind_ret_l _ _ _ _ _ (eq_refl : ret st s = Ret st s)).
  destruct (sweep_print pid st s) as (s2 & Hprint & Htr & Hh2 & Hp2 & Hc2).
  rewrite (bind_ret_l _ _ _ _ _ Hprint).
  assert (Hl' := Hl). simpl in Hl. destruct Hl as (Hp & nx0 & Hh0 & _).
  unfold bind at 1. unfold get. rewrite Hp2, Hp.
  assert (Hh02 : heap s2 !! h0 = Some (true, {| data := d0; next := nx0 |}))
    by (rewrite Hh2; exact Hh0).
  rewrite (bind_ret_l _ _ _ _ _ (load_live w h0 _ s2 Hh02)). cbn [data].
  destruct (Z.eqb_spec d0 pid) as [|_]; [contradiction|].
  unfold list_fuel. unfold bind at 1. unfold get.
  apply (remove_loop_use_after_free w mid _ h0 d0 a pid post s2 Hw).
  - rewrite Hh2, <- Hp. exact Hl'.
  - exact Hmid.
  - apply is_list_length in Hl'. rewrite Hh2.
    simpl in Hl'. rewrite length_app in Hl'. simpl in Hl'. lia.
Qed.

Lemma wait_background_loop_use_after_free (w : world) (pre2 : list (N * Z)) :
  forall (pre1 : list (N * Z)) (fuel : nat) (temp : option N)
         (ec : option Z) (s : state) (a : N) (pid : Z)
         (post : list (N * Z)) (st : Z),
    w_uaf w = Trap ->
    is_list (heap s) (pid_head s) ((pre1 ++ pre2) ++ (a, pid) :: post) ->
    is_list (heap s) temp (pre2 ++ (a, pid) :: post) ->
    (pre1 ++ pre2) ++ post ≠ [] ->
    (forall q, q ∈ (pre1 ++ pre2).*2 ->
       exists fate, children s !! q = Some (Running fate)) ->
    children s !! pid = Some (Zombie st) -> pid ≠ 0 ->
    (length pre2 < fuel)%nat ->
    exists s', wait_background_loop w fuel temp ec s
               = Undefined UseAfterFree s'.
Proof.
  induction pre2 as [|[b q] pre2 IH];
    intros pre1 fuel temp ec s a pid post st Hw Hfull Htemp Hsize Hrun Hz
           Hpid Hfuel.
  - rewrite app_nil_r in *. simpl in Htemp.
    destruct Htemp as (-> & nxa & Ha & Hpost).
    destruct fuel as [|fuel]; [simpl in Hfuel; lia|].
    cbn [wait_background_loop]. munfold.
    rewrite (bind_ret_l _ _ _ _ _ (load_live w a _ s Ha)). cbn [data].
    set (s1 := set_children (delete pid (children s))
                 (log (EvWaitpid pid WNOHANG) s)).
    assert (Hwait : waitpid pid WNOHANG s = Ret (pid, Some st) s1).
    { unfold waitpid. now rewrite Hz. }
    rewrite (bind_ret_l _ _ _ _ _ Hwait). cbn beta iota zeta.
    destruct (Z.eqb_spec pid 0) as [|_]; [contradiction|]. cbn [negb].
    destruct pre1 as [|[h0 d0] pre1].
    + simpl in Hfull. destruct Hfull as (Hhead & _).
      destruct (report_and_remove_head w a pid st nxa s1 Hhead Ha)
        as (s2 & Hrr & _ & Hp2 & Hh2 & _).
      rewrite (bind_ret_l _ _ _ _ _ Hrr).
      unfold bind at 1. unfold get. rewrite Hp2.
      destruct post as [|[p1 d1] post]; [contradiction|].
      simpl in Hpost. destruct Hpost as (-> & _).
      exists s2. apply bind_undefined.
      eapply load_dead_trap; [exact Hw|]. rewrite Hh2.
      apply lookup_insert_eq.
    + destruct (report_and_remove_use_after_free w h0 d0 pre1 a pid st post
                  s1 Hw) as (s2 & Hrr).
      * exact Hfull.
      * intros ->. destruct (Hrun pid) as [fate Hf]; [simpl; left|].
        congruence.
      * apply Forall_forall. intros x Hx ->.
        destruct (Hrun pid) as [fate Hf]; [simpl; right; exact Hx|].
        congruence.
      * exists s2. apply bind_undefined. exact Hrr.
  - simpl in Htemp. destruct Htemp as (-> & nxb & Hb & Htemp).
    destruct fuel as [|fuel]; [simpl in Hfuel; lia|]. simpl in Hfuel.
    destruct (Hrun q) as [fate Hq].
    { rewrite fmap_app. apply elem_of_app. right. left. }
    assert (Hhd : is_Some (pid_head s)).
    { destruct pre1 as [|[h0 d0] pre1]; simpl in Hfull;
        destruct Hfull as (-> & _); eauto. }
    destruct Hhd as [hd Hhd].
    cbn [wait_background_loop]. munfold.
    rewrite (bind_ret_l _ _ _ _ _ (load_live w b _ s Hb)). cbn [data].
    set (s1 := log (EvWaitpid q WNOHANG) s).
    assert (Hwait : waitpid q WNOHANG s = Ret (0, None) s1).
    { unfold waitpid. rewrite Hq. reflexivity. }
    rewrite (bind_ret_l _ _ _ _ _ Hwait). cbn beta iota zeta.
    cbn [Z.eqb negb]. unfold bind at 1. unfold ret at 1.
    unfold bind at 1. unfold get. cbn [pid_head s1 log]. rewrite Hhd.
    rewrite (bind_ret_l _ _ _ _ _ (load_live w b _ s1 Hb)). cbn [next].
    assert (Happ : (pre1 ++ [(b, q)]) ++ pre2 = pre1 ++ (b, q) :: pre2)
      by (rewrite <- app_assoc; reflexivity).
    apply (IH (pre1 ++ [(b, q)]) fuel nxb ec s1 a pid post st Hw);
      rewrite ?Happ; auto; lia.
Qed.

(** X11.  Under the strict reading of C, the sweep has undefined behaviour
    as soon as it finds a child that has ended in a list of two entries or
    more: wherever the node stands in the list, the node is freed and then
    read again. *)
Theorem sweep_use_after_free (w : world) (pre post : list (N * Z)) (a : N)
    (pid st : Z) (s : state) :
  w_uaf w = Trap ->
  is_list (heap s) (pid_head s) (pre ++ (a, pid) :: post) ->
  pre ++ post ≠ [] ->
  (forall q, q ∈ pre.*2 ->
     exists fate, children s !! q = Some (Running fate)) ->
  children s !! pid = Some (Zombie st) -> pid ≠ 0 ->
  exists s', wait_background w s = Undefined UseAfterFree s'.
Proof.
  intros Hw Hl Hsize Hrun Hz Hpid.
  unfold wait_background, list_fuel. munfold. unfold bind at 1, get.
  unfold bind at 1.
  apply (wait_background_loop_use_after_free w pre [] _ _ _ s a pid post st);
    rewrite ?app_nil_l; auto.
  apply is_list_length in Hl. rewrite length_app in Hl. lia.
Qed.

Lemma sweep_use_after_free_witness :
  exists s', wait_background (demo Trap) two_ended = Undefined UseAfterFree s'.
Proof.
  apply (sweep_use_after_free (demo Trap) [] [(0%N, 100)] 1%N 101 256).
  - reflexivity.
  - split; [reflexivity|]. eexists. split; [vm_compute; reflexivity|].
    split; [reflexivity|]. eexists. split; [vm_compute; reflexivity|].
    reflexivity.
  - discriminate.
  - intros q Hq. inversion Hq.
  - vm_compute. reflexivity.
  - discriminate.
Defined.

(** ** The sweep where freed memory keeps what was stored in it *)

Lemma load_stale (w : world) (a : N) (b : bool) (n : Node) (s : state) :
  w_uaf w = Stale -> heap s !! a = Some (b, n) -> load w a s = Ret n s.
Proof. intros Hw H. unfold load. rewrite H, Hw. now destruct b. Qed.

Lemma remove_loop_stale (w : world) (mid : list (N * Z)) :
  forall (fuel : nat) (curr : N) (d : Z) (a : N) (pid : Z)
         (post : list (N * Z)) (s : state),
    w_uaf w = Stale ->
    is_list (heap s) (Some curr) ((curr, d) :: mid ++ (a, pid) :: post) ->
    Forall (fun q => q ≠ pid) mid.*2 ->
    (length mid + 2 <= fuel)%nat ->
    exists s',
      remove_loop w fuel pid curr s = Ret tt s' /\
      is_list (heap s') (Some curr) ((curr, d) :: mid ++ post) /\
      heap s' !! a = Some (false, {| data := pid; next := None |}) /\
      (forall x, x ∉ (((curr, d) :: mid) ++ [(a, pid)]).*1 ->
                 heap s' !! x = heap s !! x) /\
      trace s' = trace s /\ pid_head s' = pid_head s /\
      children s' = children s.
Proof.
  induction mid as [|[m dm] mid IH];
    intros fuel curr d a pid post s Hw Hl Hne Hfuel.
  - pose proof (is_list_NoDup _ _ _ Hl) as Hnd. simpl in Hnd.
    apply NoDup_cons in Hnd as [Hc Hnd].
    apply NoDup_cons in Hnd as [Hapost _].
    apply not_elem_of_cons in Hc as [Hca Hcpost].
    simpl in Hl.
    destruct Hl as (_ & nx & Hc & -> & nxa & Ha & Hpost).
    destruct fuel as [|[|fuel]]; [simpl in Hfuel; lia.. |].
    cbn [remove_loop]. munfold.
    rewrite (bind_ret_l _ _ _ _ _ (load_live w curr _ s Hc)). cbn [next].
    rewrite (bind_ret_l _ _ _ _ _ (load_live w a _ s Ha)). cbn [data].
    rewrite Z.eqb_refl.
    set (s1 := set_heap (<[curr := (true, {| data := d; next := nxa |})]> (heap s)) s).
    set (s2 := set_heap (<[a := (true, {| data := pid; next := None |})]> (heap s1)) s1).
    set (s3 := set_heap (<[a := (false, {| data := pid; next := None |})]> (heap s2)) s2).
    assert (Ha1 : heap s1 !! a = Some (true, {| data := pid; next := nxa |})).
    { unfold s1. simpl. rewrite lookup_insert_ne by congruence. exact Ha. }
    assert (Hrem :
      bind (load w a) (fun n =>
        bind (store_next w curr (next n)) (fun _ =>
          bind (store_next w a None) (fun _ => free a))) s = Ret tt s3).
    { rewrite (bind_ret_l _ _ _ _ _ (load_live w a _ s Ha)). cbn [next].
      rewrite (bind_ret_l _ _ _ _ _ (store_next_live w curr _ nxa s Hc)).
      cbn [data]. fold s1.
      rewrite (bind_ret_l _ _ _ _ _ (store_next_live w a _ None s1 Ha1)).
      cbn [data]. fold s2. apply free_live. unfold s2. simpl.
      apply lookup_insert_eq. }
    rewrite (bind_ret_l _ _ _ _ _ Hrem).
    assert (Ha3 : heap s3 !! a = Some (false, {| data := pid; next := None |}))
      by (unfold s3; simpl; apply lookup_insert_eq).
    rewrite (bind_ret_l _ _ _ _ _ (load_stale w a _ _ s3 Hw Ha3)).
    cbn [next]. exists s3. split; [reflexivity|].
    split; [|split; [exact Ha3 | split; [|repeat split]]].
    + simpl. split; [reflexivity|]. exists nxa. split.
      * rewrite !lookup_insert_ne by congruence. apply lookup_insert_eq.
      * repeat apply is_list_insert_other; assumption.
    + intros x Hx. simpl in Hx.
      apply not_elem_of_cons in Hx as [Hxc Hx].
      apply not_elem_of_cons in Hx as [Hxa _].
      unfold s3, s2, s1. simpl. now rewrite !lookup_insert_ne by congruence.
  - pose proof (is_list_NoDup _ _ _ Hl) as Hnd. simpl in Hnd.
    apply NoDup_cons in Hnd as [Hc _].
    simpl in Hl. destruct Hl as (_ & nx & Hc' & -> & nxm & Hm & Hl).
    simpl in Hne. apply Forall_cons in Hne as [Hdm Hne].
    destruct fuel as [|fuel]; [simpl in Hfuel; lia|]. simpl in Hfuel.
    cbn [remove_loop]. munfold.
    rewrite (bind_ret_l _ _ _ _ _ (load_live w curr _ s Hc')). cbn [next].
    rewrite (bind_ret_l _ _ _ _ _ (load_live w m _ s Hm)). cbn [data].
    destruct (Z.eqb_spec dm pid) as [|_]; [contradiction|].
    unfold bind at 1. unfold ret at 1.
    destruct (IH fuel m dm a pid post s Hw) as
      (s' & Hrun & Hl' & Ha' & Hframe & Htr & Hp & Hch);
      [simpl; split; [reflexivity|]; eauto | exact Hne | lia |].
    exists s'. split; [exact Hrun|].
    split; [|split; [exact Ha' | split; [|auto]]].
    + split; [reflexivity|]. exists (Some m). split; [|exact Hl'].
      rewrite Hframe; [exact Hc'|].
      intros Hin. apply Hc.
      assert (E : ((m, dm) :: mid ++ (a, pid) :: post).*1
                  = (((m, dm) :: mid) ++ [(a, pid)]).*1 ++ post.*1).
      { rewrite <- fmap_app, <- app_assoc. reflexivity. }
      change (curr ∈ ((m, dm) :: mid ++ (a, pid) :: post).*1).
      rewrite E. apply elem_of_app. now left.
    + intros x Hx. apply Hframe. intros Hin. apply Hx. simpl. now right.
Qed.

Lemma report_and_remove_stale (w : world) (h0 : N) (d0 : Z)
    (mid : list (N * Z)) (a : N) (pid st : Z) (post : list (N * Z))
    (s : state) :
  w_uaf w = Stale ->
  is_list (heap s) (pid_head s) ((h0, d0) :: mid ++ (a, pid) :: post) ->
  d0 ≠ pid -> Forall (fun q => q ≠ pid) mid.*2 ->
  exists s',
    report_and_remove w pid (Some st) s = Ret tt s' /\
    trace s' = trace s ++ sweep_report pid st /\
    pid_head s' = pid_head s /\
    children s' = children s /\
    is_list (heap s') (pid_head s) ((h0, d0) :: mid ++ post) /\
    heap s' !! a = Some (false, {| data := pid; next := None |}).
Proof.
  intros Hw Hl Hd0 Hmid. unfold report_and_remove. munfold.
  cbn [from_option].
  rewrite (bind_ret_l _ _ _ _ _ (eq_refl : ret st s = Ret st s)).
  destruct (sweep_print pid st s) as (s2 & Hprint & Htr & Hh2 & Hp2 & Hc2).
  rewrite (bind_ret_l _ _ _ _ _ Hprint).
  assert (Hl' := Hl). simpl in Hl. destruct Hl as (Hp & nx0 & Hh0 & _).
  unfold bind at 1. unfold get. rewrite Hp2, Hp.
  assert (Hh02 : heap s2 !! h0 = Some (true, {| data := d0; next := nx0 |}))
    by (rewrite Hh2; exact Hh0).
  rewrite (bind_ret_l _ _ _ _ _ (load_live w h0 _ s2 Hh02)). cbn [data].
  destruct (Z.eqb_spec d0 pid) as [|_]; [contradiction|].
  unfold list_fuel. unfold bind at 1. unfold get.
  destruct (remove_loop_stale w mid (S (size (heap s2))) h0 d0 a pid post s2
              Hw) as (s' & Hrun & Hl2 & Ha' & _ & Htr' & Hp' & Hch').
  - rewrite Hh2, <- Hp. exact Hl'.
  - exact Hmid.
  - apply is_list_length in Hl'. rewrite Hh2.
    simpl in Hl'. rewrite length_app in Hl'. simpl in Hl'. lia.
  - exists s'. split; [exact Hrun|].
    rewrite Htr', Hp', Hch', Htr, Hp2, Hc2, Hp.
    split; [reflexivity|]. split; [reflexivity|]. split; [reflexivity|].
    split; [exact Hl2 | exact Ha'].
Qed.

Lemma wait_background_loop_stale (w : world) (pre2 : list (N * Z)) :
  forall (pre1 : list (N * Z)) (fuel : nat) (temp : option N)
         (ec : option Z) (s : state) (a : N) (pid : Z)
         (post : list (N * Z)) (st : Z),
    w_uaf w = Stale ->
    is_list (heap s) (pid_head s) ((pre1 ++ pre2) ++ (a, pid) :: post) ->
    is_list (heap s) temp (pre2 ++ (a, pid) :: post) ->
    (forall q, q ∈ (pre1 ++ pre2).*2 ->
       exists fate, children s !! q = Some (Running fate)) ->
    children s !! pid = Some (Zombie st) -> pid ≠ 0 ->
    (length pre2 < fuel)%nat ->
    exists s',
      wait_background_loop w fuel temp ec s = Ret tt s' /\
      is_list (heap s') (pid_head s') ((pre1 ++ pre2) ++ post) /\
      trace s' = trace s ++ map (fun q => EvWaitpid q WNOHANG) pre2.*2
                 ++ EvWaitpid pid WNOHANG :: sweep_report pid st /\
      children s' = delete pid (children s).
Proof.
  induction pre2 as [|[b q] pre2 IH];
    intros pre1 fuel temp ec s a pid post st Hw Hfull Htemp Hrun Hz
           Hpid Hfuel.
  - rewrite app_nil_r in *. simpl in Htemp.
    destruct Htemp as (-> & nxa & Ha & Hpost).
    destruct fuel as [|fuel]; [simpl in Hfuel; lia|].
    cbn [wait_background_loop]. munfold.
    rewrite (bind_ret_l _ _ _ _ _ (load_live w a _ s Ha)). cbn [data].
    set (s1 := set_children (delete pid (children s))
                 (log (EvWaitpid pid WNOHANG) s)).
    assert (Hwait : waitpid pid WNOHANG s = Ret (pid, Some st) s1).
    { unfold waitpid. now rewrite Hz. }
    rewrite (bind_ret_l _ _ _ _ _ Hwait). cbn beta iota zeta.
    destruct (Z.eqb_spec pid 0) as [|_]; [contradiction|]. cbn [negb].
    destruct pre1 as [|[h0 d0] pre1].
    + pose proof (is_list_NoDup _ _ _ Hfull) as Hnd. simpl in Hnd.
      apply NoDup_cons in Hnd as [Hapost _].
      simpl in Hfull. destruct Hfull as (Hhead & _).
      destruct (report_and_remove_head w a pid st nxa s1 Hhead Ha)
        as (s2 & Hrr & Htr & Hp2 & Hh2 & Hc2).
      rewrite (bind_ret_l _ _ _ _ _ Hrr).
      unfold bind at 1. unfold get. rewrite Hp2.
      assert (Ha2 : heap s2 !! a
                    = Some (false, {| data := pid; next := None |}))
        by (rewrite Hh2; apply lookup_insert_eq).
      assert (Hend : match nxa with
                     | Some _ =>
                         bind (load w a) (fun n =>
                           wait_background_loop w fuel (next n) (Some st))
                     | None => wait_background_loop w fuel None (Some st)
                     end s2 = Ret tt s2).
      { destruct nxa.
        - rewrite (bind_ret_l _ _ _ _ _ (load_stale w a _ _ s2 Hw Ha2)).
          cbn [next]. now rewrite wait_background_loop_NULL.
        - now rewrite wait_background_loop_NULL. }
      exists s2. split; [exact Hend|]. rewrite Hp2, Hh2, Htr, Hc2.
      split; [|split; [|reflexivity]].
      * simpl. apply is_list_insert_other; assumption.
      * unfold s1. simpl. now rewrite <- app_assoc.
    + destruct (report_and_remove_stale w h0 d0 pre1 a pid st post s1 Hw)
        as (s2 & Hrr & Htr & Hp2 & Hc2 & Hl2 & Ha2).
      * exact Hfull.
      * intros ->. destruct (Hrun pid) as [fate Hf]; [simpl; left|].
        congruence.
      * apply Forall_forall. intros x Hx ->.
        destruct (Hrun pid) as [fate Hf]; [simpl; right; exact Hx|].
        congruence.
      * rewrite (bind_ret_l _ _ _ _ _ Hrr).
        unfold bind at 1. unfold get. rewrite Hp2.
        simpl in Hfull. destruct Hfull as (Hhead & _).
        cbn [pid_head s1 set_children log]. rewrite Hhead.
        rewrite (bind_ret_l _ _ _ _ _ (load_stale w a _ _ s2 Hw Ha2)).
        cbn [next]. rewrite wait_background_loop_NULL.
        exists s2. split; [reflexivity|]. rewrite Hp2, Htr, Hc2.
        split; [|split; [|reflexivity]].
        -- cbn [pid_head s1 set_children log]. rewrite Hhead.
           cbn [pid_head s1 set_children log] in Hl2. rewrite Hhead in Hl2.
           exact Hl2.
        -- unfold s1. simpl. now rewrite <- app_assoc.
  - simpl in Htemp. destruct Htemp as (-> & nxb & Hb & Htemp).
    destruct fuel as [|fuel]; [simpl in Hfuel; lia|]. simpl in Hfuel.
    destruct (Hrun q) as [fate Hq].
    { rewrite fmap_app. apply elem_of_app. right. left. }
    assert (Hhd : is_Some (pid_head s)).
    { destruct pre1 as [|[h0 d0] pre1]; simpl in Hfull;
        destruct Hfull as (-> & _); eauto. }
    destruct Hhd as [hd Hhd].
    cbn [wait_background_loop]. munfold.
    rewrite (bind_ret_l _ _ _ _ _ (load_live w b _ s Hb)). cbn [data].
    set (s1 := log (EvWaitpid q WNOHANG) s).
    assert (Hwait : waitpid q WNOHANG s = Ret (0, None) s1).
    { unfold waitpid. rewrite Hq. reflexivity. }
    rewrite (bind_ret_l _ _ _ _ _ Hwait). cbn beta iota zeta.
    cbn [Z.eqb negb]. unfold bind at 1. unfold ret at 1.
    unfold bind at 1. unfold get. cbn [pid_head s1 log]. rewrite Hhd.
    rewrite (bind_ret_l _ _ _ _ _ (load_live w b _ s1 Hb)). cbn [next].
    assert (Happ : (pre1 ++ [(b, q)]) ++ pre2 = pre1 ++ (b, q) :: pre2)
      by (rewrite <- app_assoc; reflexivity).
    destruct (IH (pre1 ++ [(b, q)]) fuel nxb ec s1 a pid post st Hw)
      as (s' & Hrun' & Hl' & Htr' & Hc');
      rewrite ?Happ; auto; try lia.
    exists s'. split; [exact Hrun'|]. rewrite Happ in Hl'.
    split; [exact Hl'|]. split; [|exact Hc'].
    rewrite Htr'. unfold s1. simpl. now rewrite <- app_assoc.
Qed.

(** X12.  Where freed memory still holds what was stored in it, the sweep
    stops at the first child that has ended: the running children before it
    are polled, it is polled, reported and unlinked, and the entries after
    it are not polled in this sweep, whatever their state. *)
Theorem sweep_stops_at_first_ended (w : world) (pre post : list (N * Z))
    (a : N) (pid st : Z) (s : state) :
  w_uaf w = Stale ->
  is_list (heap s) (pid_head s) (pre ++ (a, pid) :: post) ->
  (forall q, q ∈ pre.*2 ->
     exists fate, children s !! q = Some (Running fate)) ->
  children s !! pid = Some (Zombie st) -> pid ≠ 0 ->
  exists s',
    wait_background w s = Ret tt s' /\
    is_list (heap s') (pid_head s') (pre ++ post) /\
    trace s' = trace s ++ map (fun q => EvWaitpid q WNOHANG) pre.*2
               ++ EvWaitpid pid WNOHANG :: sweep_report pid st /\
    children s' = delete pid (children s).
Proof.
  intros Hw Hl Hrun Hz Hpid.
  unfold wait_background, list_fuel. munfold. unfold bind at 1, get.
  unfold bind at 1.
  apply (wait_background_loop_stale w pre [] _ _ _ s a pid post st);
    rewrite ?app_nil_l; auto.
  apply is_list_length in Hl. rewrite length_app in Hl. lia.
Qed.

Lemma sweep_stops_at_first_ended_witness :
  exists s',
    wait_background (demo Stale) (final_state (children_end [100] two_running))
      = Ret tt s' /\
    is_list (heap s') (pid_head s') ([(1%N, 101)] ++ []) /\
    trace s' = trace (final_state (children_end [100] two_running))
               ++ map (fun q => EvWaitpid q WNOHANG) [(1%N, 101)].*2
               ++ EvWaitpid 100 WNOHANG :: sweep_report 100 0 /\
    children s' = delete 100
                    (children (final_state (children_end [100] two_running))).
Proof.
  apply (sweep_stops_at_first_ended (demo Stale) [(1%N, 101)] [] 0%N 100 0).
  - reflexivity.
  - split; [reflexivity|]. eexists. split; [vm_compute; reflexivity|].
    split; [reflexivity|]. eexists. split; [vm_compute; reflexivity|].
    reflexivity.
  - intros q Hq. apply list_elem_of_singleton in Hq. subst q.
    eexists. vm_compute. reflexivity.
  - vm_compute. reflexivity.
  - discriminate.
Defined.

(** ** The child when something fails *)

Lemma bind_exited {A B} (m : M A) (k : A -> M B) (s s' : state) (c : Z) :
  m s = Exited c s' -> bind m k s = Exited c s'.
Proof. intros H. unfold bind. now rewrite H. Qed.

Lemma exit_in_err_child_spec (w : world) (message : string) (inp : Input)
    (cmd : option (list string)) (cells : list (N * Z)) (s : state) :
  is_list (heap s) (pid_head s) cells ->
  exists s',
    exit_in_err_child w message inp cmd s = Exited 1 s' /\
    trace s' = trace s ++ [EvPrintf (message +:+ nl)] /\
    fds s' = fds s /\ pid_head s' = None.
Proof.
  intros Hl.
  destruct (free_nodes_spec w cells (log (EvPrintf (message +:+ nl)) s) Hl)
    as (s' & Hfree & Hp & Htr & _ & Hfd & _).
  exists s'. split; [|auto].
  unfold exit_in_err_child, dynamic_mem_clean, free_input, free_cmd, printf,
    emit, exit. munfold.
  unfold bind at 1. unfold modify. unfold bind at 1. unfold bind at 1.
  unfold ret at 1. rewrite Hfree. reflexivity.
Qed.

Lemma child_handler_spec (inp : Input) (s : state) :
  exists s',
    child_handler inp s = Ret tt s' /\
    trace s' = trace s ++ child_handler_events inp /\
    fds s' = fds s /\ heap s' = heap s /\ pid_head s' = pid_head s.
Proof.
  unfold child_handler, child_handler_events, ignore_sigint, default_sigint,
    sigaction, emit, modify. munfold. unfold bind.
  destruct (is_background inp =? TRUE); eexists;
    (split; [reflexivity|]); simpl; rewrite <- app_assoc; auto.
Qed.

(** The child up to the redirection block. *)
Lemma child_start (w : world) (inp : Input) (fate : option Z) (s : state) :
  well_formed inp ->
  exists c s1,
    command inp = Some c /\
    execute_smallsh w inp 0 fate s =
      bind (redirect_input w inp (c :: default [] (args inp)) 0)
        (fun exit_code =>
           bind (redirect_output w inp (c :: default [] (args inp)) exit_code)
             (fun exit_code =>
                run_command w inp (c :: default [] (args inp)) exit_code))
        s1 /\
    trace s1 = trace s ++ child_handler_events inp /\
    fds s1 = fds s /\ heap s1 = heap s /\ pid_head s1 = pid_head s.
Proof.
  intros Hwf. destruct (build_cmd_well_formed inp Hwf) as (c & Hc & Hcmd).
  destruct (child_handler_spec inp (set_children ∅ s))
    as (s1 & Hh & Htr & Hfd & Hhp & Hp).
  exists c, s1. split; [exact Hc|]. split; [|auto].
  unfold execute_smallsh, child_branch. munfold.
  unfold bind at 1. unfold fork. cbn [Z.eqb].
  rewrite (bind_ret_l _ _ _ _ _ Hh).
  rewrite (bind_ret_l _ _ _ _ _ (Hcmd s1)). reflexivity.
Qed.

(** X13.  The child of a request whose input file cannot be opened prints
    its diagnostic and exits with status 1: the output file is not opened,
    so not created or truncated, and no program is run. *)
Theorem child_input_failure (w : world) (inp : Input) (fate : option Z)
    (p : string) (cells : list (N * Z)) (s : state) :
  well_formed inp ->
  input_file inp = Some p -> w_open w p O_RDONLY = false ->
  is_list (heap s) (pid_head s) cells ->
  exists s',
    execute_smallsh w inp 0 fate s = Exited 1 s' /\
    trace s' = trace s ++ child_handler_events inp ++
      [EvOpen p O_RDONLY None (-1);
       EvPrintf ("Error: input file could not be opened" +:+ nl)] /\
    fds s' = fds s.
Proof.
  intros Hwf Hin Hopen Hl.
  destruct (child_start w inp fate s Hwf)
    as (c & s1 & Hc & Hrun & Htr & Hfd & Hh & Hp).
  set (s2 := log (EvOpen p O_RDONLY None (-1)) s1).
  destruct (exit_in_err_child_spec w "Error: input file could not be opened"
              inp (Some (c :: default [] (args inp))) cells s2)
    as (s' & Hex & Htr' & Hfd' & _).
  { unfold s2. simpl. rewrite Hh, Hp. exact Hl. }
  exists s'. split.
  - rewrite Hrun. apply bind_exited. unfold redirect_input. rewrite Hin.
    munfold. unfold bind, open. rewrite Hopen. cbn [Z.eqb]. exact Hex.
  - rewrite Htr', Hfd'. unfold s2. simpl. rewrite Htr, Hfd.
    rewrite <- !app_assoc. split; reflexivity.
Qed.

Lemma child_input_failure_witness :
  exists s',
    execute_smallsh (demo Trap) cat_missing_bg 0 None two_running
      = Exited 1 s' /\
    trace s' = trace two_running ++ child_handler_events cat_missing_bg ++
      [EvOpen "missing" O_RDONLY None (-1);
       EvPrintf ("Error: input file could not be opened" +:+ nl)] /\
    fds s' = fds two_running.
Proof.
  apply (child_input_failure (demo Trap) cat_missing_bg None "missing"
           [(1%N, 101); (0%N, 100)] two_running).
  - split; [eexists; reflexivity | reflexivity].
  - reflexivity.
  - reflexivity.
  - split; [reflexivity|]. eexists. split; [vm_compute; reflexivity|].
    split; [reflexivity|]. eexists. split; [vm_compute; reflexivity|].
    reflexivity.
Defined.

Lemma redirect_input_spec (w : world) (inp : Input) (cmd : list string)
    (ec : Z) (s : state) (i0 i1 : ofile) :
  fds s !! STDIN_FILENO = Some i0 ->
  fds s !! STDOUT_FILENO = Some i1 ->
  (forall p, input_file inp = Some p -> w_open w p O_RDONLY = true) ->
  w_open w "/dev/null" O_RDONLY = true ->
  exists s',
    redirect_input w inp cmd ec s = Ret ec s' /\
    trace s' = trace s ++ redirect_input_events inp (lowest_fd (fds s)) /\
    is_Some (fds s' !! STDIN_FILENO) /\
    fds s' !! STDOUT_FILENO = Some i1 /\
    heap s' = heap s /\ pid_head s' = pid_head s.
Proof.
  intros H0 H1 Hin Hnull.
  unfold redirect_input, redirect_input_events. munfold.
  destruct (input_file inp) as [p|].
  - unfold bind, open. rewrite (Hin p eq_refl), lowest_fd_nonneg.
    unfold dup2. simpl. rewrite lookup_insert_eq.
    eexists. split; [reflexivity|]. simpl.
    rewrite <- app_assoc, lookup_insert_eq.
    rewrite !lookup_insert_ne;
      [eauto 10 | apply lowest_fd_not_open; eauto | discriminate].
  - destruct (is_background inp =? 1).
    + unfold bind, open. rewrite Hnull.
      unfold dup2. simpl. rewrite lookup_insert_eq.
      eexists. split; [reflexivity|]. simpl.
      rewrite <- app_assoc, lookup_insert_eq.
      rewrite !lookup_insert_ne;
        [eauto 10 | apply lowest_fd_not_open; eauto | discriminate].
    + exists s. rewrite app_nil_r. eauto 10.
Qed.

(** X14.  The child of a request whose output file cannot be opened, the
    input half of the redirection having succeeded, prints its diagnostic
    and exits with status 1 without running any program. *)
Theorem child_output_failure (w : world) (inp : Input) (fate : option Z)
    (p : string) (cells : list (N * Z)) (s : state) (i0 i1 : ofile) :
  well_formed inp ->
  fds s !! STDIN_FILENO = Some i0 ->
  fds s !! STDOUT_FILENO = Some i1 ->
  (forall q, input_file inp = Some q -> w_open w q O_RDONLY = true) ->
  w_open w "/dev/null" O_RDONLY = true ->
  output_file inp = Some p ->
  w_open w p (Z.lor (Z.lor O_WRONLY O_CREAT) O_TRUNC) = false ->
  is_list (heap s) (pid_head s) cells ->
  exists s',
    execute_smallsh w inp 0 fate s = Exited 1 s' /\
    trace s' = trace s ++ child_handler_events inp ++
      redirect_input_events inp (lowest_fd (fds s)) ++
      [EvOpen p (Z.lor (Z.lor O_WRONLY O_CREAT) O_TRUNC) (Some 384) (-1);
       EvPrintf ("Error: output file could not be opened" +:+ nl)] /\
    fds s' !! STDOUT_FILENO = Some i1.
Proof.
  intros Hwf H0 H1 Hin Hnull Hout Hopen Hl.
  destruct (child_start w inp fate s Hwf)
    as (c & s1 & Hc & Hrun & Htr & Hfd & Hh & Hp).
  destruct (redirect_input_spec w inp (c :: default [] (args inp)) 0 s1 i0 i1)
    as (s2 & Hri & Htr2 & _ & Ho2 & Hh2 & Hp2); rewrite ?Hfd; auto.
  set (s3 := log (EvOpen p (Z.lor (Z.lor O_WRONLY O_CREAT) O_TRUNC)
                    (Some 384) (-1)) s2).
  destruct (exit_in_err_child_spec w "Error: output file could not be opened"
              inp (Some (c :: default [] (args inp))) cells s3)
    as (s' & Hex & Htr' & Hfd' & _).
  { unfold s3. simpl. rewrite Hh2, Hp2, Hh, Hp. exact Hl. }
  exists s'. split.
  - rewrite Hrun. rewrite (bind_ret_l _ _ _ _ _ Hri). apply bind_exited.
    unfold redirect_output. rewrite Hout. munfold.
    unfold bind, open. rewrite Hopen. cbn [Z.eqb]. exact Hex.
  - rewrite Htr', Hfd'. unfold s3. simpl. rewrite Htr2, Htr, Hfd.
    rewrite <- !app_assoc. split; [reflexivity | exact Ho2].
Qed.

Lemma child_output_failure_witness :
  exists s',
    execute_smallsh (demo Trap) ls_to_missing 0 None two_running
      = Exited 1 s' /\
    trace s' = trace two_running ++ child_handler_events ls_to_missing ++
      redirect_input_events ls_to_missing (lowest_fd (fds two_running)) ++
      [EvOpen "missing" (Z.lor (Z.lor O_WRONLY O_CREAT) O_TRUNC) (Some 384)
         (-1);
       EvPrintf ("Error: output file could not be opened" +:+ nl)] /\
    fds s' !! STDOUT_FILENO = Some (Inherited 1).
Proof.
  apply (child_output_failure (demo Trap) ls_to_missing None "missing"
           [(1%N, 101); (0%N, 100)] two_running (Inherited 0) (Inherited 1)).
  - split; [eexists; reflexivity | reflexivity].
  - reflexivity.
  - reflexivity.
  - discriminate.
  - reflexivity.
  - reflexivity.
  - reflexivity.
  - split; [reflexivity|]. eexists. split; [vm_compute; reflexivity|].
    split; [reflexivity|]. eexists. split; [vm_compute; reflexivity|].
    reflexivity.
Defined.




(** ** What [status] prints *)

Lemma dispatch_status (w : world) (inp : Input) (exit_code fk : Z)
    (fate : option Z) :
  command inp = Some "status" ->
  dispatch w TRUE inp exit_code fk fate =
    bind (status_smallsh exit_code) (fun _ => ret exit_code).
Proof. intros Hc. unfold dispatch. simpl. now rewrite Hc. Qed.

Lemma status_smallsh_cause (t : termination) (s : state) :
  tellable t ->
  status_smallsh (wstatus t) s
  = Ret tt (log (EvPrintf (cause_text t +:+ nl)) s).
Proof.
  intros Ht. unfold status_smallsh, printf, emit, modify.
  destruct t as [code|sig core].
  - destruct (exited_status code) as (-> & -> & ->). reflexivity.
  - destruct (killed_status sig core Ht) as (-> & _ & ->). reflexivity.
Qed.

(** X16.  Round trip of the last status: after a foreground command whose
    child ended as [t], the built-in [status] prints the exit value or the
    signal that [t] names, prints nothing else, and leaves the status as it
    is, so that asking again gives the same answer. *)
Theorem status_after_foreground (w : world) (inp inp2 : Input) (c : string)
    (fork_pid exit_code fk2 : Z) (fate2 : option Z) (t : termination)
    (s : state) :
  command inp = Some c -> c ≠ "cd" -> c ≠ "status" ->
  is_background inp = FALSE -> 0 < fork_pid -> tellable t ->
  command inp2 = Some "status" ->
  exists s1 s2,
    dispatch w TRUE inp exit_code fork_pid (Some (wstatus t)) s
      = Ret (wstatus t) s1 /\
    dispatch w TRUE inp2 (wstatus t) fk2 fate2 s1 = Ret (wstatus t) s2 /\
    trace s2 = trace s1 ++ [EvPrintf (cause_text t +:+ nl)].
Proof.
  intros Hc Hcd Hst Hfg Hpid Ht Hc2.
  destruct (foreground_wait w inp fork_pid (wstatus t) s Hpid Hfg)
    as (s1 & Hrun & _).
  exists s1, (log (EvPrintf (cause_text t +:+ nl)) s1).
  split; [|split; [|reflexivity]].
  - rewrite (dispatch_external w inp exit_code fork_pid _ c Hc Hcd Hst).
    exact Hrun.
  - rewrite (dispatch_status w inp2 _ fk2 fate2 Hc2).
    rewrite (bind_ret_l _ _ _ _ _ (status_smallsh_cause t s1 Ht)).
    reflexivity.
Qed.

Lemma status_after_foreground_witness :
  exists s1 s2,
    dispatch (demo Trap) TRUE ls_fg 0 7
      (Some (wstatus (KilledBy SIGINT false))) (init_state "/")
      = Ret (wstatus (KilledBy SIGINT false)) s1 /\
    dispatch (demo Trap) TRUE status_cmd (wstatus (KilledBy SIGINT false))
      (-1) None s1 = Ret (wstatus (KilledBy SIGINT false)) s2 /\
    trace s2
      = trace s1 ++ [EvPrintf (cause_text (KilledBy SIGINT false) +:+ nl)].
Proof.
  apply (status_after_foreground (demo Trap) ls_fg status_cmd "ls" 7 0 (-1)
           None (KilledBy SIGINT false) (init_state "/")).
  - reflexivity.
  - discriminate.
  - discriminate.
  - reflexivity.
  - lia.
  - unfold tellable, deadly. vm_compute. split; discriminate.
  - reflexivity.
Defined.



(** X18.  When [fork] fails, the 1 that [execute_smallsh] returns is kept
    as if it were a wait status: the [status] that follows prints
    "terminated by signal 1", though no process was ever signalled. *)
Theorem status_after_fork_failure (w : world) (inp inp2 : Input) (c : string)
    (exit_code fk2 : Z) (fate fate2 : option Z) (s : state) :
  command inp = Some c -> c ≠ "cd" -> c ≠ "status" ->
  command inp2 = Some "status" ->
  exists s1 s2,
    dispatch w TRUE inp exit_code (-1) fate s = Ret 1 s1 /\
    trace s1 = trace s ++ [EvFork (-1)] /\
    dispatch w TRUE inp2 1 fk2 fate2 s1 = Ret 1 s2 /\
    trace s2 = trace s1 ++ [EvPrintf ("terminated by signal 1" +:+ nl)].
Proof.
  intros Hc Hcd Hst Hc2.
  exists (log (EvFork (-1)) s),
         (log (EvPrintf ("terminated by signal 1" +:+ nl))
            (log (EvFork (-1)) s)).
  split; [|split; [reflexivity|split; [|reflexivity]]].
  - rewrite (dispatch_external w inp exit_code (-1) fate c Hc Hcd Hst).
    reflexivity.
  - rewrite (dispatch_status w inp2 _ fk2 fate2 Hc2). reflexivity.
Qed.

Lemma status_after_fork_failure_witness :
  exists s1 s2,
    dispatch (demo Trap) TRUE ls_fg 0 (-1) None (init_state "/")
      = Ret 1 s1 /\
    trace s1 = trace (init_state "/") ++ [EvFork (-1)] /\
    dispatch (demo Trap) TRUE status_cmd 1 (-1) None s1 = Ret 1 s2 /\
    trace s2 = trace s1 ++ [EvPrintf ("terminated by signal 1" +:+ nl)].
Proof.
  apply (status_after_fork_failure (demo Trap) ls_fg status_cmd "ls" 0 (-1)
           None None (init_state "/")).
  - reflexivity.
  - discriminate.
  - discriminate.
  - reflexivity.
Defined.

(** ** The mode flag under repeated signals *)






